(** * word2vec_pipeline: the artifact loaders of [utils/data_utils.py]

    A shallow embedding of the loaders and writers of [data_utils.py]
    (h5 stores, sharded CSV tables, document vectors) and the properties
    of the artifact layer proved about them.

    Layout: exceptions and results; the numpy, h5py, pandas and joblib
    operations the module calls, each modelled by what its documentation
    promises; the functions of [data_utils.py] themselves; then the
    lemmas. *)

From Stdlib Require Import ZArith Lia.
From stdpp Require Import base tactics option list strings gmap sorting.

Local Open Scope Z_scope.

(** ** Exceptions and results *)

(** What a [ValueError] says.  The first two are the messages built in
    [data_utils.py]; the others are raised by the libraries. *)
Inductive message : Type :=
  | NotFoundIn (key path : string)
      (* "{} not found in {}".format(key, f_h5) *)
  | ColumnsMismatch (requested actual : list string)
      (* "Columns requested {}, do not match columns in input csv {}" *)
  | UsecolsMissing (missing : list string)
      (* pandas: usecols names that the header lacks *)
  | NoObjectsToConcatenate
      (* pandas: concat of an empty sequence *)
  | NeedAtLeastOneArray
      (* numpy: concatenate of an empty sequence *)
  | DimensionMismatch
      (* numpy: concatenated arrays disagree off the stacking axis *)
  | NameAlreadyExists (name : string)
      (* h5py: create_dataset on a taken name *)
  | FilterUnavailable (name : string).
      (* h5py: create_dataset with a compression filter it cannot encode *)

Inductive exn : Type :=
  | ValueError (m : message)
  | KeyError (key : string)
  | IndexError
  | AssertionError
  | TypeError
  | IOError (path : string).

Inductive result (A : Type) : Type :=
  | Ok (a : A)
  | Raise (e : exn).
Arguments Ok {A} a.
Arguments Raise {A} e.

Definition is_ok {A} (r : result A) : bool :=
  match r with Ok _ => true | Raise _ => false end.

#[global] Instance result_ret : MRet result := λ A x, Ok x.
#[global] Instance result_bind : MBind result := λ A B f m,
  match m with Ok a => f a | Raise e => Raise e end.
#[global] Instance result_fmap : FMap result := λ A B f m,
  match m with Ok a => Ok (f a) | Raise e => Raise e end.

Definition lift_option {A} (e : exn) (o : option A) : result A :=
  match o with Some a => Ok a | None => Raise e end.

(** ** numpy *)

Section numpy.
Context {scalar : Type}.

(** A 2-d array of shape [(length mrows, ncols)]. *)
Record matrix : Type := Matrix { ncols : nat; mrows : list (list scalar) }.

Definition shape0 (X : matrix) : nat := length (mrows X).

(** [np.hstack] of 1-d arrays. *)
Definition np_hstack (arrs : list (list Z)) : result (list Z) :=
  match arrs with
  | [] => Raise (ValueError NeedAtLeastOneArray)
  | _ => Ok (concat arrs)
  end.

(** [np.vstack] of 2-d arrays: the column counts have to agree. *)
Definition np_vstack (ms : list matrix) : result matrix :=
  match ms with
  | [] => Raise (ValueError NeedAtLeastOneArray)
  | m :: rest =>
      if forallb (λ m', Nat.eqb (ncols m') (ncols m)) rest
      then Ok (Matrix (ncols m) (concat (mrows <$> ms)))
      else Raise (ValueError DimensionMismatch)
  end.

(** Iterating a 2-d array yields its rows, each a 1-d array that
    [np.vstack] promotes to shape [(1, ncols)]. *)
Definition iter_rows (X : matrix) : list matrix :=
  (λ r, Matrix (ncols X) [r]) <$> mrows X.

(** Indexing with an integer array, [a[idx]]. *)
Definition np_take {A} (a : list A) (idx : list nat) : result (list A) :=
  mapM (λ i, lift_option IndexError (a !! i)) idx.

Definition take_rows (X : matrix) (idx : list nat) : result matrix :=
  Matrix (ncols X) <$> np_take (mrows X) idx.
End numpy.
Arguments matrix : clear implicits.

(** What [np.argsort] promises of its result: the indices of the array,
    each once, in an order that sorts it.  The default kind (quicksort)
    promises nothing about the order of equal elements. *)
Definition argsort_spec (argsort : list Z → list nat) : Prop :=
  ∀ a : list Z,
    argsort a ≡ₚ seq 0 (length a) ∧
    Sorted Z.le ((λ i, default 0 (a !! i)) <$> argsort a).

(** A sort is stable when it keeps equal elements in the order they
    have in the array. *)
Definition argsort_stable (argsort : list Z → list nat) : Prop :=
  ∀ (a : list Z) (p q x y : nat),
    (p < q)%nat → argsort a !! p = Some x → argsort a !! q = Some y →
    a !! x = a !! y → (x < y)%nat.

(** Sorts that meet it: merge sort on the elements paired with their
    positions, equal elements in the order of their positions or in the
    reverse of it. *)
Definition tie_le (forward : bool) (p q : Z * nat) : Prop :=
  p.1 < q.1 ∨ (p.1 = q.1 ∧ if forward then (p.2 ≤ q.2)%nat else (q.2 ≤ p.2)%nat).
#[global] Instance tie_le_dec forward p q : Decision (tie_le forward p q).
Proof. unfold tie_le. destruct forward; apply _. Defined.

Definition enumerate (a : list Z) : list (Z * nat) := zip a (seq 0 (length a)).

Definition argsort_ties (forward : bool) (a : list Z) : list nat :=
  (merge_sort (tie_le forward) (enumerate a)).*2.

Definition argsort_forward : list Z → list nat := argsort_ties true.

(** ** h5py: groups, files and handles *)

(** The members of a group (or of the root of a file), in the order in
    which iterating the group yields them. *)
Abbreviation h5group T := (list (string * T)).

Section h5group.
Context {T : Type}.

Definition h5_keys (g : h5group T) : list string := g.*1.

Definition h5_contains (k : string) (g : h5group T) : bool :=
  bool_decide (k ∈ h5_keys g).

Fixpoint h5_get (k : string) (g : h5group T) : option T :=
  match g with
  | [] => None
  | (k', v) :: g' => if decide (k' = k) then Some v else h5_get k g'
  end.

(** [del g[k]] *)
Definition h5_del (k : string) (g : h5group T) : h5group T :=
  filter (λ kv, kv.1 ≠ k) g.

(** Linking a new member; h5py refuses a name that is taken. *)
Definition h5_link (k : string) (v : T) (g : h5group T) : result (h5group T) :=
  if h5_contains k g then Raise (ValueError (NameAlreadyExists k))
  else Ok (g ++ [(k, v)]).
End h5group.

(** A member of a store whose datasets hold arrays of type [A]: a
    dataset (with the compression filter it was written with) or a
    group of datasets.  The stores of the pipeline are two levels deep. *)
Inductive node (A : Type) : Type :=
  | Dataset (data : A) (compression : string)
  | Group (members : h5group (A * string)).
Arguments Dataset {A} data compression.
Arguments Group {A} members.

(** The file modes ['r'], ['w'] and ['r+']. *)
Inductive mode : Type := ModeR | ModeW | ModeRW.
#[global] Instance mode_eq_dec : EqDecision mode.
Proof. solve_decision. Defined.

Record handle : Type := Handle { h_path : string; h_mode : mode }.
#[global] Instance handle_eq_dec : EqDecision handle.
Proof. solve_decision. Defined.

(** The world the store routines act on: the h5 files on disk (each the
    members of its root), the handles that are open, and the datasets
    read so far as (file, dataset path) pairs, latest first. *)
Record world (T : Type) : Type := World {
  fs : gmap string (h5group T);
  opened : list handle;
  reads : list (string * list string)
}.
Arguments World {T} fs opened reads.
Arguments fs {T} w.
Arguments opened {T} w.
Arguments reads {T} w.

(** What [h5.keys()] returns: a view of the root group behind the
    handle, not a list of its names. *)
Record keys_view : Type := KeysView { view_of : handle }.

(** Computations that may raise and that act on the world. *)
Definition M (T A : Type) : Type := world T → result A * world T.

#[global] Instance M_ret {T} : MRet (M T) := λ A x w, (Ok x, w).
#[global] Instance M_bind {T} : MBind (M T) := λ A B f m w,
  match m w with
  | (Ok a, w') => f a w'
  | (Raise e, w') => (Raise e, w')
  end.

Section h5py.
Context {T : Type}.

Definition raise {A} (e : exn) : M T A := λ w, (Raise e, w).

Definition lift {A} (r : result A) : M T A := λ w, (r, w).

(** [os.path.exists] *)
Definition os_path_exists (path : string) : M T bool :=
  λ w, (Ok (bool_decide (is_Some (fs w !! path))), w).

(** [h5py.File(path, mode)]: ['r'] and ['r+'] need the file to exist,
    ['w'] creates it or truncates it. *)
Definition h5py_File (path : string) (m : mode) : M T handle := λ w,
  let h := Handle path m in
  match m with
  | ModeW => (Ok h, World (<[path := []]> (fs w)) (h :: opened w) (reads w))
  | _ =>
      match fs w !! path with
      | Some _ => (Ok h, World (fs w) (h :: opened w) (reads w))
      | None => (Raise (IOError path), w)
      end
  end.

Fixpoint remove_first (h : handle) (hs : list handle) : list handle :=
  match hs with
  | [] => []
  | h' :: hs' => if decide (h' = h) then hs' else h' :: remove_first h hs'
  end.

Definition h5_close (h : handle) : M T () := λ w,
  (Ok (), World (fs w) (remove_first h (opened w)) (reads w)).

(** [with h5py.File(path, mode) as h5: body]: the file is closed when
    the block is left, by its end, a [return] or an exception. *)
Definition with_File {A} (path : string) (m : mode)
    (body : handle → M T A) : M T A := λ w,
  match h5py_File path m w with
  | (Ok h5, w1) =>
      let '(r, w2) := body h5 w1 in
      (r, (h5_close h5 w2).2)
  | (Raise e, w1) => (Raise e, w1)
  end.

(** The root group behind an open handle. *)
Definition root (h5 : handle) : M T (h5group T) := λ w,
  (lift_option (IOError (h_path h5)) (fs w !! h_path h5), w).

(** Replace the root group behind a handle opened for writing. *)
Definition set_root (h5 : handle) (g : h5group T) : M T () := λ w,
  match h_mode h5 with
  | ModeR => (Raise (IOError (h_path h5)), w)
  | _ => (Ok (), World (<[h_path h5 := g]> (fs w)) (opened w) (reads w))
  end.

(** Record that a dataset is read from disk. *)
Definition log_read (h5 : handle) (name : list string) : M T () := λ w,
  (Ok (), World (fs w) (opened w) ((h_path h5, name) :: reads w)).

(** [name in view]: the view looks the name up in its file when it is
    asked; the view of a file that has been closed holds no name. *)
Definition view_contains (v : keys_view) (name : string) : M T bool := λ w,
  if bool_decide (view_of v ∈ opened w)
  then (g ← root (view_of v); mret (h5_contains name g)) w
  else (Ok false, w).

(** [with h5py.File(f_h5, 'r') as h5: return h5.keys()]; [f_h5] is the
    path the configuration resolves to.  The view is returned through
    the end of the block, which closes the file. *)
Definition get_score_methods (f_h5 : string) : M T keys_view :=
  with_File f_h5 ModeR (λ h5, mret (KeysView h5)).

(** A [for] loop that threads an accumulator. *)
Fixpoint for_each {A B} (xs : list A) (body : B → A → M T B) (acc : B)
    : M T B :=
  match xs with
  | [] => mret acc
  | x :: xs' => acc' ← body acc x; for_each xs' body acc'
  end.

(** [yields F m p]: on a disk [F], the computation [m] has the result
    [p]; it changes no file and leaves the open handles as they were. *)
Definition yields {A} (F : gmap string (h5group T)) (m : M T A)
    (p : result A) : Prop :=
  ∀ w, fs w = F → (m w).1 = p ∧ fs (m w).2 = F ∧ opened (m w).2 = opened w.
End h5py.

(** ** The store routines of [data_utils.py] *)

(** What h5py accepts when it creates a dataset.  An array is
    [storable] when its dtype has an HDF5 type (an array of Python
    objects has none) and it has a dimension to chunk along; a
    compression filter has to be one that the build can encode. *)
Class H5Data (A : Type) : Type := {
  storable : A → bool;
  filter_available : string → bool
}.

Section store.
Context `{H5Data A}.

(** [h5[key][:]] at the root of a file: the whole dataset is read. *)
Definition read_dataset (h5 : handle) (key : string) : M (node A) A :=
  g ← root h5;
  match h5_get key g with
  | None => raise (KeyError key)
  | Some (Group _) => raise TypeError
  | Some (Dataset a _) => _ ← log_read h5 [key]; mret a
  end.

Definition load_h5_file (f_h5 : string) (args : list string)
    : M (node A) (gmap string A) :=
  let data := ∅ in
  with_File f_h5 ModeR (λ h5,
    args ← match args with
           | [] => g ← root h5; mret (h5_keys g)
           | _ => mret args
           end;
    _ ← for_each args (λ _ key,
          g ← root h5;
          if negb (h5_contains key g)
          then raise (ValueError (NotFoundIn key f_h5))
          else mret ()) ();
    for_each args (λ data key,
      a ← read_dataset h5 key; mret (<[key := a]> data)) data).

Definition touch_h5 (f_db : string) : M (node A) handle :=
  b ← os_path_exists f_db;
  if negb b then h5py_File f_db ModeW else h5py_File f_db ModeRW.

(** A group object: a top-level group of an open file. *)
Record h5object : Type := H5Object { o_file : handle; o_name : string }.

(** [h5.require_group(name)] *)
Definition require_group (h5 : handle) (name : string)
    : M (node A) h5object :=
  g ← root h5;
  match h5_get name g with
  | Some (Group _) => mret (H5Object h5 name)
  | Some (Dataset _ _) => raise TypeError
  | None =>
      _ ← @set_root (node A) h5 (g ++ [(name, Group [])]);
      mret (H5Object h5 name)
  end.

Definition get_h5save_object (f_db method : string) : M (node A) h5object :=
  h5 ← touch_h5 f_db;
  g ← require_group h5 method;
  mret g.

Definition group_members (o : h5object) : M (node A) (h5group (A * string)) :=
  g ← root (o_file o);
  match h5_get (o_name o) g with
  | Some (Group ms) => mret ms
  | _ => raise (KeyError (o_name o))
  end.

(** A root group with the members of its group [name] replaced. *)
Definition with_members (name : string) (ms : h5group (A * string))
    (r : h5group (node A)) : h5group (node A) :=
  (λ kv : string * node A,
     if decide (kv.1 = name) then (kv.1, Group ms) else kv) <$> r.

Definition set_group_members (o : h5object) (ms : h5group (A * string))
    : M (node A) () :=
  g ← root (o_file o);
  set_root (o_file o) (with_members (o_name o) ms g).

(** [col in h5], [del h5[col]], [h5.create_dataset(col, data=...)] and
    [h5[col][:]] on a group object. *)
Definition group_contains (o : h5object) (col : string) : M (node A) bool :=
  ms ← group_members o; mret (h5_contains col ms).

Definition group_del (o : h5object) (col : string) : M (node A) () :=
  ms ← group_members o; set_group_members o (h5_del col ms).

Definition create_dataset (o : h5object) (col : string) (data : A)
    (compression : string) : M (node A) (h5object * string) :=
  ms ← group_members o;
  _ ← (if storable data then mret () else raise TypeError);
  _ ← (if filter_available compression then mret ()
       else raise (ValueError (FilterUnavailable compression)));
  ms' ← lift (h5_link col (data, compression) ms);
  _ ← set_group_members o ms';
  mret (o, col).

Definition group_read (o : h5object) (col : string) : M (node A) A :=
  ms ← group_members o;
  match h5_get col ms with
  | None => raise (KeyError col)
  | Some (a, _) => _ ← log_read (o_file o) [o_name o; col]; mret a
  end.

(** [compression] is [None] when the caller leaves the default. *)
Definition save_h5 (h5 : h5object) (col : string) (data : A)
    (compression : option string) : M (node A) (h5object * string) :=
  let compression := default "gzip"%string compression in
  b ← group_contains h5 col;
  _ ← (if b : bool then group_del h5 col else mret ());
  create_dataset h5 col data compression.

(** The body of the validation loop of [load_h5_file]. *)
Definition check (h5 : handle) (f_h5 : string) (_ : ()) (key : string)
    : M (node A) () :=
  g ← root h5;
  if negb (h5_contains key g)
  then raise (ValueError (NotFoundIn key f_h5))
  else mret ().

(** The block of [load_h5_file], on the handle that [with] binds. *)
Definition load_h5_file_block (f_h5 : string) (args : list string)
    (h5 : handle) : M (node A) (gmap string A) :=
  args ← match args with
         | [] => g ← root h5; mret (h5_keys g)
         | _ => mret args
         end;
  _ ← for_each args (check h5 f_h5) ();
  for_each args (λ data key,
    a ← read_dataset h5 key; mret (<[key := a]> data)) ∅.

(** What [h5[key][:]] gives at a root group [r]. *)
Definition dataset_of (r : h5group (node A)) (key : string) : result A :=
  match h5_get key r with
  | None => Raise (KeyError key)
  | Some (Group _) => Raise TypeError
  | Some (Dataset a _) => Ok a
  end.

(** The names [load_h5_file] goes through at a root group [r]. *)
Definition names_read (r : h5group (node A)) (args : list string)
    : list string :=
  match args with [] => h5_keys r | _ => args end.

(** The members of a group after [save_h5]: any dataset of that name
    is gone and the new one is linked. *)
Definition saved (col : string) (data : A) (compression : option string)
    (ms : h5group (A * string)) : h5group (A * string) :=
  h5_del col ms ++ [(col, (data, default "gzip"%string compression))].

(** Whether h5py takes the array with the filter, and what it raises
    when it does not. *)
Definition h5_accepts (data : A) (compression : option string) : bool :=
  storable data && filter_available (default "gzip"%string compression).

Definition refusal (data : A) (compression : option string) : exn :=
  if storable data then
    ValueError (FilterUnavailable (default "gzip"%string compression))
  else TypeError.

(** The world once [save_h5] has deleted the dataset [col] of the group
    [name] of the file at [path], if there was one. *)
Definition after_del (path name col : string) (r : h5group (node A))
    (ms : h5group (A * string)) (w : world (node A)) : world (node A) :=
  if h5_contains col ms
  then World (<[path := with_members name (h5_del col ms) r]> (fs w))
         (opened w) (reads w)
  else w.
End store.
Arguments h5object : clear implicits.

(** ** The document vectors *)

Section document_vectors.
Context {scalar : Type}.
Variable argsort : list Z → list nat.

(** A shard of a score method: its reference ids and its vectors at
    full ([V]) and at reduced ([VX]) dimension, each present or not. *)
Record shard : Type := Shard {
  ds_ref : option (list Z);
  ds_V : option (matrix scalar);
  ds_VX : option (matrix scalar)
}.

Definition vectors_of (vector_key : string) (s : shard)
    : option (matrix scalar) :=
  if decide (vector_key = "V"%string) then ds_V s
  else if decide (vector_key = "VX"%string) then ds_VX s
  else None.

(** [g[k]["_ref"][:]] and [g[k][vector_key][:]] *)
Definition read_ref (h5 : handle) (score_method k : string) (s : shard)
    : M (h5group shard) (list Z) :=
  match ds_ref s with
  | None => raise (KeyError "_ref")
  | Some a => _ ← log_read h5 [score_method; k; "_ref"%string]; mret a
  end.

Definition read_vectors (h5 : handle) (score_method k vector_key : string)
    (s : shard) : M (h5group shard) (matrix scalar) :=
  match vectors_of vector_key s with
  | None => raise (KeyError vector_key)
  | Some a => _ ← log_read h5 [score_method; k; vector_key]; mret a
  end.

(** The dictionary that is returned. *)
Record document_vectors : Type := DocumentVectors {
  docv : matrix scalar;
  _refs : list Z
}.

(** [f_h5] is the path the configuration resolves to; each member of
    the group is visited once, in the order of [g.keys()]. *)
Definition load_document_vectors (f_h5 score_method : string)
    (use_reduced : bool) : M (h5group shard) document_vectors :=
  with_File f_h5 ModeR (λ h5,
    r ← root h5;
    if negb (h5_contains score_method r) then raise AssertionError else
    g ← lift (lift_option (KeyError score_method) (h5_get score_method r));
    arrs ← mapM (λ '(k, s), read_ref h5 score_method k s) g;
    _refs ← lift (np_hstack arrs);
    let vector_key := (if use_reduced then "VX" else "V")%string in
    mats ← mapM (λ '(k, s), read_vectors h5 score_method k vector_key s) g;
    X ← lift (np_vstack mats);
    if negb (Nat.eqb (shape0 X) (length _refs)) then raise AssertionError else
    let sort_idx := argsort _refs in
    _refs ← lift (np_take _refs sort_idx);
    X ← lift (X' ← np_vstack (iter_rows X); take_rows X' sort_idx);
    mret (DocumentVectors X _refs)).

(** The result of [load_document_vectors] as a function of the root
    group of the store (lemma [load_document_vectors_yields]). *)
Definition assemble (r : h5group (h5group shard)) (score_method : string)
    (use_reduced : bool) : result document_vectors :=
  if negb (h5_contains score_method r) then Raise AssertionError else
  g ← lift_option (KeyError score_method) (h5_get score_method r);
  arrs ← mapM (λ ks, lift_option (KeyError "_ref") (ds_ref ks.2)) g;
  _refs ← np_hstack arrs;
  let vector_key := (if use_reduced then "VX" else "V")%string in
  mats ← mapM (λ ks, lift_option (KeyError vector_key)
                       (vectors_of vector_key ks.2)) g;
  X ← np_vstack mats;
  if negb (Nat.eqb (shape0 X) (length _refs)) then Raise AssertionError else
  let sort_idx := argsort _refs in
  _refs ← np_take _refs sort_idx;
  X ← (X' ← np_vstack (iter_rows X); take_rows X' sort_idx);
  mret (DocumentVectors X _refs).

(** The (reference id, vector) pairs that a shard stores side by side. *)
Definition shard_pairs (vector_key : string) (s : shard)
    : list (Z * list scalar) :=
  match ds_ref s, vectors_of vector_key s with
  | Some a, Some m => zip a (mrows m)
  | _, _ => []
  end.

Definition stored_pairs (vector_key : string) (g : h5group shard)
    : list (Z * list scalar) :=
  concat (shard_pairs vector_key <$> g.*2).

(** A shard holds as many reference ids as vectors, of [d] entries each. *)
Definition shard_aligned (vector_key : string) (d : nat) (s : shard) : Prop :=
  ∃ a m, ds_ref s = Some a ∧ vectors_of vector_key s = Some m ∧
         length a = shape0 m ∧ ncols m = d.

(** Every shard holds as many reference ids as vectors. *)
Definition rows_match (vector_key : string) (g : h5group shard) : Prop :=
  Forall (λ s, ∀ a m, ds_ref s = Some a → vectors_of vector_key s = Some m →
                      length a = shape0 m) g.*2.

(** The reference ids of all the shards of a group. *)
Definition stored_refs (g : h5group shard) : list Z :=
  concat ((λ s, default [] (ds_ref s)) <$> g.*2).

(** The name of the vector dataset that [use_reduced] selects. *)
Definition vkey (use_reduced : bool) : string :=
  if use_reduced then "VX"%string else "V"%string.
End document_vectors.
Arguments shard : clear implicits.
Arguments document_vectors : clear implicits.

(** ** pandas and joblib *)

(** The fields of a table.  Reference ids are integer-like: [ref_key]
    is the integer a field stands for when it is a reference id, and a
    [_ref] column is ordered by it. *)
Class Cell (cell : Type) : Type := {
  ref_key : cell → Z;
  nan : cell;               (* the missing value *)
  int_cell : nat → cell     (* an integer, as the labels of a default index *)
}.

Section pandas.
Context `{Cell cell}.
Variable argsort : list Z → list nat.

(** When jobs of a parallel run raise, the backend reports one of
    them: [reported] gives its position among the jobs that raise. *)
Variable reported : list exn → nat.

(** A parsed CSV file: the header row and the rows under it. *)
Record csv_file : Type := CsvFile {
  csv_header : list string;
  csv_rows : list (list cell)
}.

(** A frame: the column names, and each row with its index label. *)
Record DataFrame : Type := Frame {
  columns : list string;
  rows : list (cell * list cell)
}.

(** The position of the first column of that name. *)
Fixpoint column_pos (name : string) (cols : list string) : option nat :=
  match cols with
  | [] => None
  | c :: cols' =>
      if decide (c = name) then Some 0%nat else S <$> column_pos name cols'
  end.

Definition cell_at (j : nat) (r : list cell) : cell := default nan (r !! j).

(** The fields of a row that sit under one of the columns [usecols]. *)
Definition select_cells (header usecols : list string) (r : list cell)
    : list cell :=
  (filter (λ p, p.1 ∈ usecols) (zip header r)).*2.

(** [pd.read_csv(f, usecols=..., nrows=...)]: the selected columns come
    in the order of the file, whatever the order of [usecols]; a name
    in [usecols] that the header lacks is a [ValueError]. *)
Definition pd_read_csv (f : csv_file) (usecols : option (list string))
    (nrows : option nat) : result DataFrame :=
  let usecols := default (csv_header f) usecols in
  match filter (λ c, c ∉ csv_header f) usecols with
  | [] =>
      let body := match nrows with
                  | Some n => take n (csv_rows f)
                  | None => csv_rows f
                  end in
      Ok (Frame (filter (λ c, c ∈ usecols) (csv_header f))
            (imap (λ i r, (int_cell i, select_cells (csv_header f) usecols r))
               body))
  | missing => Raise (ValueError (UsecolsMissing missing))
  end.

Definition simple_CSV_read (f : csv_file) (cols : list string)
    : result DataFrame :=
  match pd_read_csv f (Some cols) None with
  | Raise (ValueError _) =>
      csv_cols ← columns <$> pd_read_csv f None (Some 0%nat);
      Raise (ValueError (ColumnsMismatch cols csv_cols))
  | dfx => dfx
  end.

(** The exceptions of the jobs that raise, in the order of the jobs. *)
Definition failures {Y} (rs : list (result Y)) : list exn :=
  omap (λ r, match r with Raise e => Some e | Ok _ => None end) rs.

(** [joblib.Parallel(n_jobs)(delayed(func)(x) for x in xs)]: the
    results come back in the order of the jobs, whatever [n_jobs] is.
    One worker runs the jobs in turn, and the first that raises ends
    the call.  With more workers the jobs are under way together, and
    which of the jobs that raise is reported is up to the backend. *)
Definition joblib_Parallel {X Y} (n_jobs : Z) (func : X → result Y)
    (xs : list X) : result (list Y) :=
  if decide (n_jobs = 1) then mapM func xs
  else
    match failures (func <$> xs) with
    | [] => mapM func xs
    | e :: es => Raise (default e ((e :: es) !! reported (e :: es)))
    end.

(** [pd.concat]: the columns are those of the frames in the order in
    which they first appear; a row is laid out under them, with the
    missing value where its frame has no such column. *)
Definition union_columns (frames : list DataFrame) : list string :=
  foldl (λ acc df, acc ++ filter (λ c, c ∉ acc) (columns df)) [] frames.

Definition reindex (cols own : list string) (r : list cell) : list cell :=
  (λ c, match column_pos c own with
        | Some j => cell_at j r
        | None => nan
        end) <$> cols.

Definition pd_concat (frames : list DataFrame) : result DataFrame :=
  match frames with
  | [] => Raise (ValueError NoObjectsToConcatenate)
  | _ =>
      let cols := union_columns frames in
      Ok (Frame cols
            (concat ((λ df, (λ r, (r.1, reindex cols (columns df) r.2))
                              <$> rows df) <$> frames)))
  end.

(** [df.sort_values(by)] on a column of reference ids. *)
Definition sort_values (by_ : string) (df : DataFrame) : result DataFrame :=
  match column_pos by_ (columns df) with
  | None => Raise (KeyError by_)
  | Some j =>
      let keys := (λ r, ref_key (cell_at j r.2)) <$> rows df in
      Frame (columns df) <$> np_take (rows df) (argsort keys)
  end.

(** [df.set_index(name)]: the column becomes the index and is dropped
    from the columns. *)
Definition set_index (name : string) (df : DataFrame) : result DataFrame :=
  match column_pos name (columns df) with
  | None => Raise (KeyError name)
  | Some j =>
      Ok (Frame (delete j (columns df))
            ((λ r, (cell_at j r.2, delete j r.2)) <$> rows df))
  end.

(** [df[name] = df.index]: an existing column is overwritten in place,
    a new one is added last. *)
Definition setitem_index (name : string) (df : DataFrame) : DataFrame :=
  match column_pos name (columns df) with
  | Some j => Frame (columns df) ((λ r, (r.1, <[j := r.1]> r.2)) <$> rows df)
  | None => Frame (columns df ++ [name]) ((λ r, (r.1, r.2 ++ [r.1])) <$> rows df)
  end.

(** [PARALLEL] is the [_PARALLEL] setting and [F_CSV] the files that
    [grab_files] finds in the import directory, in the order in which
    it lists them. *)
Definition load_ORG_data (PARALLEL : bool) (F_CSV : list csv_file)
    (extra_columns : option (list string)) : result DataFrame :=
  let cols := ["_ref"%string] in
  let cols := match extra_columns with
              | Some extra => cols ++ extra
              | None => cols
              end in
  let CORES := if PARALLEL then -1 else 1 in
  data ← joblib_Parallel CORES (λ x, simple_CSV_read x cols) F_CSV;
  df ← (df ← pd_concat data; df ← sort_values "_ref" df; set_index "_ref" df);
  let df := setitem_index "_ref" df in
  mret df.

(** The row of the loaded table that a row of fields under [own]
    columns gives: the reference id at [j] labels it and closes it. *)
Definition keyed (j : nat) (r : list cell) : cell * list cell :=
  (cell_at j r, delete j r ++ [cell_at j r]).

(** A parsed file is rectangular and its header names are distinct. *)
Definition csv_wf (f : csv_file) : Prop :=
  NoDup (csv_header f) ∧
  Forall (λ r, length r = length (csv_header f)) (csv_rows f).

(** The reference ids of a file whose [_ref] column is the [i]-th. *)
Definition csv_refs (i : nat) (f : csv_file) : list Z :=
  (λ r, ref_key (cell_at i r)) <$> csv_rows f.

(** The reference ids of a file, wherever its [_ref] column is. *)
Definition file_refs (f : csv_file) : list Z :=
  match column_pos "_ref" (csv_header f) with
  | Some i => csv_refs i f
  | None => []
  end.

(** A frame under the columns [sel] with full rows. *)
Definition frame_wf (sel : list string) (df : DataFrame) : Prop :=
  columns df = sel ∧ Forall (λ r, length r.2 = length sel) (rows df).

(** The rows of the files, cut down to the columns [cols]. *)
Definition selected (hdr cols : list string) (files : list csv_file)
    : list (list cell) :=
  select_cells hdr cols <$> concat (csv_rows <$> files).

(** A row of a file, cut down to the columns [cols] and laid out
    under the columns [U] of the concatenated table. *)
Definition laid_out (U cols : list string) (f : csv_file) (r : list cell)
    : list cell :=
  reindex U (filter (λ c, c ∈ cols) (csv_header f))
    (select_cells (csv_header f) cols r).

(** The columns [load_ORG_data] asks every file for. *)
Definition requested (extra_columns : option (list string)) : list string :=
  "_ref"%string :: default [] extra_columns.
End pandas.
Arguments csv_file : clear implicits.
Arguments DataFrame : clear implicits.

(** ** Sample data *)

(** Fields of a CSV file: integers, text and the missing value. *)
Inductive field : Type := Int (z : Z) | Str (s : string) | Missing.

#[global] Instance field_cell : Cell field := {|
  ref_key := λ c, match c with Int z => z | _ => 0 end;
  nan := Missing;
  int_cell := λ i, Int (Z.of_nat i)
|}.

(** A backend that reports the first of the jobs that raise, and one
    that reports the last. *)
Definition first_reported : list exn → nat := λ _, 0%nat.
Definition last_reported : list exn → nat := λ errs, pred (length errs).

(** Three shard files, [a.csv] with [_ref = [3, 1]], [b.csv] with
    [_ref = [2]] and [c.csv] with [_ref = [4]], and the table they
    load into. *)
Definition a_csv : csv_file field :=
  CsvFile ["_ref"; "payload"]%string
    [[Int 3; Str "gamma"]; [Int 1; Str "alpha"]].
Definition b_csv : csv_file field :=
  CsvFile ["_ref"; "payload"]%string [[Int 2; Str "beta"]].
Definition c_csv : csv_file field :=
  CsvFile ["_ref"; "payload"]%string [[Int 4; Str "delta"]].

Definition abc_table : DataFrame field :=
  Frame ["payload"; "_ref"]%string
    [(Int 1, [Str "alpha"; Int 1]); (Int 2, [Str "beta"; Int 2]);
     (Int 3, [Str "gamma"; Int 3]); (Int 4, [Str "delta"; Int 4])].

(** A file without a [_ref] column. *)
Definition payload_csv : csv_file field :=
  CsvFile ["payload"]%string [[Str "alpha"]].

(** Two files that list the same columns in different orders. *)
Definition xy_csv : csv_file field :=
  CsvFile ["_ref"; "x"; "y"]%string [[Int 1; Str "x1"; Str "y1"]].
Definition yx_csv : csv_file field :=
  CsvFile ["y"; "x"; "_ref"]%string [[Str "y2"; Str "x2"; Int 2]].

(** Two files that list the columns [_ref] and [x] in one order; the
    first holds a column more. *)
Definition xj_csv : csv_file field :=
  CsvFile ["_ref"; "x"; "junk"]%string [[Int 2; Str "x2"; Str "j2"]].
Definition x_csv : csv_file field :=
  CsvFile ["_ref"; "x"]%string [[Int 1; Str "x1"]].

(** A score store with one method and the given shards. *)
Definition score_world (g : h5group (shard Z)) : world (h5group (shard Z)) :=
  World {[ "score.h5"%string := [("unigram"%string, g)] ]} [] [].

Definition shard_51 : shard Z :=
  Shard (Some [5; 1]) (Some (Matrix 2 [[50; 51]; [10; 11]])) None.
Definition shard_3 : shard Z :=
  Shard (Some [3]) (Some (Matrix 2 [[30; 31]])) None.

Definition vectors_135 : document_vectors Z :=
  DocumentVectors (Matrix 2 [[10; 11]; [30; 31]; [50; 51]]) [1; 3; 5].

(** A shard without documents. *)
Definition shard_none : shard Z := Shard (Some []) (Some (Matrix 2 [])) None.

(** A shard with one more reference id than vectors. *)
Definition shard_short : shard Z :=
  Shard (Some [5; 1]) (Some (Matrix 2 [[50; 51]])) None.

(** Two shards that hold three reference ids and three vectors
    between them, two ids and one vector here, one id and two vectors
    there. *)
Definition shard_2_1 : shard Z :=
  Shard (Some [1; 2]) (Some (Matrix 1 [[10]])) None.
Definition shard_1_2 : shard Z :=
  Shard (Some [3]) (Some (Matrix 1 [[20]; [30]])) None.

(** Two shards that both hold the reference id 7. *)
Definition shard_7a : shard Z := Shard (Some [7]) (Some (Matrix 1 [[70]])) None.
Definition shard_7b : shard Z := Shard (Some [7]) (Some (Matrix 1 [[71]])) None.

(** Integer arrays as h5py takes them: an entry that fits neither a
    signed nor an unsigned 64-bit integer makes numpy build an array of
    Python objects, which has no HDF5 type.  The filters are those of a
    build without szip. *)
#[global] Instance int_array_data : H5Data (list Z) := {|
  storable := forallb (λ z, (- 2 ^ 63 <=? z) && (z <? 2 ^ 64));
  filter_available := λ name, bool_decide (name ∈ ["gzip"; "lzf"]%string)
|}.

(** A flat store with two datasets, and one with an empty group. *)
Definition flat_world : world (node (list Z)) :=
  World {[ "data.h5"%string :=
             [("mu"%string, Dataset [1; 2] "gzip"%string);
              ("sigma"%string, Dataset [3] "gzip"%string)] ]} [] [].

Definition group_world : world (node (list Z)) :=
  World {[ "data.h5"%string := [("unigram"%string, Group [])] ]}
    [Handle "data.h5" ModeRW] [].

Definition unigram : h5object := H5Object (Handle "data.h5" ModeRW) "unigram".

(** A store that does not exist yet, and a flat store that holds a
    group next to its datasets. *)
Definition no_store : world (node (list Z)) := World ∅ [] [].

Definition nested_world : world (node (list Z)) :=
  World {[ "data.h5"%string :=
             [("mu"%string, Dataset [1; 2] "gzip"%string);
              ("unigram"%string, Group []);
              ("sigma"%string, Dataset [3] "gzip"%string)] ]} [] [].

(** A group that already holds two datasets. *)
Definition two_datasets_world : world (node (list Z)) :=
  World {[ "data.h5"%string :=
             [("unigram"%string,
               Group [("V"%string, ([1; 2], "gzip"%string));
                      ("_ref"%string, ([7], "gzip"%string))])] ]}
    [Handle "data.h5" ModeRW] [].

(** A shard without a [_ref] dataset, and one that also holds reduced
    vectors. *)
Definition shard_no_ref : shard Z :=
  Shard None (Some (Matrix 2 [[50; 51]])) None.
Definition shard_51_reduced : shard Z :=
  Shard (Some [5; 1]) (Some (Matrix 2 [[50; 51]; [10; 11]]))
    (Some (Matrix 1 [[5]; [1]])).

(** A file with a header and no rows. *)
Definition header_only_csv : csv_file field :=
  CsvFile ["_ref"; "payload"]%string [].

(** * Lemmas *)

(** ** Results *)

Lemma result_bind_Ok {A B} (f : A → result B) (m : result A) (b : B) :
  m ≫= f = Ok b ↔ ∃ a, m = Ok a ∧ f a = Ok b.
Proof.
  destruct m as [a|e]; simpl; split.
  - eauto.
  - by intros (? & [= <-] & ?).
  - done.
  - by intros (? & ? & ?).
Qed.

Lemma result_fmap_Ok {A B} (f : A → B) (m : result A) (b : B) :
  f <$> m = Ok b ↔ ∃ a, m = Ok a ∧ b = f a.
Proof.
  destruct m as [a|e]; simpl; split.
  - intros [= <-]. eauto.
  - by intros (? & [= <-] & ->).
  - done.
  - by intros (? & ? & ?).
Qed.

Lemma mapM_Ok {X Y} (f : X → result Y) (xs : list X) (ys : list Y) :
  mapM f xs = Ok ys ↔ Forall2 (λ x y, f x = Ok y) xs ys.
Proof.
  revert ys. induction xs as [|x xs IH]; intros ys; simpl.
  - split; [intros [= <-]; constructor | by inversion 1].
  - rewrite result_bind_Ok. split.
    + intros (y & Hy & Hrest). apply result_bind_Ok in Hrest as (k & Hk & [= <-]).
      constructor; [done | by apply IH].
    + inversion 1 as [|? y ? k Hy Hk]; subst. exists y. split; [done|].
      apply result_bind_Ok. exists k. split; [by apply IH | done].
Qed.

Lemma mapM_Ok_perm {X Y} (f : X → result Y) (xs xs' : list X) (ys : list Y) :
  xs ≡ₚ xs' → mapM f xs = Ok ys → ∃ ys', mapM f xs' = Ok ys' ∧ ys ≡ₚ ys'.
Proof.
  intros Hp. revert ys.
  induction Hp as [|x xs xs' _ IH|x1 x2 xs|xs1 xs2 xs3 _ IH1 _ IH2]; intros ys.
  - intros. by exists ys.
  - rewrite mapM_Ok. inversion 1 as [|? y ? k Hy Hk]; subst.
    apply mapM_Ok, IH in Hk as (k' & Hk' & ?).
    exists (y :: k'). split; [|by constructor].
    apply mapM_Ok. constructor; [done | by apply mapM_Ok].
  - rewrite mapM_Ok. inversion 1 as [|? y2 ? k Hy2 Hk]; subst.
    inversion Hk as [|? y1 ? k' Hy1 Hk']; subst.
    exists (y1 :: y2 :: k'). split; [|by constructor].
    apply mapM_Ok. by repeat constructor.
  - intros (ys2 & ? & ?)%IH1. destruct (IH2 ys2) as (ys3 & ? & ?); [done|].
    exists ys3. split; [done | by etrans].
Qed.

(** ** Indexing with an index array *)

Section np_take.
Context {A : Type}.
Implicit Types (a b : list A) (idx : list nat).

Lemma np_take_Ok a idx b :
  np_take a idx = Ok b ↔ Forall2 (λ i x, a !! i = Some x) idx b.
Proof.
  unfold np_take. rewrite mapM_Ok.
  split; intros Hb; (eapply Forall2_impl; [exact Hb|]);
    intros i x; simpl; destruct (a !! i); simpl; intros; by simplify_eq.
Qed.

Lemma np_take_length a idx b : np_take a idx = Ok b → length b = length idx.
Proof. rewrite np_take_Ok. intros ?%Forall2_length. done. Qed.

Lemma np_take_seq a : np_take a (seq 0 (length a)) = Ok a.
Proof.
  apply np_take_Ok, Forall2_lookup; intros i.
  destruct (a !! i) as [x|] eqn:Hx.
  - rewrite lookup_seq_lt; [|by eapply lookup_lt_Some]. by constructor.
  - rewrite lookup_seq_ge; [|by apply lookup_ge_None]. constructor.
Qed.

Lemma np_take_perm a idx :
  idx ≡ₚ seq 0 (length a) → ∃ b, np_take a idx = Ok b ∧ b ≡ₚ a.
Proof.
  intros Hp. symmetry in Hp.
  destruct (mapM_Ok_perm _ _ _ _ Hp (np_take_seq a)) as (b & ? & ?).
  by exists b.
Qed.

End np_take.

Lemma np_take_fmap {A B} (g : A → B) (a : list A) (idx : list nat) (b : list A) :
  np_take a idx = Ok b → np_take (g <$> a) idx = Ok (g <$> b).
Proof.
  rewrite !np_take_Ok. intros Hb. apply Forall2_fmap_r.
  eapply Forall2_impl; [done|]. intros i x Hx; simpl.
  by rewrite list_lookup_fmap, Hx.
Qed.

Lemma np_take_keys (keys : list Z) (idx : list nat) (b : list Z) :
  np_take keys idx = Ok b → (λ i, default 0 (keys !! i)) <$> idx = b.
Proof.
  rewrite np_take_Ok. induction 1 as [|i x idx b Hx _ IH]; csimpl; [done|].
  rewrite Hx. simpl. by f_equal.
Qed.

(** ** Sorting by an integer key *)

Section sorting_by_key.
Context {A : Type} (key : A → Z).

Lemma Sorted_key_StronglySorted (l : list A) :
  Sorted Z.le (key <$> l) → StronglySorted (λ x y, key x ≤ key y) l.
Proof.
  intros Hs. apply (Sorted_StronglySorted _) in Hs.
  induction l as [|x l IH]; [constructor|].
  simpl in Hs. apply StronglySorted_inv in Hs as [Hl Hx].
  constructor; [by apply IH|]. by rewrite Forall_fmap in Hx.
Qed.

Lemma NoDup_key_inj (l : list A) (x y : A) :
  NoDup (key <$> l) → x ∈ l → y ∈ l → key x = key y → x = y.
Proof.
  induction l as [|z l IH]; csimpl; [by inversion 2|].
  rewrite NoDup_cons, !elem_of_cons, list_elem_of_fmap.
  intros [Hz ?] [->|?] [->|?] Hk; [done| | |by apply IH].
  - destruct Hz. eauto.
  - destruct Hz. eauto.
Qed.

(** A list has one arrangement that is sorted by a key without
    repetitions. *)
Lemma sorted_perm_unique (l1 l2 : list A) :
  l1 ≡ₚ l2 → NoDup (key <$> l1) →
  Sorted Z.le (key <$> l1) → Sorted Z.le (key <$> l2) → l1 = l2.
Proof.
  intros Hp Hnd H1 H2.
  apply (StronglySorted_unique_strong (λ x y, key x ≤ key y));
    [|by apply Sorted_key_StronglySorted..|done].
  intros x1 x2 Hx1 Hx2 ??.
  rewrite <-Hp in Hx2.
  apply (NoDup_key_inj l1); [done..|lia].
Qed.

(** Taking a list in the order [argsort] gives for its keys sorts it
    and loses nothing. *)
Lemma argsort_take (argsort : list Z → list nat) (l : list A) :
  argsort_spec argsort →
  ∃ l', np_take l (argsort (key <$> l)) = Ok l' ∧ l' ≡ₚ l ∧
        Sorted Z.le (key <$> l').
Proof.
  intros Hspec. destruct (Hspec (key <$> l)) as [Hp Hs].
  rewrite length_fmap in Hp.
  destruct (np_take_perm l _ Hp) as (l' & Hl' & ?).
  exists l'. split_and!; [done..|].
  by rewrite (np_take_keys _ _ _ (np_take_fmap key _ _ _ Hl')) in Hs.
Qed.
End sorting_by_key.

(** ** The reference sorts meet [argsort_spec] *)

#[local] Instance tie_le_total forward : Total (tie_le forward).
Proof.
  intros [v i] [v' i']; unfold tie_le; simpl.
  destruct forward; lia.
Qed.

Lemma enumerate_lookup (a : list Z) (v : Z) (i : nat) :
  (v, i) ∈ enumerate a → a !! i = Some v.
Proof.
  unfold enumerate. intros (j & v' & i' & [= <- <-] & Hv & Hi)%elem_of_lookup_zip_with.
  apply lookup_seq in Hi as [-> _]. done.
Qed.

Lemma argsort_ties_spec (forward : bool) : argsort_spec (argsort_ties forward).
Proof.
  intros a. unfold argsort_ties.
  set (ps := merge_sort (tie_le forward) (enumerate a)).
  assert (ps ≡ₚ enumerate a) as Hp by apply merge_sort_Permutation.
  split.
  - rewrite Hp. unfold enumerate. rewrite snd_zip; [done|]. by rewrite length_seq.
  - assert ((λ i, default 0 (a !! i)) <$> ps.*2 = ps.*1) as ->.
    { rewrite <-list_fmap_compose. apply list_fmap_ext.
      intros j [v i] Hvi; simpl.
      assert ((v, i) ∈ enumerate a) as Hin.
      { rewrite <-Hp. by eapply list_elem_of_lookup_2. }
      by rewrite (enumerate_lookup _ _ _ Hin). }
    assert (Sorted (tie_le forward) ps) as Hs by apply (Sorted_merge_sort _).
    clear Hp. induction Hs as [|p l _ IH Hhd]; csimpl; constructor; [done|].
    destruct Hhd as [|q l Hpq]; csimpl; constructor.
    unfold tie_le in Hpq. lia.
Qed.

#[local] Instance tie_le_trans forward : Transitive (tie_le forward).
Proof.
  intros [v i] [v' i'] [v'' i'']; unfold tie_le; simpl.
  destruct forward; lia.
Qed.

(** Merge sort with ties in the order of the positions is stable. *)
Lemma argsort_forward_stable : argsort_stable argsort_forward.
Proof.
  intros a p q x y Hpq Hp Hq Hxy. unfold argsort_forward, argsort_ties in *.
  set (ps := merge_sort (tie_le true) (enumerate a)) in *.
  assert (ps ≡ₚ enumerate a) as Hperm by apply merge_sort_Permutation.
  assert (StronglySorted (tie_le true) ps) as Hs
    by apply (StronglySorted_merge_sort _).
  apply list_lookup_fmap_Some in Hp as ([v x'] & -> & Hp).
  apply list_lookup_fmap_Some in Hq as ([v' y'] & -> & Hq). simpl in *.
  assert (a !! x' = Some v) as Hx.
  { apply enumerate_lookup. rewrite <-Hperm. by eapply list_elem_of_lookup_2. }
  assert (a !! y' = Some v') as Hy.
  { apply enumerate_lookup. rewrite <-Hperm. by eapply list_elem_of_lookup_2. }
  assert (v = v') as <- by congruence.
  assert (x' ≠ y') as Hne.
  { intros <-. assert (NoDup ps.*2) as Hnd.
    { rewrite Hperm. unfold enumerate. rewrite snd_zip by (by rewrite length_seq).
      apply NoDup_seq. }
    assert (p = q); [|lia].
    eapply (NoDup_lookup _ _ _ x' Hnd); rewrite list_lookup_fmap.
    - by rewrite Hp.
    - by rewrite Hq. }
  rewrite <-(take_drop_middle ps p (v, x') Hp) in Hs.
  apply StronglySorted_app_1_r, StronglySorted_inv in Hs as [_ Hall].
  assert ((v, y') ∈ drop (S p) ps) as Hin.
  { apply list_elem_of_lookup. exists (q - S p)%nat.
    rewrite lookup_drop. by replace (S p + (q - S p))%nat with q by lia. }
  eapply Forall_forall in Hall; [|done].
  unfold tie_le in Hall. simpl in Hall. lia.
Qed.

(** ** Computations on the world *)

Section world_lemmas.
Context {T : Type}.
Implicit Types (w : world T) (F : gmap string (h5group T)).

Lemma M_bind_run {A B} (f : A → M T B) (m : M T A) w :
  (m ≫= f) w = match m w with
               | (Ok a, w') => f a w'
               | (Raise e, w') => (Raise e, w')
               end.
Proof. done. Qed.

Lemma yields_ret {A} F (x : A) : yields F (mret x) (Ok x).
Proof. by intros w <-. Qed.

Lemma yields_raise {A} F e : yields F (raise e : M T A) (Raise e).
Proof. by intros w <-. Qed.

Lemma yields_lift {A} F (r : result A) : yields F (lift r) r.
Proof. by intros w <-. Qed.

Lemma yields_log_read F h name : yields F (log_read h name : M T ()) (Ok ()).
Proof. by intros w <-. Qed.

Lemma yields_root F h r :
  F !! h_path h = Some r → yields F (root h) (Ok r).
Proof. intros Hr w <-. unfold root; simpl. by rewrite Hr. Qed.

Lemma yields_bind {A B} F (m : M T A) (f : A → M T B) p q :
  yields F m p → (∀ a, p = Ok a → yields F (f a) (q a)) →
  yields F (m ≫= f) (p ≫= q).
Proof.
  intros Hm Hf w HF. rewrite M_bind_run.
  destruct (Hm w HF) as (Hp & Hfs & Hop).
  destruct (m w) as [[a|e] w']; simpl in *; subst p; simpl.
  - destruct (Hf a eq_refl w' Hfs) as (? & ? & ?). split_and!; congruence.
  - done.
Qed.

Lemma yields_bind_Ok {A B} F (m : M T A) (f : A → M T B) a p :
  yields F m (Ok a) → yields F (f a) p → yields F (m ≫= f) p.
Proof.
  intros Hm Hf. apply (yields_bind F m f (Ok a) (λ _, p)); [done|].
  by intros ? [= <-].
Qed.

Lemma yields_mapM {X Y} F (f : X → M T Y) (p : X → result Y) (xs : list X) :
  (∀ x, x ∈ xs → yields F (f x) (p x)) → yields F (mapM f xs) (mapM p xs).
Proof.
  induction xs as [|x xs IH]; intros Hf; simpl.
  - apply yields_ret.
  - apply yields_bind; [apply Hf; left|]. intros y _.
    apply yields_bind; [apply IH; intros; apply Hf; by right|]. intros ys _.
    apply yields_ret.
Qed.

Lemma yields_for_each {X B} F (body : B → X → M T B)
    (p : B → X → result B) (xs : list X) (acc : B) :
  (∀ b x, yields F (body b x) (p b x)) →
  yields F (for_each xs body acc)
    (foldl (λ r x, b ← r; p b x) (Ok acc) xs).
Proof.
  intros Hbody. revert acc. induction xs as [|x xs IH]; intros acc; simpl.
  - apply yields_ret.
  - assert (∀ r, foldl (λ r x, b ← r; p b x) r xs
               = b ← r; foldl (λ r x, b ← r; p b x) (Ok b) xs) as Hfold.
    { clear. induction xs as [|x' xs IH]; intros [b|e]; by simpl. }
    rewrite Hfold. apply yields_bind; [apply Hbody|]. intros b _. apply IH.
Qed.

Lemma remove_first_head (h : handle) (hs : list handle) :
  remove_first h (h :: hs) = hs.
Proof. simpl. by rewrite decide_True. Qed.

(** Leaving a [with] block restores the handles, however it is left. *)
Lemma yields_with_File {A} F path m r (body : handle → M T A) p :
  m ≠ ModeW → F !! path = Some r →
  yields F (body (Handle path m)) p → yields F (with_File path m body) p.
Proof.
  intros Hm Hr Hbody w HF. unfold with_File, h5py_File.
  rewrite HF, Hr.
  assert (∀ w1 : world T, fs w1 = F → opened w1 = Handle path m :: opened w →
    (let '(r0, w2) := body (Handle path m) w1 in (r0, (h5_close (Handle path m) w2).2)).1 = p ∧
    fs (let '(r0, w2) := body (Handle path m) w1 in (r0, (h5_close (Handle path m) w2).2)).2 = F ∧
    opened (let '(r0, w2) := body (Handle path m) w1 in (r0, (h5_close (Handle path m) w2).2)).2
      = opened w) as Hrun.
  { intros w1 HF1 Hop1. destruct (Hbody w1 HF1) as (? & ? & Hop).
    destruct (body (Handle path m) w1) as [r0 w2]; simpl in *.
    split_and!; [done..|]. rewrite Hop, Hop1. apply remove_first_head. }
  destruct m; [|done|]; by apply Hrun.
Qed.

Lemma with_File_missing {A} path m (body : handle → M T A) w :
  m ≠ ModeW → fs w !! path = None →
  with_File path m body w = (Raise (IOError path), w).
Proof.
  intros Hm Hnone. unfold with_File, h5py_File. rewrite Hnone. by destruct m.
Qed.
End world_lemmas.

(** ** The document vectors *)

Section document_vectors_lemmas.
Context {scalar : Type}.
Variable argsort : list Z → list nat.
Implicit Types (s : shard scalar) (g : h5group (shard scalar))
  (r : h5group (h5group (shard scalar))) (X : matrix scalar)
  (w : world (h5group (shard scalar))).

Lemma yields_read_ref F h5 sm k s :
  yields F (read_ref h5 sm k s) (lift_option (KeyError "_ref") (ds_ref s)).
Proof. unfold read_ref. destruct (ds_ref s); by intros w <-. Qed.

Lemma yields_read_vectors F h5 sm k key s :
  yields F (read_vectors h5 sm k key s)
    (lift_option (KeyError key) (vectors_of key s)).
Proof. unfold read_vectors. destruct (vectors_of key s); by intros w <-. Qed.

Lemma load_document_vectors_yields F f_h5 r sm ur :
  F !! f_h5 = Some r →
  yields F (load_document_vectors argsort f_h5 sm ur) (assemble argsort r sm ur).
Proof.
  intros Hr. unfold load_document_vectors, assemble.
  eapply yields_with_File; [done..|].
  eapply yields_bind_Ok; [by apply yields_root|]. cbv beta.
  destruct (negb (h5_contains _ _)); [apply yields_raise|].
  apply yields_bind; [apply yields_lift|]. intros g _.
  apply yields_bind.
  { apply yields_mapM. intros [k s] _. apply yields_read_ref. }
  intros arrs _. apply yields_bind; [apply yields_lift|]. intros refs _.
  apply yields_bind.
  { apply yields_mapM. intros [k s] _. apply yields_read_vectors. }
  intros mats _. apply yields_bind; [apply yields_lift|]. intros X _.
  destruct (negb _); [apply yields_raise|].
  apply yields_bind; [apply yields_lift|]. intros refs' _.
  apply yields_bind; [apply yields_lift|]. intros X' _.
  apply yields_ret.
Qed.

Lemma h5_get_contains {T} (k : string) (g : h5group T) (v : T) :
  h5_get k g = Some v → h5_contains k g = true.
Proof.
  intros Hv. apply bool_decide_eq_true. unfold h5_keys.
  induction g as [|[k' v'] g IH]; simpl in *; [done|].
  case_decide; [subst; left | right; by apply IH].
Qed.

Lemma same_ncols_Forall (d : nat) (ms : list (matrix scalar)) :
  forallb (λ m', Nat.eqb (ncols m') d) ms = true ↔ Forall (λ m, ncols m = d) ms.
Proof.
  induction ms as [|m ms IH]; simpl.
  - split; [constructor | done].
  - rewrite andb_true_iff, Forall_cons, IH, Nat.eqb_eq. done.
Qed.

Lemma np_vstack_Ok (ms : list (matrix scalar)) X :
  np_vstack ms = Ok X ↔
  ms ≠ [] ∧ Forall (λ m, ncols m = ncols X) ms ∧
  mrows X = concat (mrows <$> ms).
Proof.
  destruct ms as [|m rest]; simpl; [split; [done | by intros [? _]]|].
  destruct (forallb _ rest) eqn:Hall.
  - apply same_ncols_Forall in Hall. split.
    + intros [= <-]; simpl. split_and!; [done| |done]. by constructor.
    + intros (_ & Hn & Hrows). destruct X as [d rows]; simpl in *.
      apply Forall_cons in Hn as [-> _]. by rewrite Hrows.
  - split; [done|]. intros (_ & Hn & _).
    apply Forall_cons in Hn as [Hm Hrest].
    rewrite <-Hm in Hrest. apply same_ncols_Forall in Hrest. congruence.
Qed.

Lemma np_vstack_iter_rows X :
  mrows X ≠ [] → np_vstack (iter_rows X) = Ok X.
Proof.
  intros Hne. apply np_vstack_Ok. unfold iter_rows. split_and!.
  - by destruct (mrows X).
  - by apply Forall_fmap, Forall_true.
  - rewrite <-list_fmap_compose.
    induction (mrows X) as [|x l IH]; [done|]. csimpl.
    destruct l; [done|]. by rewrite <-IH.
Qed.

Lemma np_vstack_no_rows X :
  mrows X = [] → np_vstack (iter_rows X) = Raise (ValueError NeedAtLeastOneArray).
Proof. unfold iter_rows. by intros ->. Qed.

Lemma zip_concat {A B} (ls : list (list A)) (ks : list (list B)) :
  Forall2 (λ l k, length l = length k) ls ks →
  zip (concat ls) (concat ks) = concat (zip_with zip ls ks).
Proof.
  induction 1 as [|l k ls ks Hlen _ IH]; [done|]. simpl.
  by rewrite zip_with_app, IH.
Qed.

(** The shards of a group, read off as two parallel lists of arrays. *)
Lemma aligned_arrays key d g :
  Forall (shard_aligned key d) g.*2 →
  ∃ arrs mats,
    Forall2 (λ ks a, lift_option (KeyError "_ref") (ds_ref ks.2) = Ok a) g arrs ∧
    Forall2 (λ ks m, lift_option (KeyError key) (vectors_of key ks.2) = Ok m) g mats ∧
    Forall (λ m, ncols m = d) mats ∧
    Forall2 (λ a rows, length a = length rows) arrs (mrows <$> mats) ∧
    stored_pairs key g = zip (concat arrs) (concat (mrows <$> mats)).
Proof.
  induction g as [|[k s] g IH]; csimpl.
  - intros _. exists [], []. by repeat constructor.
  - intros [(a & m & Ha & Hm & Hlen & Hd) Hg]%Forall_cons.
    destruct (IH Hg) as (arrs & mats & ? & ? & ? & Hlens & Hpairs).
    exists (a :: arrs), (m :: mats). split_and!.
    + constructor; [by simpl; rewrite Ha | done].
    + constructor; [by simpl; rewrite Hm | done].
    + by constructor.
    + by constructor.
    + unfold stored_pairs in *. csimpl. rewrite Hpairs.
      unfold shard_pairs. rewrite Ha, Hm. by rewrite zip_with_app.
Qed.

(** On aligned shards that hold at least one document the loader
    returns, and what it returns is the stored pairs sorted by id. *)
Lemma assemble_taken r sm ur g d :
  argsort_spec argsort →
  h5_get sm r = Some g →
  Forall (shard_aligned (vkey ur) d) g.*2 →
  stored_pairs (vkey ur) g ≠ [] →
  ∃ refs rows,
    assemble argsort r sm ur = Ok (DocumentVectors (Matrix d rows) refs) ∧
    length refs = length rows ∧
    Sorted Z.le refs ∧
    zip refs rows ≡ₚ stored_pairs (vkey ur) g ∧
    np_take (stored_pairs (vkey ur) g)
      (argsort (stored_pairs (vkey ur) g).*1) = Ok (zip refs rows).
Proof.
  intros Hspec Hg Hal Hne.
  destruct (aligned_arrays _ _ _ Hal) as (arrs & mats & Harrs & Hmats & Hd & Hlens & Hpairs).
  set (refs := concat arrs) in *. set (rows := concat (mrows <$> mats)) in *.
  assert (length refs = length rows) as Hlen.
  { unfold refs, rows. clear -Hlens.
    induction Hlens as [|???? Hl _ IH]; [done|]. simpl.
    by rewrite !length_app, Hl, IH. }
  assert (g ≠ []) as Hg0 by (intros ->; by apply Hne).
  destruct (argsort_take fst argsort (zip refs rows) Hspec) as (l' & Hl' & Hperm & Hsorted).
  rewrite fst_zip in Hl' by lia.
  exists l'.*1, l'.*2. split_and!.
  - unfold assemble. rewrite (h5_get_contains _ _ _ Hg), Hg. simpl.
    rewrite (proj2 (mapM_Ok _ _ _) Harrs). simpl.
    assert (np_hstack arrs = Ok refs) as ->.
    { destruct arrs; [|done]. inversion Harrs; by subst. }
    simpl. fold (vkey ur). rewrite (proj2 (mapM_Ok _ _ _) Hmats). simpl.
    assert (np_vstack mats = Ok (Matrix d rows)) as ->.
    { apply np_vstack_Ok. split_and!; [|done..].
      intros ->. inversion Hmats; by subst. }
    simpl. unfold shape0; simpl. rewrite <-Hlen, Nat.eqb_refl. simpl.
    rewrite <-(fst_zip refs rows) at 1 by lia.
    rewrite (np_take_fmap fst _ _ _ Hl'). simpl.
    rewrite np_vstack_iter_rows; simpl.
    2:{ intros Hnil. apply Hne. rewrite Hpairs. fold refs rows.
        rewrite Hnil. by destruct refs. }
    unfold take_rows; simpl.
    rewrite <-(snd_zip refs rows) at 1 by lia.
    by rewrite (np_take_fmap snd _ _ _ Hl').
  - by rewrite !length_fmap.
  - done.
  - by rewrite zip_fst_snd, Hperm, Hpairs.
  - rewrite zip_fst_snd, Hpairs. fold refs rows. by rewrite fst_zip by lia.
Qed.

Lemma assemble_sorted r sm ur g d :
  argsort_spec argsort →
  h5_get sm r = Some g →
  Forall (shard_aligned (vkey ur) d) g.*2 →
  stored_pairs (vkey ur) g ≠ [] →
  ∃ refs rows,
    assemble argsort r sm ur = Ok (DocumentVectors (Matrix d rows) refs) ∧
    length refs = length rows ∧
    Sorted Z.le refs ∧
    zip refs rows ≡ₚ stored_pairs (vkey ur) g.
Proof.
  intros Hspec Hg Hal Hne.
  destruct (assemble_taken r sm ur g d Hspec Hg Hal Hne)
    as (refs & rows & ? & ? & ? & ? & _).
  by exists refs, rows.
Qed.

Lemma stored_pairs_refs key d g :
  Forall (shard_aligned key d) g.*2 → (stored_pairs key g).*1 = stored_refs g.
Proof.
  unfold stored_pairs, stored_refs.
  induction g as [|[k s] g IH]; csimpl; [done|].
  intros [(a & m & Ha & Hm & Hlen & Hd) Hg]%Forall_cons.
  rewrite fmap_app, IH by done. f_equal.
  unfold shard_pairs. rewrite Ha, Hm. simpl. apply fst_zip.
  unfold shape0 in Hlen. lia.
Qed.

(** When the loader returns, its shards had all their arrays, of one
    width, and held a document. *)
Lemma assemble_Ok_shards r sm ur g dv :
  assemble argsort r sm ur = Ok dv → h5_get sm r = Some g →
  rows_match (vkey ur) g →
  Forall (shard_aligned (vkey ur) (ncols (docv dv))) g.*2 ∧
  stored_pairs (vkey ur) g ≠ [].
Proof.
  unfold assemble. intros Hdv Hg Hmatch.
  rewrite (h5_get_contains _ _ _ Hg), Hg in Hdv. simpl in Hdv.
  apply result_bind_Ok in Hdv as (arrs & Harrs & Hdv).
  apply result_bind_Ok in Hdv as (refs & Hrefs & Hdv).
  apply result_bind_Ok in Hdv as (mats & Hmats & Hdv).
  apply result_bind_Ok in Hdv as (X & HX & Hdv).
  fold (vkey ur) in Hmats.
  destruct (Nat.eqb (shape0 X) (length refs)) eqn:Hshape; [|done]. simpl in Hdv.
  apply result_bind_Ok in Hdv as (refs' & Hrefs' & Hdv).
  apply result_bind_Ok in Hdv as (X' & HX' & [= <-]).
  apply result_bind_Ok in HX' as (X0 & HX0 & HX').
  apply result_fmap_Ok in HX' as (rows' & Hrows' & ->). simpl.
  assert (mrows X ≠ []) as Hrows.
  { intros Hnil. by rewrite np_vstack_no_rows in HX0. }
  rewrite np_vstack_iter_rows in HX0 by done. injection HX0 as <-.
  apply np_vstack_Ok in HX as (_ & Hd & HXrows).
  apply mapM_Ok in Harrs, Hmats.
  assert (Forall (shard_aligned (vkey ur) (ncols X)) g.*2) as Hal.
  { clear -Harrs Hmats Hd Hmatch. unfold rows_match in Hmatch.
    revert mats Hmats Hd. induction Harrs as [|[k s] a g arrs Ha _ IH];
      intros mats Hmats Hd; csimpl; [constructor|].
    inversion Hmats as [|? m ? mats' Hm Hmats']; subst.
    apply Forall_cons in Hd as [Hd1 Hd]. csimpl in Hmatch.
    apply Forall_cons in Hmatch as [Hs Hmatch].
    simpl in Ha, Hm. destruct (ds_ref s) as [a'|] eqn:Ea; [|done].
    destruct (vectors_of (vkey ur) s) as [m'|] eqn:Em; [|done].
    simpl in Ha, Hm. simplify_eq.
    constructor; [|by eapply IH].
    exists a, m. split_and!; [done..| by apply Hs | done]. }
  split; [done|].
  destruct (aligned_arrays _ _ _ Hal) as (arrs2 & mats2 & Harrs2 & Hmats2 & _ & Hlens & ->).
  assert (mats2 = mats) as ->.
  { apply mapM_Ok in Hmats, Hmats2. congruence. }
  assert (arrs2 = arrs) as ->.
  { apply mapM_Ok in Harrs, Harrs2. congruence. }
  rewrite <-HXrows.
  assert (concat arrs = refs) as ->.
  { destruct arrs; simpl in Hrefs; by simplify_eq. }
  apply Nat.eqb_eq in Hshape. unfold shape0 in Hshape.
  destruct (mrows X), refs; simpl in *; done.
Qed.

Lemma assemble_Ok_lengths r sm ur dv :
  assemble argsort r sm ur = Ok dv → length (_refs dv) = shape0 (docv dv).
Proof.
  unfold assemble. destruct (negb (h5_contains _ _)); [done|].
  intros Hdv.
  apply result_bind_Ok in Hdv as (g & _ & Hdv).
  apply result_bind_Ok in Hdv as (arrs & _ & Hdv).
  apply result_bind_Ok in Hdv as (refs & _ & Hdv).
  apply result_bind_Ok in Hdv as (mats & _ & Hdv).
  apply result_bind_Ok in Hdv as (X & _ & Hdv).
  destruct (negb _); [done|].
  apply result_bind_Ok in Hdv as (refs' & Hrefs' & Hdv).
  apply result_bind_Ok in Hdv as (X' & HX' & [= <-]).
  apply result_bind_Ok in HX' as (X0 & _ & HX').
  apply result_fmap_Ok in HX' as (rows' & Hrows' & ->).
  unfold shape0; simpl.
  by rewrite (np_take_length _ _ _ Hrefs'), (np_take_length _ _ _ Hrows').
Qed.

(** When the stacked arrays disagree on the number of documents the
    loader stops at its assertion. *)
Lemma assemble_mismatch r sm ur g arrs mats refs X :
  h5_get sm r = Some g →
  Forall2 (λ ks a, ds_ref ks.2 = Some a) g arrs →
  Forall2 (λ ks m, vectors_of (vkey ur) ks.2 = Some m) g mats →
  np_hstack arrs = Ok refs → np_vstack mats = Ok X →
  shape0 X ≠ length refs →
  assemble argsort r sm ur = Raise AssertionError.
Proof.
  intros Hg Harrs Hmats Hrefs HX Hne. unfold assemble.
  rewrite (h5_get_contains _ _ _ Hg), Hg. simpl.
  rewrite (proj2 (mapM_Ok _ _ arrs)).
  2:{ eapply Forall2_impl; [done|]. by intros ?? ->. }
  simpl. rewrite Hrefs. simpl. fold (vkey ur).
  rewrite (proj2 (mapM_Ok _ _ mats)).
  2:{ eapply Forall2_impl; [done|]. by intros ?? ->. }
  simpl. rewrite HX. simpl.
  by rewrite (proj2 (Nat.eqb_neq _ _) Hne).
Qed.

Lemma stored_pairs_perm key g1 g2 :
  g1 ≡ₚ g2 → stored_pairs key g1 ≡ₚ stored_pairs key g2.
Proof. intros Hp. unfold stored_pairs. by rewrite Hp. Qed.

(** With distinct reference ids the result does not depend on the
    order in which the shards are listed. *)
Lemma assemble_perm r1 r2 sm ur g1 g2 dv :
  argsort_spec argsort →
  h5_get sm r1 = Some g1 → h5_get sm r2 = Some g2 → g1 ≡ₚ g2 →
  rows_match (vkey ur) g1 → NoDup (stored_refs g1) →
  assemble argsort r1 sm ur = Ok dv → assemble argsort r2 sm ur = Ok dv.
Proof.
  intros Hspec Hg1 Hg2 Hp Hmatch Hnd Hdv.
  destruct (assemble_Ok_shards _ _ _ _ _ Hdv Hg1 Hmatch) as [Hal1 Hne1].
  set (d := ncols (docv dv)) in *.
  assert (Forall (shard_aligned (vkey ur) d) g2.*2) as Hal2 by by rewrite <-Hp.
  assert (stored_pairs (vkey ur) g2 ≠ []) as Hne2.
  { intros Hnil. apply Hne1. apply Permutation_nil_r.
    rewrite <-Hnil. by apply stored_pairs_perm. }
  destruct (assemble_sorted _ _ _ _ _ Hspec Hg1 Hal1 Hne1)
    as (refs1 & rows1 & Hdv1 & Hlen1 & Hs1 & Hp1).
  destruct (assemble_sorted _ _ _ _ _ Hspec Hg2 Hal2 Hne2)
    as (refs2 & rows2 & Hdv2 & Hlen2 & Hs2 & Hp2).
  rewrite Hdv2, <-Hdv, Hdv1.
  assert (zip refs1 rows1 = zip refs2 rows2) as Hzip.
  { apply (sorted_perm_unique fst).
    - by rewrite Hp1, Hp2, (stored_pairs_perm _ _ _ Hp).
    - rewrite Hp1, (stored_pairs_refs _ _ _ Hal1). done.
    - rewrite fst_zip by lia. done.
    - rewrite fst_zip by lia. done. }
  assert (refs1 = refs2) as ->.
  { rewrite <-(fst_zip refs1 rows1), <-(fst_zip refs2 rows2) by lia. by rewrite Hzip. }
  assert (rows1 = rows2) as ->.
  { rewrite <-(snd_zip refs2 rows1), <-(snd_zip refs2 rows2) by lia. by rewrite Hzip. }
  done.
Qed.
End document_vectors_lemmas.

(** ** Columns and rows of a table *)

Section table_lemmas.
Context `{Cell cell}.
Implicit Types (hdr cols sel : list string) (r : list cell) (f : csv_file cell).

Lemma column_pos_Some name cols j :
  column_pos name cols = Some j → cols !! j = Some name.
Proof.
  revert j. induction cols as [|c cols IH]; intros j; simpl; [done|].
  case_decide as Hc; [by intros [= <-]; subst|].
  destruct (column_pos name cols) as [j'|]; [|done].
  intros [= <-]. by apply IH.
Qed.

Lemma column_pos_None name cols : column_pos name cols = None ↔ name ∉ cols.
Proof.
  induction cols as [|c cols IH]; simpl.
  - split; [intros _; by inversion 1 | done].
  - rewrite not_elem_of_cons. case_decide as Hc.
    + split; [done | by intros [? _]].
    + destruct (column_pos name cols); simpl.
      * split; [done|]. intros [_ Hn]. by apply IH in Hn.
      * split; [|done]. intros _. split; [done | by apply IH].
Qed.

Lemma column_pos_elem name cols :
  name ∈ cols → ∃ j, column_pos name cols = Some j.
Proof.
  intros Hin. destruct (column_pos name cols) as [j|] eqn:Hj; [eauto|].
  by apply column_pos_None in Hj.
Qed.

Lemma column_pos_lookup cols i c :
  NoDup cols → cols !! i = Some c → column_pos c cols = Some i.
Proof.
  revert i. induction cols as [|c' cols IH]; intros i Hnd Hi; [done|].
  apply NoDup_cons in Hnd as [Hc' Hnd]. simpl.
  destruct i as [|i]; simpl in Hi.
  - injection Hi as ->. by rewrite decide_True.
  - rewrite decide_False.
    + by rewrite (IH i).
    + intros ->. apply Hc'. by eapply list_elem_of_lookup_2.
Qed.

Lemma cell_at_lookup j r x : r !! j = Some x → cell_at j r = x.
Proof. unfold cell_at. by intros ->. Qed.

(** Laying a full row out under its own columns leaves it as it is. *)
Lemma reindex_own sel r :
  NoDup sel → length r = length sel → reindex sel sel r = r.
Proof.
  intros Hnd Hlen. apply list_eq; intros i. unfold reindex.
  rewrite list_lookup_fmap.
  destruct (sel !! i) as [c|] eqn:Hc; simpl.
  - rewrite (column_pos_lookup _ _ _ Hnd Hc).
    destruct (lookup_lt_is_Some_2 r i) as [x Hx].
    { rewrite Hlen. by eapply lookup_lt_Some. }
    by rewrite (cell_at_lookup _ _ _ Hx).
  - symmetry. apply lookup_ge_None. rewrite Hlen. by apply lookup_ge_None.
Qed.

Lemma select_cells_length hdr cols r :
  length r = length hdr →
  length (select_cells hdr cols r) = length (filter (λ c, c ∈ cols) hdr).
Proof.
  unfold select_cells. rewrite length_fmap. revert r.
  induction hdr as [|h hdr IH]; intros [|x r]; simpl; try done.
  intros [= Hlen]. rewrite !filter_cons. simpl.
  case_decide; simpl; by rewrite IH.
Qed.

(** A selected column holds the fields the file has under its name. *)
Lemma select_cells_at hdr cols r c i :
  NoDup hdr → hdr !! i = Some c → c ∈ cols → length r = length hdr →
  ∃ j, column_pos c (filter (λ c, c ∈ cols) hdr) = Some j ∧
       cell_at j (select_cells hdr cols r) = cell_at i r.
Proof.
  unfold select_cells. revert r i.
  induction hdr as [|h hdr IH]; intros [|x r] i Hnd Hi Hc Hlen; simpl in *; try done.
  apply NoDup_cons in Hnd as [Hh Hnd]. injection Hlen as Hlen.
  rewrite !filter_cons. simpl. destruct i as [|i]; simpl in Hi.
  - injection Hi as ->. rewrite !decide_True by done. simpl.
    exists 0%nat. by rewrite decide_True.
  - assert (h ≠ c) as Hne.
    { intros ->. apply Hh. by eapply list_elem_of_lookup_2. }
    destruct (IH r i Hnd Hi Hc Hlen) as (j & Hj & Hcell).
    case_decide; simpl.
    + exists (S j). rewrite decide_False by done. by rewrite Hj.
    + by exists j.
Qed.

(** *** Reading one file *)

Lemma filter_missing_nil hdr cols :
  filter (λ c, c ∉ hdr) cols = [] ↔ Forall (λ c, c ∈ hdr) cols.
Proof.
  induction cols as [|c cols IH]; [by split; [constructor|]|].
  rewrite filter_cons, Forall_cons. case_decide as Hc.
  - split; [done | by intros [? _]].
  - rewrite IH. split; [by split | by intros [_ ?]].
Qed.

Lemma filter_own hdr : filter (λ c, c ∈ hdr) hdr = hdr.
Proof.
  assert (∀ l, Forall (λ c, c ∈ hdr) l → filter (λ c, c ∈ hdr) l = l) as Hf.
  { induction 1 as [|c l Hc _ IH]; [done|].
    by rewrite filter_cons, decide_True, IH. }
  apply Hf, Forall_forall. auto.
Qed.

Lemma pd_read_csv_header f :
  pd_read_csv f None (Some 0%nat) = Ok (Frame (csv_header f) []).
Proof.
  unfold pd_read_csv; simpl.
  rewrite (proj2 (filter_missing_nil _ _)) by (apply Forall_forall; auto).
  by rewrite filter_own.
Qed.

(** All the requested columns are there, and the read succeeds with
    them in the order of the file; or one is not, and the read raises
    the requested and the actual columns. *)
Lemma simple_CSV_read_Ok f cols :
  Forall (λ c, c ∈ csv_header f) cols →
  simple_CSV_read f cols =
    Ok (Frame (filter (λ c, c ∈ cols) (csv_header f))
          (imap (λ i r, (int_cell i, select_cells (csv_header f) cols r))
             (csv_rows f))).
Proof.
  intros Hall. unfold simple_CSV_read, pd_read_csv; simpl.
  by rewrite (proj2 (filter_missing_nil _ _) Hall).
Qed.

Lemma simple_CSV_read_Raise f cols :
  ¬ Forall (λ c, c ∈ csv_header f) cols →
  simple_CSV_read f cols =
    Raise (ValueError (ColumnsMismatch cols (csv_header f))).
Proof.
  intros Hall. unfold simple_CSV_read.
  rewrite pd_read_csv_header. unfold pd_read_csv; simpl.
  destruct (filter _ cols) as [|c l] eqn:Hf; [|done].
  by apply filter_missing_nil in Hf.
Qed.
End table_lemmas.

(** ** Concatenating, sorting and keying the frames *)

Section org_lemmas.
Context `{Cell cell}.
Variable argsort : list Z → list nat.
Variable reported : list exn → nat.
Implicit Types (hdr cols sel : list string) (r : list cell)
  (f : csv_file cell) (df : DataFrame cell).

Lemma union_columns_same sel (frames : list (DataFrame cell)) :
  frames ≠ [] → Forall (λ df, columns df = sel) frames → NoDup sel →
  union_columns frames = sel.
Proof.
  intros Hne Hall Hnd. unfold union_columns.
  assert (∀ l, Forall (λ df : DataFrame cell, columns df = sel) l →
    foldl (λ acc df, acc ++ filter (λ c, c ∉ acc) (columns df)) sel l = sel) as Hfold.
  { induction 1 as [|df l Hdf _ IH]; cbn [foldl]; [done|]. rewrite Hdf.
    assert (filter (λ c, c ∉ sel) sel = []) as ->.
    { apply filter_missing_nil, Forall_forall. auto. }
    by rewrite app_nil_r. }
  destruct Hall as [|df l Hdf Hl]; [done|]. cbn [foldl].
  rewrite Hdf, app_nil_l.
  assert (filter (λ c, c ∉ []) sel = sel) as ->.
  { clear. induction sel as [|c sel IH]; [done|].
    rewrite filter_cons, decide_True, IH; [done|]. by inversion 1. }
  by apply Hfold.
Qed.

Lemma pd_concat_same sel (frames : list (DataFrame cell)) :
  frames ≠ [] → Forall (frame_wf sel) frames → NoDup sel →
  pd_concat frames = Ok (Frame sel (concat (rows <$> frames))).
Proof.
  intros Hne Hwf Hnd. unfold pd_concat.
  rewrite (union_columns_same sel); [|done| |done].
  2:{ eapply Forall_impl; [done|]. by intros df [? _]. }
  destruct frames as [|df0 frames0]; [done|].
  f_equal. f_equal. f_equal. apply Forall_fmap_ext.
  eapply Forall_impl; [done|]. intros df [Hcols Hrows]; simpl.
  rewrite <-(list_fmap_id (rows df)) at 2. apply Forall_fmap_ext.
  eapply Forall_impl; [done|]. intros [lbl r] Hlen; simpl in *.
  by rewrite Hcols, reindex_own.
Qed.

Lemma sort_values_taken name sel j (l : list (cell * list cell)) :
  argsort_spec argsort → column_pos name sel = Some j →
  ∃ rs, sort_values argsort name (Frame sel l) = Ok (Frame sel rs) ∧
        rs ≡ₚ l ∧ Sorted Z.le ((λ p, ref_key (cell_at j p.2)) <$> rs) ∧
        np_take l (argsort ((λ p, ref_key (cell_at j p.2)) <$> l)) = Ok rs.
Proof.
  intros Hspec Hj. unfold sort_values; simpl. rewrite Hj.
  destruct (argsort_take (λ p, ref_key (cell_at j p.2)) argsort l Hspec)
    as (rs & Hrs & ? & ?).
  exists rs. by rewrite Hrs.
Qed.

Lemma sort_values_sorted name sel j (l : list (cell * list cell)) :
  argsort_spec argsort → column_pos name sel = Some j →
  ∃ rs, sort_values argsort name (Frame sel l) = Ok (Frame sel rs) ∧
        rs ≡ₚ l ∧ Sorted Z.le ((λ p, ref_key (cell_at j p.2)) <$> rs).
Proof.
  intros Hspec Hj.
  destruct (sort_values_taken name sel j l Hspec Hj) as (rs & ? & ? & ? & _).
  by exists rs.
Qed.

Lemma delete_not_elem sel j name :
  NoDup sel → sel !! j = Some name → name ∉ delete j sel.
Proof.
  revert j. induction sel as [|c sel IH]; intros j Hnd Hj; [done|].
  apply NoDup_cons in Hnd as [Hc Hnd]. destruct j as [|j]; simpl in *.
  - by injection Hj as ->.
  - apply not_elem_of_cons. split; [|by eapply IH].
    intros ->. apply Hc. by eapply list_elem_of_lookup_2.
Qed.

(** The frames of one layout, concatenated, sorted, keyed by [_ref]
    and given [_ref] back as a column. *)
Lemma keyed_table sel j (frames : list (DataFrame cell)) :
  argsort_spec argsort →
  frames ≠ [] → Forall (frame_wf sel) frames → NoDup sel →
  column_pos "_ref" sel = Some j →
  ∃ rs,
    (df ← (df ← pd_concat frames; df ← sort_values argsort "_ref" df;
           set_index "_ref" df);
     mret (setitem_index "_ref" df))
      = Ok (Frame (delete j sel ++ ["_ref"%string]) (keyed j <$> rs)) ∧
    rs ≡ₚ (concat (rows <$> frames)).*2 ∧
    Sorted Z.le ((λ r, ref_key (cell_at j r)) <$> rs).
Proof.
  intros Hspec Hne Hwf Hnd Hj.
  rewrite (pd_concat_same sel) by done. simpl.
  destruct (sort_values_sorted "_ref" sel j (concat (rows <$> frames)) Hspec Hj)
    as (rs & -> & Hperm & Hsorted). simpl.
  exists rs.*2. split_and!.
  - unfold set_index; simpl. rewrite Hj. simpl.
    unfold setitem_index; simpl.
    rewrite (proj2 (column_pos_None _ _)).
    2:{ apply delete_not_elem; [done|]. by apply column_pos_Some. }
    f_equal. f_equal. rewrite <-!list_fmap_compose. done.
  - by rewrite Hperm.
  - by rewrite <-list_fmap_compose.
Qed.

(** *** Frames of any layout *)

Lemma union_columns_spec (frames : list (DataFrame cell)) :
  Forall (λ df, NoDup (columns df)) frames →
  NoDup (union_columns frames) ∧
  ∀ c, c ∈ union_columns frames ↔ ∃ df, df ∈ frames ∧ c ∈ columns df.
Proof.
  unfold union_columns.
  assert (∀ l acc, NoDup acc → Forall (λ df : DataFrame cell, NoDup (columns df)) l →
    NoDup (foldl (λ acc df, acc ++ filter (λ c, c ∉ acc) (columns df)) acc l) ∧
    ∀ c, c ∈ foldl (λ acc df, acc ++ filter (λ c, c ∉ acc) (columns df)) acc l
         ↔ c ∈ acc ∨ ∃ df, df ∈ l ∧ c ∈ columns df) as Hfold.
  { induction l as [|df l IH]; intros acc Hacc Hl; cbn [foldl].
    - split; [done|]. intros c. split; [by left|].
      intros [?|(? & Hin & _)]; [done | by apply elem_of_nil in Hin].
    - apply Forall_cons in Hl as [Hdf Hl].
      destruct (IH (acc ++ filter (λ c, c ∉ acc) (columns df))) as [Hnd Hin]; [|done|].
      { apply NoDup_app. split_and!; [done| |by apply NoDup_filter].
        intros c ? [? _]%list_elem_of_filter. done. }
      split; [done|]. intros c. rewrite Hin, elem_of_app, list_elem_of_filter.
      split.
      + intros [[?|[? ?]]|(df' & ? & ?)]; [by left| |].
        * right. exists df. split; [by left | done].
        * right. exists df'. split; [by right | done].
      + intros [?|(df' & [->|?]%elem_of_cons & ?)]; [by left; left| |].
        * destruct (decide (c ∈ acc)); [by left; left | by left; right].
        * right. by exists df'. }
  intros Hall. destruct (Hfold frames [] (NoDup_nil_2) Hall) as [? Hin].
  split; [done|]. intros c. rewrite Hin. split; [|by right].
  intros [Hc|?]; [by apply elem_of_nil in Hc | done].
Qed.

(** A field keeps its column when a row is laid out anew. *)
Lemma reindex_cell U own r c u i :
  NoDup own → column_pos c U = Some u → own !! i = Some c →
  cell_at u (reindex U own r) = cell_at i r.
Proof.
  intros Hnd Hu Hi. unfold reindex.
  apply cell_at_lookup. rewrite list_lookup_fmap.
  rewrite (column_pos_Some _ _ _ Hu). simpl.
  by rewrite (column_pos_lookup _ _ _ Hnd Hi).
Qed.

Lemma keyed_table_any_taken j (frames : list (DataFrame cell)) :
  argsort_spec argsort →
  frames ≠ [] → Forall (λ df, NoDup (columns df)) frames →
  column_pos "_ref" (union_columns frames) = Some j →
  ∃ rs,
    (df ← (df ← pd_concat frames; df ← sort_values argsort "_ref" df;
           set_index "_ref" df);
     mret (setitem_index "_ref" df))
      = Ok (Frame (delete j (union_columns frames) ++ ["_ref"%string])
              (keyed j <$> rs)) ∧
    rs ≡ₚ concat ((λ df, reindex (union_columns frames) (columns df)
                            <$> (rows df).*2) <$> frames) ∧
    Sorted Z.le ((λ r, ref_key (cell_at j r)) <$> rs) ∧
    np_take
      (concat ((λ df, reindex (union_columns frames) (columns df)
                        <$> (rows df).*2) <$> frames))
      (argsort ((λ r, ref_key (cell_at j r))
                  <$> concat ((λ df, reindex (union_columns frames) (columns df)
                                       <$> (rows df).*2) <$> frames)))
      = Ok rs.
Proof.
  intros Hspec Hne Hnd Hj.
  destruct (union_columns_spec frames Hnd) as [HndU _].
  set (U := union_columns frames) in *.
  set (l := concat ((λ df, (λ p, (p.1, reindex U (columns df) p.2)) <$> rows df)
                      <$> frames)).
  assert (pd_concat frames = Ok (Frame U l)) as ->.
  { unfold pd_concat. by destruct frames. }
  simpl.
  destruct (sort_values_taken "_ref" U j l Hspec Hj)
    as (rs & -> & Hperm & Hsorted & Htake). simpl.
  assert (l.*2 = concat ((λ df, reindex U (columns df) <$> (rows df).*2)
                           <$> frames)) as Hl.
  { unfold l. clearbody U. clear.
    induction frames as [|df frames IH]; [done|]. csimpl.
    rewrite fmap_app, IH, <-!list_fmap_compose. done. }
  exists rs.*2. split_and!.
  - unfold set_index; simpl. rewrite Hj. simpl.
    unfold setitem_index; simpl.
    rewrite (proj2 (column_pos_None _ _)).
    2:{ apply delete_not_elem; [done|]. by apply column_pos_Some. }
    f_equal. f_equal. rewrite <-!list_fmap_compose. done.
  - by rewrite Hperm, Hl.
  - by rewrite <-list_fmap_compose.
  - rewrite <-Hl, <-list_fmap_compose. by apply np_take_fmap.
Qed.

Lemma keyed_table_any j (frames : list (DataFrame cell)) :
  argsort_spec argsort →
  frames ≠ [] → Forall (λ df, NoDup (columns df)) frames →
  column_pos "_ref" (union_columns frames) = Some j →
  ∃ rs,
    (df ← (df ← pd_concat frames; df ← sort_values argsort "_ref" df;
           set_index "_ref" df);
     mret (setitem_index "_ref" df))
      = Ok (Frame (delete j (union_columns frames) ++ ["_ref"%string])
              (keyed j <$> rs)) ∧
    rs ≡ₚ concat ((λ df, reindex (union_columns frames) (columns df)
                            <$> (rows df).*2) <$> frames) ∧
    Sorted Z.le ((λ r, ref_key (cell_at j r)) <$> rs).
Proof.
  intros Hspec Hne Hnd Hj.
  destruct (keyed_table_any_taken j frames Hspec Hne Hnd Hj)
    as (rs & ? & ? & ? & _).
  by exists rs.
Qed.

(** *** Reading the files *)

Lemma imap_snd {A B C} (g : nat → C) (h : A → B) (l : list A) :
  (imap (λ i x, (g i, h x)) l).*2 = h <$> l.
Proof.
  revert g. induction l as [|x l IH]; intros g; [done|]. csimpl.
  f_equal. apply (IH (g ∘ S)).
Qed.

Lemma read_files hdr cols (files : list (csv_file cell)) :
  Forall (λ f, csv_header f = hdr ∧ csv_wf f) files →
  Forall (λ c, c ∈ hdr) cols →
  ∃ frames,
    mapM (λ x, simple_CSV_read x cols) files = Ok frames ∧
    length frames = length files ∧
    Forall (frame_wf (filter (λ c, c ∈ cols) hdr)) frames ∧
    (concat (rows <$> frames)).*2 = selected hdr cols files.
Proof.
  intros Hfiles Hcols. unfold selected.
  induction Hfiles as [|f files [Hhdr [Hnd Hrows]] _ IH].
  - exists []. by repeat constructor.
  - destruct IH as (frames & Hframes & Hlen & Hwf & Hsel).
    eexists (_ :: frames). split_and!.
    + apply mapM_Ok. constructor; [|by apply mapM_Ok].
      apply simple_CSV_read_Ok. by rewrite Hhdr.
    + simpl. by rewrite Hlen.
    + constructor; [|done]. split; simpl; [by rewrite Hhdr|].
      apply Forall_forall. intros [lbl r] Hin.
      apply list_elem_of_lookup in Hin as [i Hi].
      rewrite list_lookup_imap in Hi.
      destruct (csv_rows f !! i) as [r0|] eqn:Hr0; [|done].
      simpl in Hi. injection Hi as <- <-. simpl.
      rewrite select_cells_length, Hhdr; [done|].
      eapply Forall_lookup_1 in Hrows; [|done]. done.
    + csimpl. rewrite !fmap_app, Hsel, imap_snd. by rewrite Hhdr.
Qed.

(** Jobs that all return: the results, whatever the number of workers
    and whatever the backend. *)
Lemma failures_Ok {X Y} (func : X → result Y) xs ys :
  mapM func xs = Ok ys → failures (func <$> xs) = [].
Proof.
  intros Hall%mapM_Ok. unfold failures.
  induction Hall as [|x y xs ys Hx _ IH]; [done|]. csimpl. by rewrite Hx.
Qed.

Lemma failures_elem {X Y} (func : X → result Y) xs e :
  e ∈ failures (func <$> xs) ↔ ∃ x, x ∈ xs ∧ func x = Raise e.
Proof.
  unfold failures. rewrite list_elem_of_omap. split.
  - intros (r & (x & -> & Hx)%list_elem_of_fmap & Hr).
    exists x. split; [done|]. destruct (func x); congruence.
  - intros (x & Hx & Hfx). exists (Raise e). split; [|done].
    apply list_elem_of_fmap. by exists x.
Qed.

Lemma failures_nil {X Y} (func : X → result Y) xs :
  failures (func <$> xs) = [] → ∃ ys, mapM func xs = Ok ys.
Proof.
  unfold failures. induction xs as [|x xs IH]; csimpl; [by exists []|].
  destruct (func x) as [y|e] eqn:Hfx; [|done]. intros Hrest.
  destruct (IH Hrest) as (ys & Hys). exists (y :: ys).
  apply result_bind_Ok. exists y. split; [done|].
  apply result_bind_Ok. exists ys. split; [exact Hys | done].
Qed.

Lemma joblib_Parallel_Ok {X Y} n_jobs (func : X → result Y) xs ys :
  mapM func xs = Ok ys → joblib_Parallel reported n_jobs func xs = Ok ys.
Proof.
  intros Hall. unfold joblib_Parallel. case_decide; [done|].
  by rewrite (failures_Ok func xs ys Hall).
Qed.

Lemma joblib_Parallel_Ok_inv {X Y} n_jobs (func : X → result Y) xs ys :
  joblib_Parallel reported n_jobs func xs = Ok ys → mapM func xs = Ok ys.
Proof.
  unfold joblib_Parallel. case_decide; [done|].
  by destruct (failures (func <$> xs)).
Qed.

(** Jobs of which some raise: the exception of one of them. *)
Lemma joblib_Parallel_Raise {X Y} n_jobs (func : X → result Y) xs :
  Exists (λ x, is_ok (func x) = false) xs →
  ∃ x e, x ∈ xs ∧ func x = Raise e ∧
         joblib_Parallel reported n_jobs func xs = Raise e.
Proof.
  intros Hex. unfold joblib_Parallel.
  assert (∃ x e, x ∈ xs ∧ func x = Raise e ∧ mapM func xs = Raise e) as Hfirst.
  { induction Hex as [x xs Hx|x xs _ IH]; simpl.
    - destruct (func x) as [|e] eqn:Hfx; [done|]. exists x, e.
      split_and!; [left | done | done].
    - destruct (func x) as [y|e] eqn:Hfx; simpl.
      + destruct IH as (x' & e & ? & ? & Hm). exists x', e.
        split_and!; [by right | done | by rewrite Hm].
      + exists x, e. split_and!; [left | done | done]. }
  case_decide; [done|].
  destruct (failures (func <$> xs)) as [|e es] eqn:Hfail.
  { apply failures_nil in Hfail as (ys & Hys).
    destruct Hfirst as (? & ? & _ & _ & ?). congruence. }
  assert (default e ((e :: es) !! reported (e :: es)) ∈ e :: es) as Hin.
  { destruct ((e :: es) !! reported (e :: es)) as [e'|] eqn:He'; simpl.
    - by eapply list_elem_of_lookup_2.
    - left. }
  assert (default e ((e :: es) !! reported (e :: es))
          ∈ failures (func <$> xs)) as Hin' by by rewrite Hfail.
  apply failures_elem in Hin' as (x & Hx & Hfx).
  by exists x, (default e ((e :: es) !! reported (e :: es))).
Qed.

Lemma load_ORG_data_unfold PARALLEL files extra :
  load_ORG_data argsort reported PARALLEL files extra =
    (data ← joblib_Parallel reported (if PARALLEL then -1 else 1)
              (λ x, simple_CSV_read x (requested extra)) files;
     df ← (df ← pd_concat data; df ← sort_values argsort "_ref" df;
           set_index "_ref" df);
     mret (setitem_index "_ref" df)).
Proof. by destruct extra. Qed.

(** Once the files are read, the table is made from their frames. *)
Lemma load_ORG_data_frames PARALLEL files extra frames :
  mapM (λ x, simple_CSV_read x (requested extra)) files = Ok frames →
  load_ORG_data argsort reported PARALLEL files extra =
    (df ← (df ← pd_concat frames; df ← sort_values argsort "_ref" df;
           set_index "_ref" df);
     mret (setitem_index "_ref" df)).
Proof.
  intros Hframes.
  by rewrite load_ORG_data_unfold, (joblib_Parallel_Ok _ _ _ _ Hframes).
Qed.

Lemma load_ORG_data_Ok_frames PARALLEL files extra df :
  load_ORG_data argsort reported PARALLEL files extra = Ok df →
  ∃ frames,
    mapM (λ x, simple_CSV_read x (requested extra)) files = Ok frames ∧
    (df ← (df ← pd_concat frames; df ← sort_values argsort "_ref" df;
           set_index "_ref" df);
     mret (setitem_index "_ref" df)) = Ok df.
Proof.
  rewrite load_ORG_data_unfold.
  intros (frames & Hframes%joblib_Parallel_Ok_inv & Hdf)%result_bind_Ok.
  by exists frames.
Qed.

(** On files of one layout that have the requested columns, the
    loader returns the selected rows sorted by reference id, each
    labelled by its id and keeping it as its last field. *)
Lemma load_ORG_data_sorted PARALLEL hdr files extra :
  argsort_spec argsort →
  files ≠ [] →
  Forall (λ f, csv_header f = hdr ∧ csv_wf f) files →
  Forall (λ c, c ∈ hdr) (requested extra) →
  ∃ j out,
    column_pos "_ref" (filter (λ c, c ∈ requested extra) hdr) = Some j ∧
    load_ORG_data argsort reported PARALLEL files extra =
      Ok (Frame (delete j (filter (λ c, c ∈ requested extra) hdr) ++ ["_ref"%string])
            (keyed j <$> out)) ∧
    out ≡ₚ selected hdr (requested extra) files ∧
    Sorted Z.le ((λ r, ref_key (cell_at j r)) <$> out).
Proof.
  intros Hspec Hne Hfiles Hcols.
  set (sel := filter (λ c, c ∈ requested extra) hdr).
  assert (NoDup sel) as Hnd.
  { apply NoDup_filter. destruct Hfiles as [|f ? [<- [? _]]]; done. }
  destruct (column_pos_elem "_ref" sel) as [j Hj].
  { apply list_elem_of_filter. split; [left|].
    by apply Forall_cons in Hcols as [? _]. }
  destruct (read_files hdr (requested extra) files Hfiles Hcols)
    as (frames & Hframes & Hlen & Hwf & Hsel).
  destruct (keyed_table sel j frames Hspec) as (out & Hout & Hperm & Hsorted);
    [|done..|].
  { intros ->. by destruct files. }
  exists j, out. split_and!; [done| |by rewrite <-Hsel|done].
  rewrite (load_ORG_data_frames _ _ _ _ Hframes). exact Hout.
Qed.

Lemma read_files_any cols files :
  Forall (λ f, Forall (λ c, c ∈ csv_header f) cols) files →
  mapM (λ x, simple_CSV_read x cols) files =
    Ok ((λ f, Frame (filter (λ c, c ∈ cols) (csv_header f))
                (imap (λ i r, (int_cell i, select_cells (csv_header f) cols r))
                   (csv_rows f))) <$> files).
Proof.
  intros Hall. apply mapM_Ok, Forall2_fmap_r, Forall_Forall2_diag.
  eapply Forall_impl; [done|]. intros f Hf. by apply simple_CSV_read_Ok.
Qed.

(** On files that have the requested columns, whatever the order of
    their headers, the loader returns their rows sorted by reference
    id, each labelled by its id and keeping it as its last field. *)
Lemma load_ORG_data_taken PARALLEL files extra :
  argsort_spec argsort →
  files ≠ [] → Forall csv_wf files →
  Forall (λ f, Forall (λ c, c ∈ csv_header f) (requested extra)) files →
  ∃ U j out,
    NoDup U ∧ (∀ c, c ∈ U ↔ c ∈ requested extra) ∧
    column_pos "_ref" U = Some j ∧
    load_ORG_data argsort reported PARALLEL files extra =
      Ok (Frame (delete j U ++ ["_ref"%string]) (keyed j <$> out)) ∧
    out ≡ₚ concat ((λ f, laid_out U (requested extra) f <$> csv_rows f) <$> files) ∧
    Sorted Z.le ((λ r, ref_key (cell_at j r)) <$> out) ∧
    np_take
      (concat ((λ f, laid_out U (requested extra) f <$> csv_rows f) <$> files))
      (argsort ((λ r, ref_key (cell_at j r))
                  <$> concat ((λ f, laid_out U (requested extra) f <$> csv_rows f)
                                <$> files)))
      = Ok out.
Proof.
  intros Hspec Hne Hwf Hcols.
  set (cols := requested extra) in *.
  set (frames := (λ f, Frame (filter (λ c, c ∈ cols) (csv_header f))
                (imap (λ i r, (int_cell i, select_cells (csv_header f) cols r))
                   (csv_rows f))) <$> files).
  assert (Forall (λ df : DataFrame cell, NoDup (columns df)) frames) as Hnd.
  { apply Forall_fmap. eapply Forall_impl; [exact Hwf|].
    intros f [? _]; simpl. by apply NoDup_filter. }
  destruct (union_columns_spec frames Hnd) as [HndU HinU].
  assert (∀ c, c ∈ union_columns frames ↔ c ∈ cols) as HU.
  { intros c. rewrite HinU. split.
    - intros (df & Hdf & Hc). apply list_elem_of_fmap in Hdf as (f & -> & _).
      simpl in Hc. by apply list_elem_of_filter in Hc as [? _].
    - intros Hc. destruct files as [|f files']; [done|].
      eexists. split; [left|]. simpl. apply list_elem_of_filter. split; [done|].
      apply Forall_cons in Hcols as [Hf _].
      by eapply Forall_forall in Hf. }
  destruct (column_pos_elem "_ref" (union_columns frames)) as [j Hj].
  { apply HU. by left. }
  destruct (keyed_table_any_taken j frames Hspec)
    as (out & Hout & Hperm & Hsorted & Htake); [|done..|].
  { unfold frames. by destruct files. }
  assert (∀ U, concat ((λ df, reindex U (columns df) <$> (rows df).*2) <$> frames)
               = concat ((λ f, laid_out U cols f <$> csv_rows f) <$> files))
    as Hall.
  { intros U. unfold frames. rewrite <-list_fmap_compose.
    erewrite list_fmap_ext; [done|].
    intros i f _; simpl. unfold laid_out.
    by rewrite imap_snd, <-list_fmap_compose. }
  exists (union_columns frames), j, out. split_and!; [done..| | |done|].
  - by rewrite (load_ORG_data_frames _ _ _ _ (read_files_any cols files Hcols)).
  - by rewrite Hperm, Hall.
  - by rewrite <-Hall.
Qed.

Lemma load_ORG_data_keyed PARALLEL files extra :
  argsort_spec argsort →
  files ≠ [] → Forall csv_wf files →
  Forall (λ f, Forall (λ c, c ∈ csv_header f) (requested extra)) files →
  ∃ U j out,
    NoDup U ∧ (∀ c, c ∈ U ↔ c ∈ requested extra) ∧
    column_pos "_ref" U = Some j ∧
    load_ORG_data argsort reported PARALLEL files extra =
      Ok (Frame (delete j U ++ ["_ref"%string]) (keyed j <$> out)) ∧
    out ≡ₚ concat ((λ f, laid_out U (requested extra) f <$> csv_rows f) <$> files) ∧
    Sorted Z.le ((λ r, ref_key (cell_at j r)) <$> out).
Proof.
  intros Hspec Hne Hwf Hcols.
  destruct (load_ORG_data_taken PARALLEL files extra Hspec Hne Hwf Hcols)
    as (U & j & out & ? & ? & ? & ? & ? & ? & _).
  by exists U, j, out.
Qed.

(** Every field of a laid-out row is the field the file has under
    that column. *)
Lemma laid_out_cell U cols f r c u i :
  csv_wf f → r ∈ csv_rows f → c ∈ cols →
  column_pos c U = Some u → csv_header f !! i = Some c →
  cell_at u (laid_out U cols f r) = cell_at i r.
Proof.
  intros [Hnd Hrows] Hr Hc Hu Hi. unfold laid_out.
  assert (length r = length (csv_header f)) as Hlen.
  { by eapply Forall_forall in Hrows. }
  destruct (select_cells_at _ cols r c i Hnd Hi Hc Hlen) as (j & Hj & <-).
  eapply reindex_cell; [by apply NoDup_filter | done | by apply column_pos_Some].
Qed.

(** When the loader returns there was a file, and every file had the
    requested columns. *)
Lemma load_ORG_data_Ok_inv PARALLEL files extra df :
  load_ORG_data argsort reported PARALLEL files extra = Ok df →
  files ≠ [] ∧
  Forall (λ f, Forall (λ c, c ∈ csv_header f) (requested extra)) files.
Proof.
  intros (frames & Hframes & Hdf)%load_ORG_data_Ok_frames.
  apply mapM_Ok in Hframes. split.
  - intros ->. inversion Hframes; subst. done.
  - clear Hdf. induction Hframes as [|f ???? _ IH]; constructor; [|done].
    destruct (decide (Forall (λ c, c ∈ csv_header f) (requested extra)))
      as [|Hno]; [done|].
    by rewrite (simple_CSV_read_Raise _ _ Hno) in *.
Qed.

(** On files that list the requested columns in one order [sel], the
    loader returns the rows cut down to these columns. *)
Lemma load_ORG_data_listed PARALLEL sel files extra :
  argsort_spec argsort →
  files ≠ [] → Forall csv_wf files →
  Forall (λ f, Forall (λ c, c ∈ csv_header f) (requested extra)) files →
  Forall (λ f, filter (λ c, c ∈ requested extra) (csv_header f) = sel) files →
  ∃ j out,
    NoDup sel ∧ column_pos "_ref" sel = Some j ∧
    load_ORG_data argsort reported PARALLEL files extra =
      Ok (Frame (delete j sel ++ ["_ref"%string]) (keyed j <$> out)) ∧
    out ≡ₚ concat ((λ f, select_cells (csv_header f) (requested extra)
                           <$> csv_rows f) <$> files) ∧
    Sorted Z.le ((λ r, ref_key (cell_at j r)) <$> out).
Proof.
  intros Hspec Hne Hwf Hcols Hsel.
  set (cols := requested extra) in *.
  assert (NoDup sel ∧ "_ref"%string ∈ sel) as [Hnd Href].
  { destruct files as [|f files']; [done|].
    apply Forall_cons in Hwf as [[Hnd _] _].
    apply Forall_cons in Hsel as [<- _].
    apply Forall_cons in Hcols as [Hf _]. split; [by apply NoDup_filter|].
    apply list_elem_of_filter. split; [left|].
    by apply Forall_cons in Hf as [? _]. }
  destruct (column_pos_elem "_ref" sel Href) as [j Hj].
  set (frames := (λ f, Frame (filter (λ c, c ∈ cols) (csv_header f))
                (imap (λ i r, (int_cell i, select_cells (csv_header f) cols r))
                   (csv_rows f))) <$> files).
  assert (Forall (frame_wf sel) frames) as Hframes.
  { apply Forall_fmap, Forall_forall. intros f Hf.
    eapply Forall_forall in Hsel; [|done].
    eapply Forall_forall in Hwf as [_ Hrows]; [|done].
    split; simpl; [done|]. apply Forall_forall. intros [lbl r] Hin.
    apply list_elem_of_lookup in Hin as [i Hi].
    rewrite list_lookup_imap in Hi.
    destruct (csv_rows f !! i) as [r0|] eqn:Hr0; [|done].
    simpl in Hi. injection Hi as <- <-. simpl.
    rewrite select_cells_length, Hsel; [done|].
    by eapply Forall_lookup_1 in Hrows. }
  destruct (keyed_table sel j frames Hspec) as (out & Hout & Hperm & Hsorted);
    [|done..|].
  { unfold frames. by destruct files. }
  exists j, out. split_and!; [done..| | |done].
  - by rewrite (load_ORG_data_frames _ _ _ _ (read_files_any cols files Hcols)).
  - rewrite Hperm. unfold frames. clear.
    induction files as [|f files IH]; [done|]. csimpl.
    by rewrite fmap_app, IH, imap_snd.
Qed.

(** The reference ids of the rows of a file once they are cut down to
    the requested columns. *)
Lemma select_cells_refs cols f j :
  csv_wf f → "_ref"%string ∈ cols →
  column_pos "_ref" (filter (λ c, c ∈ cols) (csv_header f)) = Some j →
  (λ r, ref_key (cell_at j r)) <$> (select_cells (csv_header f) cols <$> csv_rows f)
    = file_refs f.
Proof.
  intros [Hnd Hrows] Hin Hj. unfold file_refs.
  assert ("_ref"%string ∈ csv_header f) as Href.
  { apply column_pos_Some, list_elem_of_lookup_2, list_elem_of_filter in Hj.
    by destruct Hj. }
  destruct (column_pos_elem _ _ Href) as [i Hi]. rewrite Hi.
  apply column_pos_Some in Hi.
  unfold csv_refs. rewrite <-list_fmap_compose. apply Forall_fmap_ext.
  eapply Forall_impl; [done|]. intros r Hlen; simpl.
  destruct (select_cells_at _ cols r _ i Hnd Hi Hin Hlen) as (j' & Hj' & Hcell).
  assert (j' = j) as -> by congruence. by rewrite Hcell.
Qed.

Lemma selected_file_refs cols sel files j :
  Forall csv_wf files → "_ref"%string ∈ cols →
  Forall (λ f, filter (λ c, c ∈ cols) (csv_header f) = sel) files →
  column_pos "_ref" sel = Some j →
  (λ r, ref_key (cell_at j r))
    <$> concat ((λ f, select_cells (csv_header f) cols <$> csv_rows f) <$> files)
  = concat (file_refs <$> files).
Proof.
  intros Hwf Hin Hsel Hj. induction Hwf as [|f files Hf _ IH]; [done|].
  apply Forall_cons in Hsel as [Hsel1 Hsel]. csimpl.
  rewrite fmap_app, IH by done. f_equal.
  apply select_cells_refs; [done..|]. by rewrite Hsel1.
Qed.
End org_lemmas.

(** ** Reading a store *)

Section load_h5_file_lemmas.
Context {A : Type}.
Implicit Types (r : h5group (node A)) (w : world (node A))
  (args : list string) (data : gmap string A).

Lemma with_File_run {T B} path m (body : handle → M T B) (w : world T) g :
  m ≠ ModeW → fs w !! path = Some g →
  with_File path m body w =
    (let '(res, w2) := body (Handle path m)
                         (World (fs w) (Handle path m :: opened w) (reads w)) in
     (res, World (fs w2) (remove_first (Handle path m) (opened w2)) (reads w2))).
Proof.
  intros Hm Hg. unfold with_File, h5py_File. rewrite Hg. by destruct m.
Qed.

(** The validation pass changes nothing; it stops at the first name
    that the store lacks. *)
Lemma check_all_present h5 f_h5 r args w :
  fs w !! h_path h5 = Some r → Forall (λ k, k ∈ h5_keys r) args →
  for_each args (check h5 f_h5) () w = (Ok (), w).
Proof.
  intros Hr. induction 1 as [|k args Hk _ IH]; simpl; [done|].
  rewrite M_bind_run. unfold check at 1. rewrite M_bind_run.
  unfold root; simpl. rewrite Hr; simpl.
  unfold h5_contains. by rewrite bool_decide_eq_true_2.
Qed.

Lemma check_first_missing h5 f_h5 r pre k post w :
  fs w !! h_path h5 = Some r →
  Forall (λ k, k ∈ h5_keys r) pre → k ∉ h5_keys r →
  for_each (pre ++ k :: post) (check h5 f_h5) () w
    = (Raise (ValueError (NotFoundIn k f_h5)), w).
Proof.
  intros Hr Hpre Hk. induction Hpre as [|k' pre Hk' _ IH]; simpl.
  - rewrite M_bind_run. unfold check at 1. rewrite M_bind_run.
    unfold root; simpl. rewrite Hr; simpl.
    unfold h5_contains. by rewrite bool_decide_eq_false_2.
  - rewrite M_bind_run. unfold check at 1. rewrite M_bind_run.
    unfold root; simpl. rewrite Hr; simpl.
    unfold h5_contains. by rewrite bool_decide_eq_true_2.
Qed.

Lemma first_missing (P : string → Prop) `{∀ k, Decision (P k)} args :
  ¬ Forall P args →
  ∃ pre k post, args = pre ++ k :: post ∧ Forall P pre ∧ ¬ P k.
Proof.
  induction args as [|k args IH]; intros Hno.
  - destruct Hno. constructor.
  - destruct (decide (P k)) as [Hk|Hk].
    + destruct IH as (pre & k' & post & -> & ? & ?).
      { intros ?. apply Hno. by constructor. }
      exists (k :: pre), k', post. split_and!; [done| by constructor |done].
    + exists [], k, args. split_and!; [done| constructor |done].
Qed.

Lemma yields_read_dataset F h5 r key :
  F !! h_path h5 = Some r →
  yields F (read_dataset h5 key) (dataset_of r key).
Proof.
  intros Hr w HF. rewrite <-HF in *. clear HF.
  unfold read_dataset, dataset_of. rewrite M_bind_run.
  unfold root; simpl. rewrite Hr; simpl.
  by destruct (h5_get key r) as [[a c|ms]|].
Qed.

Lemma yields_check F h5 f_h5 r u key :
  F !! h_path h5 = Some r →
  yields F (check h5 f_h5 u key)
    (if negb (h5_contains key r)
     then Raise (ValueError (NotFoundIn key f_h5)) else Ok ()).
Proof.
  intros Hr. unfold check. eapply yields_bind_Ok; [by apply yields_root|].
  destruct (negb _); [apply yields_raise | apply yields_ret].
Qed.

(** The file is opened for reading and closed again: whatever the
    outcome, no file changes and no handle is left open. *)
Lemma load_h5_file_frame f_h5 args w :
  fs (load_h5_file f_h5 args w).2 = fs w ∧
  opened (load_h5_file f_h5 args w).2 = opened w.
Proof.
  unfold load_h5_file. destruct (fs w !! f_h5) as [r|] eqn:Hr.
  - assert (∃ p, yields (fs w)
      (with_File f_h5 ModeR (λ h5,
         args0 ← match args with
                 | [] => g ← root h5; mret (h5_keys g)
                 | _ => mret args
                 end;
         _ ← for_each args0 (check h5 f_h5) ();
         for_each args0 (λ data key,
           a ← read_dataset h5 key; mret (<[key := a]> data)) (∅ : gmap string A))) p)
      as [p Hp].
    { eexists. eapply yields_with_File; [done..|].
      eapply (yields_bind_Ok _ _ _ (names_read r args)).
      { destruct args; simpl; [|apply yields_ret].
        eapply yields_bind_Ok; [by apply yields_root | apply yields_ret]. }
      apply yields_bind.
      { apply yields_for_each. intros. by apply yields_check. }
      intros ? _. apply yields_for_each. intros data key.
      apply yields_bind; [by apply yields_read_dataset|].
      intros x _. apply yields_ret. }
    destruct (Hp w eq_refl) as (_ & ? & ?). done.
  - by rewrite with_File_missing.
Qed.

Lemma dataset_of_present r k : is_ok (dataset_of r k) = true → k ∈ h5_keys r.
Proof.
  unfold dataset_of, h5_keys.
  induction r as [|[k' v] r IH]; simpl; [done|].
  case_decide; [subst; by left|]. intros. right. by apply IH.
Qed.

(** A store where every requested name is a dataset: the result holds
    exactly these datasets. *)
Lemma load_h5_file_Ok f_h5 args w r :
  fs w !! f_h5 = Some r →
  Forall (λ k, is_ok (dataset_of r k) = true) (names_read r args) →
  ∃ data, (load_h5_file f_h5 args w).1 = Ok data ∧
    ∀ k a, data !! k = Some a ↔ k ∈ names_read r args ∧ dataset_of r k = Ok a.
Proof.
  intros Hr Hall. unfold load_h5_file.
  rewrite (with_File_run _ _ _ _ r) by done.
  set (h5 := Handle f_h5 ModeR).
  set (w1 := World (fs w) (h5 :: opened w) (reads w)).
  assert (fs w1 !! h_path h5 = Some r) as Hr1 by done.
  rewrite M_bind_run.
  assert ((match args with
           | [] => g ← root h5; mret (h5_keys g)
           | _ => mret args
           end) w1 = (Ok (names_read r args), w1)) as ->.
  { destruct args; [|done]. rewrite M_bind_run. unfold root. simpl. by rewrite Hr. }
  rewrite M_bind_run.
  change (for_each (names_read r args) _ () w1)
    with (for_each (names_read r args) (check h5 f_h5) () w1).
  rewrite (check_all_present _ _ r).
  2: done.
  2:{ eapply Forall_impl; [done|]. intros k. apply dataset_of_present. }
  assert (∀ names data0 (w0 : world (node A)),
    fs w0 = fs w →
    Forall (λ k, is_ok (dataset_of r k) = true) names →
    ∃ data, (for_each names (λ data key,
               a ← read_dataset h5 key; mret (<[key := a]> data)) data0 w0).1 = Ok data ∧
      ∀ k a, data !! k = Some a ↔
        (k ∈ names ∧ dataset_of r k = Ok a) ∨ ((k ∉ names) ∧ data0 !! k = Some a))
    as Hloop.
  { clear -Hr. induction names as [|key names IH]; intros data0 w0 Hfs Hall; simpl.
    - exists data0. split; [done|]. intros k a. rewrite elem_of_nil. split.
      + intros ?. right. split; [tauto | done].
      + by intros [[[] _]|[_ ?]].
    - apply Forall_cons in Hall as [Hkey Hall].
      rewrite M_bind_run.
      destruct (yields_read_dataset (fs w) h5 r key Hr w0 Hfs) as (Hres & Hfs' & _).
      rewrite M_bind_run.
      destruct (read_dataset h5 key w0) as [res w0'] eqn:Hrun. simpl in Hres, Hfs'.
      subst res. destruct (dataset_of r key) as [a0|] eqn:Ha0; [|done].
      simpl. destruct (IH (<[key := a0]> data0) w0' Hfs' Hall) as (data & Hdata & Hspec).
      exists data. split; [done|]. intros k a. rewrite Hspec, elem_of_cons.
      destruct (decide (k = key)) as [->|Hne].
      + rewrite lookup_insert_eq. split.
        * intros [[? ?]|[? [= <-]]]; left; eauto.
        * intros [[_ Hk]|[Hk _]]; [|by destruct Hk; left].
          destruct (decide (key ∈ names)); [left | right]; split; try done.
          congruence.
      + rewrite lookup_insert_ne by done. split.
        * intros [[? ?]|[? ?]]; [left | right]; split; try done; [by right|].
          by intros [?|?].
        * intros [[[?|?] ?]|[Hk ?]]; [done|left; by split|right].
          split; [|done]. intros ?. apply Hk. by right. }
  destruct (Hloop (names_read r args) ∅ w1 eq_refl Hall) as (data & Hdata & Hspec).
  exists data. split.
  - destruct (for_each (names_read r args) _ ∅ w1). done.
  - intros k a. rewrite Hspec. split; [|by left].
    intros [?|[_ ?]]; [done|]. by rewrite lookup_empty in *.
Qed.

(** A requested name that the store lacks: the call raises, naming the
    first such name and the file, and the world is as it was; no
    dataset has been read. *)
Lemma load_h5_file_missing f_h5 args w r :
  fs w !! f_h5 = Some r →
  ¬ Forall (λ k, k ∈ h5_keys r) args →
  ∃ k, k ∈ args ∧ (k ∉ h5_keys r) ∧
       load_h5_file f_h5 args w = (Raise (ValueError (NotFoundIn k f_h5)), w).
Proof.
  intros Hr Hno.
  destruct (first_missing _ args Hno) as (pre & k & post & Hargs & Hpre & Hk).
  exists k. split_and!; [rewrite Hargs; apply elem_of_app; right; by left | done |].
  unfold load_h5_file. rewrite (with_File_run _ _ _ _ r) by done.
  set (h5 := Handle f_h5 ModeR).
  set (w1 := World (fs w) (h5 :: opened w) (reads w)).
  rewrite M_bind_run.
  assert ((match args with
           | [] => g ← root h5; mret (h5_keys g)
           | _ => mret args
           end) w1 = (Ok args, w1)) as ->.
  { destruct args; [|done]. by destruct pre. }
  rewrite M_bind_run.
  change (for_each args _ () w1) with (for_each args (check h5 f_h5) () w1).
  rewrite Hargs, (check_first_missing _ _ r) by done.
  simpl. rewrite decide_True by done. by destruct w.
Qed.
End load_h5_file_lemmas.

(** ** Writing a dataset *)

Section save_h5_lemmas.
Context `{H5Data A}.
Implicit Types (r : h5group (node A)) (ms : h5group (A * string))
  (w : world (node A)) (o : h5object).

Lemma h5_get_with_members name ms ms' r :
  h5_get name r = Some (Group ms) →
  h5_get name (with_members name ms' r) = Some (Group ms').
Proof.
  unfold with_members. induction r as [|[k v] r IH]; simpl; [done|].
  case_decide as Hk; simpl.
  - subst k. by rewrite decide_True.
  - by rewrite decide_False.
Qed.

Lemma with_members_twice name ms1 ms2 r :
  with_members name ms2 (with_members name ms1 r) = with_members name ms2 r.
Proof.
  unfold with_members. rewrite <-list_fmap_compose. apply list_fmap_ext.
  intros i [k v] _; simpl. destruct (decide (k = name)) as [->|Hne]; simpl.
  - by rewrite decide_True.
  - by rewrite decide_False.
Qed.

Lemma h5_del_keys {T} col (g : h5group T) : col ∉ h5_keys (h5_del col g).
Proof.
  unfold h5_keys, h5_del. intros ([k v] & Hk & Hin)%list_elem_of_fmap.
  apply list_elem_of_filter in Hin as [Hne _]. simpl in *. congruence.
Qed.

Lemma h5_del_absent {T} col (g : h5group T) :
  col ∉ h5_keys g → h5_del col g = g.
Proof.
  unfold h5_keys, h5_del. induction g as [|[k v] g IH]; [done|].
  rewrite fmap_cons, not_elem_of_cons. intros [Hne Hg].
  rewrite filter_cons, decide_True by (simpl in *; congruence). by rewrite IH.
Qed.

Lemma h5_del_twice {T} col (v : T) (g : h5group T) :
  h5_del col (h5_del col g ++ [(col, v)]) = h5_del col g.
Proof.
  unfold h5_del at 1. rewrite filter_app, filter_cons, decide_False by (simpl; tauto).
  rewrite filter_nil, app_nil_r. apply h5_del_absent, h5_del_keys.
Qed.

Lemma h5_get_last {T} col (v : T) (g : h5group T) :
  col ∉ h5_keys g → h5_get col (g ++ [(col, v)]) = Some v.
Proof.
  unfold h5_keys. induction g as [|[k v'] g IH]; csimpl.
  - intros _. by rewrite decide_True.
  - rewrite not_elem_of_cons. intros [Hne Hg]. rewrite decide_False by done.
    by apply IH.
Qed.

Lemma group_members_run o w r ms :
  fs w !! h_path (o_file o) = Some r →
  h5_get (o_name o) r = Some (Group ms) →
  group_members o w = (Ok ms, w).
Proof.
  intros Hr Hms. unfold group_members. rewrite M_bind_run.
  unfold root; simpl. rewrite Hr; simpl. by rewrite Hms.
Qed.

Lemma set_group_members_run o ms w r :
  h_mode (o_file o) ≠ ModeR →
  fs w !! h_path (o_file o) = Some r →
  set_group_members o ms w =
    (Ok (), World (<[h_path (o_file o) := with_members (o_name o) ms r]> (fs w))
              (opened w) (reads w)).
Proof.
  intros Hmode Hr. unfold set_group_members. rewrite M_bind_run.
  unfold root; simpl. rewrite Hr; simpl. unfold set_root.
  by destruct (h_mode (o_file o)).
Qed.

(** [create_dataset] on a free name: the array and the filter are
    checked, then the dataset is linked. *)
Lemma create_dataset_run o col data compression w r ms :
  h_mode (o_file o) ≠ ModeR →
  fs w !! h_path (o_file o) = Some r →
  h5_get (o_name o) r = Some (Group ms) →
  col ∉ h5_keys ms →
  create_dataset o col data compression w =
    if storable data then
      if filter_available compression then
        (Ok (o, col),
         World (<[h_path (o_file o) :=
                    with_members (o_name o) (ms ++ [(col, (data, compression))]) r]>
                  (fs w))
           (opened w) (reads w))
      else (Raise (ValueError (FilterUnavailable compression)), w)
    else (Raise TypeError, w).
Proof.
  intros Hmode Hr Hms Hcol. unfold create_dataset.
  rewrite M_bind_run, (group_members_run _ _ _ _ Hr Hms).
  rewrite M_bind_run. destruct (storable data); [|done].
  cbn [mret M_ret]. rewrite M_bind_run.
  destruct (filter_available compression); [|done].
  cbn [mret M_ret]. rewrite M_bind_run.
  unfold lift, h5_link, h5_contains.
  rewrite bool_decide_eq_false_2 by done.
  by rewrite M_bind_run, (set_group_members_run _ _ _ _ Hmode Hr).
Qed.

(** [save_h5] is [create_dataset] once the old dataset is out of the
    way. *)
Lemma save_h5_del o col data compression w r ms :
  h_mode (o_file o) ≠ ModeR →
  fs w !! h_path (o_file o) = Some r →
  h5_get (o_name o) r = Some (Group ms) →
  save_h5 o col data compression w =
    create_dataset o col data (default "gzip"%string compression)
      (after_del (h_path (o_file o)) (o_name o) col r ms w).
Proof.
  intros Hmode Hr Hms. unfold save_h5, after_del.
  rewrite M_bind_run. unfold group_contains at 1.
  rewrite M_bind_run, (group_members_run _ _ _ _ Hr Hms). cbn [mret M_ret].
  destruct (h5_contains col ms).
  - rewrite M_bind_run. unfold group_del.
    by rewrite M_bind_run, (group_members_run _ _ _ _ Hr Hms),
      (set_group_members_run _ _ _ _ Hmode Hr).
  - by rewrite M_bind_run.
Qed.

(** The file behind the group once the old dataset is out of the way. *)
Lemma after_del_root path name col r ms w :
  fs w !! path = Some r →
  h5_get name r = Some (Group ms) →
  ∃ r', fs (after_del path name col r ms w) !! path = Some r' ∧
        h5_get name r' = Some (Group (h5_del col ms)) ∧
        with_members name (h5_del col ms) r' = with_members name (h5_del col ms) r ∧
        (∀ ms', <[path := with_members name ms' r']> (fs (after_del path name col r ms w))
                = <[path := with_members name ms' r]> (fs w)) ∧
        (∀ ms', with_members name ms' r' = with_members name ms' r) ∧
        opened (after_del path name col r ms w) = opened w ∧
        reads (after_del path name col r ms w) = reads w.
Proof.
  intros Hr Hms. unfold after_del. destruct (h5_contains col ms) eqn:Hcol.
  - exists (with_members name (h5_del col ms) r). cbn [fs opened reads].
    split_and!; try done.
    + by rewrite lookup_insert_eq.
    + by eapply h5_get_with_members.
    + apply with_members_twice.
    + intros ms'. by rewrite insert_insert_eq, with_members_twice.
    + intros ms'. apply with_members_twice.
  - apply bool_decide_eq_false in Hcol. exists r.
    rewrite (h5_del_absent col ms Hcol). by split_and!.
Qed.

Lemma save_h5_run o col data compression w r ms :
  h_mode (o_file o) ≠ ModeR →
  fs w !! h_path (o_file o) = Some r →
  h5_get (o_name o) r = Some (Group ms) →
  h5_accepts data compression = true →
  save_h5 o col data compression w =
    (Ok (o, col),
     World (<[h_path (o_file o) :=
                with_members (o_name o) (saved col data compression ms) r]> (fs w))
       (opened w) (reads w)).
Proof.
  intros Hmode Hr Hms [Hdata Hfilter]%andb_prop.
  rewrite (save_h5_del o col data compression w r ms) by done.
  destruct (after_del_root _ (o_name o) col r ms w Hr Hms)
    as (r' & Hr' & Hms' & _ & Hfs & Hwm & Hop & Hrd).
  rewrite (create_dataset_run o col data _ _ r' (h5_del col ms))
    by (try done; apply h5_del_keys).
  rewrite Hdata, Hfilter, Hfs, Hop, Hrd. done.
Qed.

(** An array or a filter that h5py refuses: [save_h5] raises, and the
    dataset that was there is gone. *)
Lemma save_h5_refused o col data compression w r ms :
  h_mode (o_file o) ≠ ModeR →
  fs w !! h_path (o_file o) = Some r →
  h5_get (o_name o) r = Some (Group ms) →
  h5_accepts data compression = false →
  save_h5 o col data compression w =
    (Raise (refusal data compression),
     after_del (h_path (o_file o)) (o_name o) col r ms w).
Proof.
  intros Hmode Hr Hms Hno.
  rewrite (save_h5_del o col data compression w r ms) by done.
  destruct (after_del_root _ (o_name o) col r ms w Hr Hms)
    as (r' & Hr' & Hms' & _).
  rewrite (create_dataset_run o col data _ _ r' (h5_del col ms))
    by (try done; apply h5_del_keys).
  unfold h5_accepts in Hno. unfold refusal.
  destruct (storable data); [|done]. simpl in Hno. by rewrite Hno.
Qed.

Lemma group_read_saved o col data compression w r ms :
  fs w !! h_path (o_file o) = Some r →
  h5_get (o_name o) r = Some (Group (saved col data compression ms)) →
  (group_read o col w).1 = Ok data.
Proof.
  intros Hr Hms. unfold group_read, group_members. rewrite !M_bind_run.
  unfold root; simpl. rewrite Hr; simpl. rewrite Hms.
  unfold mret, M_ret, saved.
  by rewrite h5_get_last by apply h5_del_keys.
Qed.
End save_h5_lemmas.

(** ** Open handles *)

Section handle_lemmas.
Lemma load_document_vectors_frame {scalar} argsort f_h5 sm ur
    (w : world (h5group (shard scalar))) :
  fs (load_document_vectors argsort f_h5 sm ur w).2 = fs w ∧
  opened (load_document_vectors argsort f_h5 sm ur w).2 = opened w.
Proof.
  destruct (fs w !! f_h5) as [r|] eqn:Hr.
  - destruct (load_document_vectors_yields argsort (fs w) f_h5 r sm ur Hr w eq_refl)
      as (_ & ? & ?). done.
  - unfold load_document_vectors. by rewrite with_File_missing.
Qed.

Lemma get_score_methods_frame {T} f_h5 (w : world T) :
  fs (get_score_methods f_h5 w).2 = fs w ∧
  opened (get_score_methods f_h5 w).2 = opened w.
Proof.
  unfold get_score_methods. destruct (fs w !! f_h5) as [r|] eqn:Hr.
  - assert (yields (fs w)
      (with_File f_h5 ModeR (λ h5, mret (KeysView h5)))
      (Ok (KeysView (Handle f_h5 ModeR)))) as Hy.
    { eapply yields_with_File; [done..|]. apply yields_ret. }
    destruct (Hy w eq_refl) as (_ & ? & ?). done.
  - by rewrite with_File_missing.
Qed.

(** [touch_h5] always returns, and the handle it returns is open. *)
Lemma touch_h5_opened {A} f_db (w : world (node A)) :
  ∃ m, (touch_h5 f_db w).1 = Ok (Handle f_db m) ∧
       opened (touch_h5 f_db w).2 = Handle f_db m :: opened w.
Proof.
  unfold touch_h5. rewrite M_bind_run. unfold os_path_exists.
  destruct (fs w !! f_db) as [r|] eqn:Hr.
  - exists ModeRW. rewrite bool_decide_eq_true_2 by eauto. simpl.
    unfold h5py_File. by rewrite Hr.
  - exists ModeW. rewrite bool_decide_eq_false_2 by (by intros [? ?]). done.
Qed.

(** Whether [get_h5save_object] returns a group or raises, the handle
    it opened stays open; a group it returns is a group of that
    handle. *)
Lemma get_h5save_object_opened {A} f_db method (w : world (node A)) :
  ∃ m, opened (get_h5save_object f_db method w).2 = Handle f_db m :: opened w ∧
       ∀ o, (get_h5save_object f_db method w).1 = Ok o →
            o = H5Object (Handle f_db m) method.
Proof.
  destruct (touch_h5_opened f_db w) as (m & Hres & Hop). exists m.
  unfold get_h5save_object. rewrite M_bind_run.
  destruct (touch_h5 f_db w) as [res w1]. simpl in *. subst res.
  rewrite M_bind_run. unfold require_group. rewrite M_bind_run.
  unfold root; simpl.
  destruct (fs w1 !! f_db) as [g|]; simpl; [|done].
  destruct (h5_get method g) as [[a c|ms]|]; simpl; try done.
  - split; [done|]. by intros o [= <-].
  - rewrite M_bind_run. unfold set_root; simpl.
    destruct m; simpl; split; try done; by intros o [= <-].
Qed.
End handle_lemmas.

(** * The properties of the artifact layer *)

(** ** Document vectors come back sorted and aligned *)

(** C1, as the code has it.  For the shards of an existing score-method
    group, each holding a [_ref] array and the selected vector array
    with as many rows and [d] columns, that together hold at least one
    document, [load_document_vectors] returns; the reference ids it
    returns are in ascending order, there are as many of them as rows,
    and the pairs (i-th id, i-th row) are exactly the pairs the shards
    store side by side: each row still sits next to its own id. *)
Theorem load_document_vectors_sorted {scalar} (argsort : list Z → list nat)
    (f_h5 score_method : string) (use_reduced : bool)
    (w : world (h5group (shard scalar))) r g d :
  argsort_spec argsort →
  fs w !! f_h5 = Some r →
  h5_get score_method r = Some g →
  Forall (shard_aligned (vkey use_reduced) d) g.*2 →
  stored_pairs (vkey use_reduced) g ≠ [] →
  ∃ dv,
    (load_document_vectors argsort f_h5 score_method use_reduced w).1 = Ok dv ∧
    Sorted Z.le (_refs dv) ∧
    length (_refs dv) = shape0 (docv dv) ∧
    zip (_refs dv) (mrows (docv dv)) ≡ₚ stored_pairs (vkey use_reduced) g.
Proof.
  intros Hspec Hr Hg Hal Hne.
  destruct (assemble_sorted argsort r score_method use_reduced g d Hspec Hg Hal Hne)
    as (refs & rows & Hdv & Hlen & Hsorted & Hperm).
  destruct (load_document_vectors_yields argsort (fs w) f_h5 r score_method
              use_reduced Hr w eq_refl) as (Hres & _).
  eexists. split; [by rewrite Hres|]. by split_and!.
Qed.

Lemma load_document_vectors_sorted_witness :
  ∃ dv,
    (load_document_vectors argsort_forward "score.h5" "unigram" false
       (score_world [("0"%string, shard_51); ("1"%string, shard_3)])).1 = Ok dv ∧
    Sorted Z.le (_refs dv) ∧
    length (_refs dv) = shape0 (docv dv) ∧
    zip (_refs dv) (mrows (docv dv))
      ≡ₚ [(5, [50; 51]); (1, [10; 11]); (3, [30; 31])].
Proof.
  apply (load_document_vectors_sorted argsort_forward "score.h5" "unigram" false
           (score_world [("0"%string, shard_51); ("1"%string, shard_3)])
           [("unigram"%string, [("0"%string, shard_51); ("1"%string, shard_3)])]
           [("0"%string, shard_51); ("1"%string, shard_3)] 2).
  - apply argsort_ties_spec.
  - reflexivity.
  - reflexivity.
  - repeat constructor.
    + exists [5; 1], (Matrix 2 [[50; 51]; [10; 11]]). repeat split; reflexivity.
    + exists [3], (Matrix 2 [[30; 31]]). repeat split; reflexivity.
  - discriminate.
Defined.

(** C1 as stated fails on shards without documents: the group exists
    and has a shard, yet the loader raises when it stacks the rows of
    the empty matrix anew. *)
Lemma load_document_vectors_no_documents :
  h5_get "unigram" [("unigram"%string, [("0"%string, shard_none)])]
    = Some [("0"%string, shard_none)] ∧
  [("0"%string, shard_none)] ≠ [] ∧
  (load_document_vectors argsort_forward "score.h5" "unigram" false
     (score_world [("0"%string, shard_none)])).1
    = Raise (ValueError NeedAtLeastOneArray).
Proof. split_and!; [reflexivity | discriminate | reflexivity]. Qed.

(** ** The row count is checked against the reference ids *)

(** C6.  Once the arrays of all the shards are stacked, a stacked matrix
    whose row count differs from the number of stacked reference ids
    makes [load_document_vectors] stop with [AssertionError]; and every
    pair it returns has as many reference ids as rows. *)
Theorem load_document_vectors_shape_checked {scalar}
    (argsort : list Z → list nat) (f_h5 score_method : string)
    (use_reduced : bool) (w : world (h5group (shard scalar))) :
  (∀ r g arrs mats refs X,
     fs w !! f_h5 = Some r →
     h5_get score_method r = Some g →
     Forall2 (λ ks a, ds_ref ks.2 = Some a) g arrs →
     Forall2 (λ ks m, vectors_of (vkey use_reduced) ks.2 = Some m) g mats →
     np_hstack arrs = Ok refs → np_vstack mats = Ok X →
     shape0 X ≠ length refs →
     (load_document_vectors argsort f_h5 score_method use_reduced w).1
       = Raise AssertionError) ∧
  (∀ dv,
     (load_document_vectors argsort f_h5 score_method use_reduced w).1 = Ok dv →
     length (_refs dv) = shape0 (docv dv)).
Proof.
  split.
  - intros r g arrs mats refs X Hr Hg Harrs Hmats Hrefs HX Hne.
    destruct (load_document_vectors_yields argsort (fs w) f_h5 r score_method
                use_reduced Hr w eq_refl) as (-> & _).
    by eapply assemble_mismatch.
  - intros dv Hdv. destruct (fs w !! f_h5) as [r|] eqn:Hr.
    + destruct (load_document_vectors_yields argsort (fs w) f_h5 r score_method
                  use_reduced Hr w eq_refl) as (Hres & _).
      rewrite Hres in Hdv. by eapply assemble_Ok_lengths.
    + unfold load_document_vectors in Hdv. by rewrite with_File_missing in Hdv.
Qed.

Lemma load_document_vectors_shape_checked_witness :
  (load_document_vectors argsort_forward "score.h5" "unigram" false
     (score_world [("0"%string, shard_short); ("1"%string, shard_3)])).1
    = Raise AssertionError ∧
  length (_refs vectors_135) = shape0 (docv vectors_135).
Proof.
  destruct (load_document_vectors_shape_checked argsort_forward "score.h5"
              "unigram" false
              (score_world [("0"%string, shard_short); ("1"%string, shard_3)]))
    as [Hstop _].
  destruct (load_document_vectors_shape_checked argsort_forward "score.h5"
              "unigram" false
              (score_world [("0"%string, shard_51); ("1"%string, shard_3)]))
    as [_ Hlen].
  split.
  - apply (Hstop [("unigram"%string, [("0"%string, shard_short); ("1"%string, shard_3)])]
             [("0"%string, shard_short); ("1"%string, shard_3)]
             [[5; 1]; [3]] [Matrix 2 [[50; 51]]; Matrix 2 [[30; 31]]]
             [5; 1; 3] (Matrix 2 [[50; 51]; [30; 31]])).
    + reflexivity.
    + reflexivity.
    + repeat constructor.
    + repeat constructor.
    + reflexivity.
    + reflexivity.
    + unfold shape0; simpl; lia.
  - apply Hlen. reflexivity.
Defined.

(** ** The loaded table is sorted and keyed by [_ref] *)

(** C3, as the code has it.  For at least one matched file, all files
    rectangular, with distinct header names and with the requested
    columns, [load_ORG_data] returns a table whose rows are the rows of
    the files, every field under the column it had in its file, in
    ascending order of [_ref]; the [_ref] field of a row is its index
    label and is kept as the last column.  In particular the files
    [_ref = [3, 1]], [_ref = [2]] and [_ref = [4]] with one payload
    column load into the rows [_ref = [1, 2, 3, 4]], each payload next
    to its own [_ref]. *)
Theorem load_ORG_data_sorted_by_ref `{Cell cell} (argsort : list Z → list nat)
    (reported : list exn → nat) :
  argsort_spec argsort →
  (∀ PARALLEL (files : list (csv_file cell)) extra,
     files ≠ [] → Forall csv_wf files →
     Forall (λ f, Forall (λ c, c ∈ csv_header f) (requested extra)) files →
     ∃ U j out,
       NoDup U ∧ (∀ c, c ∈ U ↔ c ∈ requested extra) ∧
       column_pos "_ref" U = Some j ∧
       load_ORG_data argsort reported PARALLEL files extra =
         Ok (Frame (delete j U ++ ["_ref"%string]) (keyed j <$> out)) ∧
       out ≡ₚ concat ((λ f, laid_out U (requested extra) f <$> csv_rows f)
                        <$> files) ∧
       Sorted Z.le ((λ r, ref_key (cell_at j r)) <$> out) ∧
       (∀ f r c u i,
          f ∈ files → r ∈ csv_rows f → c ∈ requested extra →
          column_pos c U = Some u → csv_header f !! i = Some c →
          cell_at u (laid_out U (requested extra) f r) = cell_at i r)) ∧
  (∀ PARALLEL (r1 r2 r3 r4 p1 p2 p3 p4 : cell),
     ref_key r1 = 1 → ref_key r2 = 2 → ref_key r3 = 3 → ref_key r4 = 4 →
     load_ORG_data argsort reported PARALLEL
       [CsvFile ["_ref"; "payload"]%string [[r3; p3]; [r1; p1]];
        CsvFile ["_ref"; "payload"]%string [[r2; p2]];
        CsvFile ["_ref"; "payload"]%string [[r4; p4]]]
       (Some ["payload"%string])
     = Ok (Frame ["payload"; "_ref"]%string
             [(r1, [p1; r1]); (r2, [p2; r2]); (r3, [p3; r3]); (r4, [p4; r4])])).
Proof.
  intros Hspec. split.
  - intros PARALLEL files extra Hne Hwf Hcols.
    destruct (load_ORG_data_keyed argsort reported PARALLEL files extra Hspec Hne Hwf Hcols)
      as (U & j & out & ? & ? & ? & ? & ? & ?).
    exists U, j, out. split_and!; [done..|].
    intros f r c u i Hf Hr Hc Hu Hi.
    eapply laid_out_cell; [|done..]. by eapply Forall_forall in Hwf.
  - intros PARALLEL r1 r2 r3 r4 p1 p2 p3 p4 H1 H2 H3 H4.
    set (hdr := ["_ref"; "payload"]%string).
    set (files := [CsvFile hdr [[r3; p3]; [r1; p1]]; CsvFile hdr [[r2; p2]];
                   CsvFile hdr [[r4; p4]]]).
    destruct (load_ORG_data_sorted argsort reported PARALLEL hdr files
                (Some ["payload"%string]) Hspec)
      as (j & out & Hj & -> & Hperm & Hsorted).
    + done.
    + assert (NoDup hdr) by (by apply (bool_decide_unpack _)).
      unfold files.
      repeat (apply Forall_cons; split;
              [split; [done | split; [done | by repeat constructor]] |]).
      by constructor.
    + by apply (bool_decide_unpack _).
    + assert (selected hdr (requested (Some ["payload"%string])) files
              = [[r3; p3]; [r1; p1]; [r2; p2]; [r4; p4]]) as Hsel
        by (vm_compute; reflexivity).
      rewrite Hsel in Hperm. injection Hj as <-.
      assert (out = [[r1; p1]; [r2; p2]; [r3; p3]; [r4; p4]]) as ->; [|done].
      apply (sorted_perm_unique (λ r, ref_key (cell_at 0 r))); [| |done|].
      * rewrite Hperm. etrans; [apply perm_swap|].
        apply perm_skip, perm_swap.
      * rewrite Hperm. simpl. unfold cell_at; simpl. rewrite H1, H2, H3, H4.
        by apply (bool_decide_unpack _).
      * simpl. unfold cell_at; simpl. rewrite H1, H2, H3, H4.
        repeat constructor; lia.
Qed.

Lemma load_ORG_data_sorted_by_ref_witness :
  (∃ U j out,
     load_ORG_data argsort_forward first_reported false [a_csv; b_csv; c_csv] None =
       Ok (Frame (delete j U ++ ["_ref"%string]) (keyed j <$> out)) ∧
     Sorted Z.le ((λ r, ref_key (cell_at j r)) <$> out)) ∧
  load_ORG_data argsort_forward first_reported true [a_csv; b_csv; c_csv]
    (Some ["payload"%string]) = Ok abc_table.
Proof.
  destruct (load_ORG_data_sorted_by_ref argsort_forward first_reported (argsort_ties_spec true))
    as [Hany Hthree].
  split.
  - destruct (Hany false [a_csv; b_csv; c_csv] None)
      as (U & j & out & _ & _ & _ & Hdf & _ & Hsorted & _).
    + discriminate.
    + repeat (apply Forall_cons; split;
              [split; [by apply (bool_decide_unpack _) | by repeat constructor] |]).
      by constructor.
    + by apply (bool_decide_unpack _).
    + by exists U, j, out.
  - apply (Hthree true (Int 1) (Int 2) (Int 3) (Int 4)
             (Str "alpha") (Str "beta") (Str "gamma") (Str "delta"));
      reflexivity.
Defined.

(** C3 as stated fails when no file matches: there is nothing to
    concatenate and the loader raises. *)
Lemma load_ORG_data_no_files :
  load_ORG_data (cell := field) argsort_forward first_reported true [] None
    = Raise (ValueError NoObjectsToConcatenate).
Proof. reflexivity. Qed.

(** ** The order of the files and shards does not matter *)

(** With distinct reference ids, files that list the requested
    columns in one order load into the same table however they are
    listed, whether the reads run in turn or in parallel, and whatever
    the backend. *)
Lemma load_ORG_data_order_free `{Cell cell} (argsort : list Z → list nat)
    (reported1 reported2 : list exn → nat) (P1 P2 : bool) (sel : list string)
    (files1 files2 : list (csv_file cell)) (extra : option (list string))
    (df : DataFrame cell) :
  argsort_spec argsort →
  files1 ≡ₚ files2 →
  Forall csv_wf files1 →
  Forall (λ f, filter (λ c, c ∈ requested extra) (csv_header f) = sel) files1 →
  NoDup (concat (file_refs <$> files1)) →
  load_ORG_data argsort reported1 P1 files1 extra = Ok df →
  load_ORG_data argsort reported2 P2 files2 extra = Ok df.
Proof.
  intros Hspec Hp Hwf1 Hsel1 Hnd Hdf.
  destruct (load_ORG_data_Ok_inv _ _ _ _ _ _ Hdf) as [Hne1 Hcols1].
  assert (Forall csv_wf files2) as Hwf2 by by rewrite <-Hp.
  assert (Forall (λ f, filter (λ c, c ∈ requested extra) (csv_header f) = sel)
            files2) as Hsel2 by by rewrite <-Hp.
  assert (Forall (λ f, Forall (λ c, c ∈ csv_header f) (requested extra)) files2)
    as Hcols2 by by rewrite <-Hp.
  assert (files2 ≠ []) as Hne2.
  { intros ->. by apply Permutation_nil_r in Hp. }
  destruct (load_ORG_data_listed argsort reported1 P1 sel files1 extra
              Hspec Hne1 Hwf1 Hcols1 Hsel1)
    as (j & out1 & _ & Hj & Hdf1 & Hp1 & Hs1).
  destruct (load_ORG_data_listed argsort reported2 P2 sel files2 extra
              Hspec Hne2 Hwf2 Hcols2 Hsel2)
    as (j2 & out2 & _ & Hj2 & Hdf2 & Hp2 & Hs2).
  assert (j2 = j) as -> by congruence.
  rewrite Hdf2, <-Hdf, Hdf1. assert (out1 = out2) as ->; [|done].
  apply (sorted_perm_unique (λ r, ref_key (cell_at j r))); [| |done..].
  - rewrite Hp1, Hp2. by rewrite Hp.
  - rewrite Hp1. rewrite (selected_file_refs _ sel files1 j); try done.
    by left.
Qed.

(** C2, as the code has it.  Let the reference ids be pairwise
    distinct.  For CSV files (rectangular, header names distinct) that
    list the requested columns in one order, whatever other columns
    they hold, listing the files in another order, with [_PARALLEL] set
    or not and whichever backend runs the reads, loads the same table.
    For shards that each hold as many reference ids as vectors, listing
    the shards of the group in another order loads the same reference
    ids and the same matrix. *)
Theorem loaders_order_independent `{Cell cell} {scalar}
    (argsort : list Z → list nat) :
  argsort_spec argsort →
  (∀ reported1 reported2 P1 P2 sel (files1 files2 : list (csv_file cell))
     extra df,
     files1 ≡ₚ files2 →
     Forall csv_wf files1 →
     Forall (λ f, filter (λ c, c ∈ requested extra) (csv_header f) = sel)
       files1 →
     NoDup (concat (file_refs <$> files1)) →
     load_ORG_data argsort reported1 P1 files1 extra = Ok df →
     load_ORG_data argsort reported2 P2 files2 extra = Ok df) ∧
  (∀ f_h5 score_method use_reduced
     (w1 w2 : world (h5group (shard scalar))) r1 r2 g1 g2 dv,
     fs w1 !! f_h5 = Some r1 → fs w2 !! f_h5 = Some r2 →
     h5_get score_method r1 = Some g1 → h5_get score_method r2 = Some g2 →
     g1 ≡ₚ g2 →
     rows_match (vkey use_reduced) g1 → NoDup (stored_refs g1) →
     (load_document_vectors argsort f_h5 score_method use_reduced w1).1 = Ok dv →
     (load_document_vectors argsort f_h5 score_method use_reduced w2).1 = Ok dv).
Proof.
  intros Hspec. split.
  - intros. by eapply load_ORG_data_order_free.
  - intros f_h5 sm ur w1 w2 r1 r2 g1 g2 dv Hr1 Hr2 Hg1 Hg2 Hp Hmatch Hnd.
    destruct (load_document_vectors_yields argsort (fs w1) f_h5 r1 sm ur Hr1 w1 eq_refl)
      as (-> & _).
    destruct (load_document_vectors_yields argsort (fs w2) f_h5 r2 sm ur Hr2 w2 eq_refl)
      as (-> & _).
    by eapply assemble_perm.
Qed.

Lemma loaders_order_independent_witness :
  load_ORG_data argsort_forward last_reported false [x_csv; xj_csv]
    (Some ["x"%string])
    = Ok (Frame ["x"; "_ref"]%string
            [(Int 1, [Str "x1"; Int 1]); (Int 2, [Str "x2"; Int 2])]) ∧
  load_ORG_data argsort_forward first_reported false [c_csv; a_csv; b_csv]
    (Some ["payload"%string]) = Ok abc_table ∧
  (load_document_vectors argsort_forward "score.h5" "unigram" false
     (score_world [("1"%string, shard_3); ("0"%string, shard_51)])).1
    = Ok vectors_135.
Proof.
  destruct (loaders_order_independent (cell := field) (scalar := Z)
              argsort_forward (argsort_ties_spec true)) as [Hfiles Hshards].
  split_and!.
  - apply (Hfiles first_reported last_reported true false ["_ref"; "x"]%string
             [xj_csv; x_csv] [x_csv; xj_csv] (Some ["x"%string])).
    + apply perm_swap.
    + repeat (apply Forall_cons; split;
              [split; [by apply (bool_decide_unpack _) | by repeat constructor] |]).
      by constructor.
    + by repeat constructor.
    + by apply (bool_decide_unpack _).
    + reflexivity.
  - apply (Hfiles first_reported first_reported true false
             ["_ref"; "payload"]%string
             [a_csv; b_csv; c_csv] [c_csv; a_csv; b_csv]
             (Some ["payload"%string])).
    + etrans; [apply perm_skip, perm_swap | apply perm_swap].
    + repeat (apply Forall_cons; split;
              [split; [by apply (bool_decide_unpack _) | by repeat constructor] |]).
      by constructor.
    + by repeat constructor.
    + by apply (bool_decide_unpack _).
    + reflexivity.
  - apply (Hshards "score.h5"%string "unigram"%string false
             (score_world [("0"%string, shard_51); ("1"%string, shard_3)])
             (score_world [("1"%string, shard_3); ("0"%string, shard_51)])
             [("unigram"%string, [("0"%string, shard_51); ("1"%string, shard_3)])]
             [("unigram"%string, [("1"%string, shard_3); ("0"%string, shard_51)])]
             [("0"%string, shard_51); ("1"%string, shard_3)]
             [("1"%string, shard_3); ("0"%string, shard_51)]).
    + reflexivity.
    + reflexivity.
    + reflexivity.
    + reflexivity.
    + apply perm_swap.
    + unfold rows_match. repeat (apply Forall_cons; split).
      * intros a m [= <-] [= <-]. reflexivity.
      * intros a m [= <-] [= <-]. reflexivity.
      * by constructor.
    + by apply (bool_decide_unpack _).
    + reflexivity.
Defined.

(** C2 as stated fails where the sort does not reach.  The columns of
    the table come in the order of the first file listed, so two files
    that list the requested columns in different orders load into
    different tables.  The row count is checked on the stacked arrays
    only, so two shards that are out of step one by one, but not in
    total, pass it, and their vectors end up next to other reference
    ids when the shards are listed the other way round.  The reference
    ids are distinct in both cases. *)
Lemma listing_order_shows :
  (load_ORG_data argsort_forward first_reported true [xy_csv; yx_csv] (Some ["x"; "y"]%string)
     = Ok (Frame ["x"; "y"; "_ref"]%string
             [(Int 1, [Str "x1"; Str "y1"; Int 1]);
              (Int 2, [Str "x2"; Str "y2"; Int 2])]) ∧
   load_ORG_data argsort_forward first_reported true [yx_csv; xy_csv] (Some ["x"; "y"]%string)
     = Ok (Frame ["y"; "x"; "_ref"]%string
             [(Int 1, [Str "y1"; Str "x1"; Int 1]);
              (Int 2, [Str "y2"; Str "x2"; Int 2])]) ∧
   load_ORG_data argsort_forward first_reported true [xy_csv; yx_csv] (Some ["x"; "y"]%string)
     ≠ load_ORG_data argsort_forward first_reported true [yx_csv; xy_csv] (Some ["x"; "y"]%string)) ∧
  ((load_document_vectors argsort_forward "score.h5" "unigram" false
      (score_world [("0"%string, shard_2_1); ("1"%string, shard_1_2)])).1
     = Ok (DocumentVectors (Matrix 1 [[10]; [20]; [30]]) [1; 2; 3]) ∧
   (load_document_vectors argsort_forward "score.h5" "unigram" false
      (score_world [("1"%string, shard_1_2); ("0"%string, shard_2_1)])).1
     = Ok (DocumentVectors (Matrix 1 [[30]; [10]; [20]]) [1; 2; 3]) ∧
   (load_document_vectors argsort_forward "score.h5" "unigram" false
      (score_world [("0"%string, shard_2_1); ("1"%string, shard_1_2)])).1
     ≠ (load_document_vectors argsort_forward "score.h5" "unigram" false
          (score_world [("1"%string, shard_1_2); ("0"%string, shard_2_1)])).1).
Proof.
  split; (split; [reflexivity | split; [reflexivity | discriminate]]).
Qed.

(** ** Rows with the same reference id *)

(** C8.  Reference ids may repeat across shards or files: the loaders
    still return, and what they return holds every stored row,
    repeated ids included, each next to its own id and every field
    under its own column.  The rows come out as the stored rows indexed
    by the permutation that the sort computes from the reference ids
    alone: this fixes the order of rows with equal ids among
    themselves, the same on every run over the same store or files,
    whatever else the world holds, whether the files are read in turn
    or in parallel and whichever backend reads them.  Where the sort
    keeps equal elements in order, rows with equal ids come out in the
    order in which they are stored. *)
Theorem duplicate_refs_retained `{Cell cell} {scalar}
    (argsort : list Z → list nat) :
  argsort_spec argsort →
  (∀ f_h5 score_method use_reduced (w : world (h5group (shard scalar))) r g d,
     fs w !! f_h5 = Some r →
     h5_get score_method r = Some g →
     Forall (shard_aligned (vkey use_reduced) d) g.*2 →
     stored_pairs (vkey use_reduced) g ≠ [] →
     ∃ dv,
       (load_document_vectors argsort f_h5 score_method use_reduced w).1 = Ok dv ∧
       zip (_refs dv) (mrows (docv dv)) ≡ₚ stored_pairs (vkey use_reduced) g ∧
       _refs dv ≡ₚ stored_refs g ∧
       np_take (stored_pairs (vkey use_reduced) g) (argsort (stored_refs g))
         = Ok (zip (_refs dv) (mrows (docv dv))) ∧
       (argsort_stable argsort →
        ∀ p q x y,
          (p < q)%nat →
          argsort (stored_refs g) !! p = Some x →
          argsort (stored_refs g) !! q = Some y →
          stored_refs g !! x = stored_refs g !! y → (x < y)%nat)) ∧
  (∀ reported PARALLEL (files : list (csv_file cell)) extra,
     files ≠ [] → Forall csv_wf files →
     Forall (λ f, Forall (λ c, c ∈ csv_header f) (requested extra)) files →
     ∃ U j out,
       let stored := concat ((λ f, laid_out U (requested extra) f <$> csv_rows f)
                               <$> files) in
       NoDup U ∧ (∀ c, c ∈ U ↔ c ∈ requested extra) ∧
       column_pos "_ref" U = Some j ∧
       load_ORG_data argsort reported PARALLEL files extra =
         Ok (Frame (delete j U ++ ["_ref"%string]) (keyed j <$> out)) ∧
       out ≡ₚ stored ∧
       np_take stored (argsort ((λ r, ref_key (cell_at j r)) <$> stored))
         = Ok out ∧
       (argsort_stable argsort →
        ∀ p q x y,
          (p < q)%nat →
          argsort ((λ r, ref_key (cell_at j r)) <$> stored) !! p = Some x →
          argsort ((λ r, ref_key (cell_at j r)) <$> stored) !! q = Some y →
          ((λ r, ref_key (cell_at j r)) <$> stored) !! x
            = ((λ r, ref_key (cell_at j r)) <$> stored) !! y →
          (x < y)%nat) ∧
       (∀ f r c u i,
          f ∈ files → r ∈ csv_rows f → c ∈ requested extra →
          column_pos c U = Some u → csv_header f !! i = Some c →
          cell_at u (laid_out U (requested extra) f r) = cell_at i r) ∧
       ∀ reported' PARALLEL',
         load_ORG_data argsort reported' PARALLEL' files extra =
         load_ORG_data argsort reported PARALLEL files extra).
Proof.
  intros Hspec. split.
  - intros f_h5 sm ur w r g d Hr Hg Hal Hne.
    destruct (assemble_taken argsort r sm ur g d Hspec Hg Hal Hne)
      as (refs & rows & Hdv & Hlen & _ & Hperm & Htake).
    exists (DocumentVectors (Matrix d rows) refs). simpl. split_and!.
    + destruct (load_document_vectors_yields argsort (fs w) f_h5 r sm ur Hr w eq_refl)
        as (-> & _). done.
    + done.
    + rewrite <-(stored_pairs_refs (vkey ur) d g Hal), <-Hperm.
      rewrite fst_zip by lia. done.
    + by rewrite <-(stored_pairs_refs (vkey ur) d g Hal).
    + intros Hstable p q x y. apply Hstable.
  - intros reported PARALLEL files extra Hne Hwf Hcols.
    destruct (load_ORG_data_taken argsort reported PARALLEL files extra
                Hspec Hne Hwf Hcols)
      as (U & j & out & HndU & HU & Hj & Hdf & Hperm & _ & Htake).
    exists U, j, out. simpl. split_and!; [done..| | |].
    + intros Hstable p q x y. apply Hstable.
    + intros f r c u i Hf Hr Hc Hu Hi.
      eapply laid_out_cell; [|done..]. by eapply Forall_forall in Hwf.
    + intros reported' PARALLEL'.
      rewrite (load_ORG_data_frames argsort reported' PARALLEL' files extra _
                 (read_files_any _ files Hcols)).
      by rewrite (load_ORG_data_frames argsort reported PARALLEL files extra _
                    (read_files_any _ files Hcols)).
Qed.

Lemma duplicate_refs_retained_witness :
  (∃ dv,
     (load_document_vectors argsort_forward "score.h5" "unigram" false
        (score_world [("0"%string, shard_7a); ("1"%string, shard_7b)])).1 = Ok dv ∧
     _refs dv ≡ₚ [7; 7] ∧
     np_take [(7, [70]); (7, [71])] (argsort_forward [7; 7])
       = Ok (zip (_refs dv) (mrows (docv dv))) ∧
     ∀ x y, argsort_forward [7; 7] !! 0%nat = Some x →
            argsort_forward [7; 7] !! 1%nat = Some y → (x < y)%nat) ∧
  (load_document_vectors argsort_forward "score.h5" "unigram" false
     (score_world [("0"%string, shard_7a); ("1"%string, shard_7b)])).1
    = Ok (DocumentVectors (Matrix 1 [[70]; [71]]) [7; 7]) ∧
  (∃ U j out,
     load_ORG_data argsort_forward first_reported true [b_csv; b_csv] None =
       Ok (Frame (delete j U ++ ["_ref"%string]) (keyed j <$> out)) ∧
     length out = 2%nat).
Proof.
  destruct (duplicate_refs_retained (cell := field) (scalar := Z)
              argsort_forward (argsort_ties_spec true)) as [Hshards Hfiles].
  split_and!.
  - destruct (Hshards "score.h5"%string "unigram"%string false
                (score_world [("0"%string, shard_7a); ("1"%string, shard_7b)])
                [("unigram"%string, [("0"%string, shard_7a); ("1"%string, shard_7b)])]
                [("0"%string, shard_7a); ("1"%string, shard_7b)] 1%nat)
      as (dv & Hdv & _ & Hrefs & Htake & Hstable).
    + reflexivity.
    + reflexivity.
    + repeat (apply Forall_cons; split).
      * exists [7], (Matrix 1 [[70]]). repeat split; reflexivity.
      * exists [7], (Matrix 1 [[71]]). repeat split; reflexivity.
      * by constructor.
    + discriminate.
    + exists dv. split_and!; [done..|].
      intros x y Hx Hy.
      apply (Hstable argsort_forward_stable 0%nat 1%nat x y);
        [lia | done | done |].
      vm_compute in Hx, Hy. by simplify_eq.
  - reflexivity.
  - destruct (Hfiles first_reported true [b_csv; b_csv] None)
      as (U & j & out & _ & _ & _ & Hdf & Hperm & _).
    + discriminate.
    + repeat (apply Forall_cons; split;
              [split; [by apply (bool_decide_unpack _) | by repeat constructor] |]).
      by constructor.
    + by apply (bool_decide_unpack _).
    + exists U, j, out. split; [done|]. by rewrite Hperm.
Defined.

(** ** [_ref] is always read *)

Lemma setitem_index_columns `{Cell cell} (name : string) (df : DataFrame cell) :
  name ∈ columns (setitem_index name df).
Proof.
  unfold setitem_index.
  destruct (column_pos name (columns df)) as [j|] eqn:Hj; simpl.
  - by eapply list_elem_of_lookup_2, column_pos_Some.
  - apply elem_of_app. right. by left.
Qed.

Lemma elem_of_concat {A} (x : A) (ls : list (list A)) :
  x ∈ concat ls → ∃ l, x ∈ l ∧ l ∈ ls.
Proof.
  induction ls as [|l ls IH]; simpl; [by intros ?%elem_of_nil|].
  intros [?|Hx]%elem_of_app.
  - exists l. split; [done | by left].
  - destruct (IH Hx) as (l' & ? & ?). exists l'. split; [done | by right].
Qed.

Lemma only_column (U : list string) (name : string) :
  NoDup U → (∀ c, c ∈ U ↔ c ∈ [name]) → U = [name].
Proof.
  intros Hnd HU. destruct U as [|c U].
  - assert (name ∈ @nil string) as Hin by (apply HU; by left).
    by apply elem_of_nil in Hin.
  - assert (c = name) as -> by (apply list_elem_of_singleton, HU; by left).
    destruct U as [|c' U]; [done|].
    assert (c' = name) as -> by (apply list_elem_of_singleton, HU; right; by left).
    apply NoDup_cons in Hnd as [Hno _]. destruct Hno. by left.
Qed.

(** When a file lacks a column that is asked of it, the call raises
    what [simple_CSV_read] raises for such a file. *)
Lemma load_ORG_data_mismatch `{Cell cell} (argsort : list Z → list nat)
    (reported : list exn → nat) (PARALLEL : bool)
    (files : list (csv_file cell)) (extra : option (list string)) :
  Exists (λ f, ¬ Forall (λ c, c ∈ csv_header f) (requested extra)) files →
  ∃ f, f ∈ files ∧
    ¬ Forall (λ c, c ∈ csv_header f) (requested extra) ∧
    load_ORG_data argsort reported PARALLEL files extra
      = Raise (ValueError (ColumnsMismatch (requested extra) (csv_header f))).
Proof.
  intros Hex.
  destruct (joblib_Parallel_Raise reported (if PARALLEL then -1 else 1)
              (λ x, simple_CSV_read x (requested extra)) files)
    as (f & e & Hf & Hfe & Hjob).
  { eapply Exists_impl; [done|]. intros f Hno. simpl.
    by rewrite simple_CSV_read_Raise. }
  destruct (decide (Forall (λ c, c ∈ csv_header f) (requested extra)))
    as [Hall|Hno].
  { by rewrite simple_CSV_read_Ok in Hfe. }
  exists f. split_and!; [done..|].
  rewrite simple_CSV_read_Raise in Hfe by done. injection Hfe as <-.
  by rewrite load_ORG_data_unfold, Hjob.
Qed.

(** The reference ids of the rows laid out under the columns of the
    table are those of the files. *)
Lemma laid_out_refs `{Cell cell} (U cols : list string)
    (files : list (csv_file cell)) (j : nat) :
  Forall csv_wf files → "_ref"%string ∈ cols →
  Forall (λ f, "_ref"%string ∈ csv_header f) files →
  column_pos "_ref" U = Some j →
  (λ r, ref_key (cell_at j r))
    <$> concat ((λ f, laid_out U cols f <$> csv_rows f) <$> files)
  = concat (file_refs <$> files).
Proof.
  intros Hwf Hin Href Hj. induction Hwf as [|f files Hf _ IH]; [done|].
  apply Forall_cons in Href as [Hreff Href]. csimpl.
  rewrite fmap_app, IH by done. f_equal. unfold file_refs.
  destruct (column_pos_elem _ _ Hreff) as [i Hi]. rewrite Hi.
  apply column_pos_Some in Hi.
  unfold csv_refs. rewrite <-list_fmap_compose. apply list_fmap_ext.
  intros k r Hr. simpl. f_equal.
  eapply laid_out_cell; [done | by eapply list_elem_of_lookup_2 | done..].
Qed.

(** C10.  Whatever [extra_columns] is, [load_ORG_data] asks every file
    for [_ref] ahead of the caller's columns.  A file without a [_ref]
    column makes the call fail, a file that lacks one of the columns is
    reported with the columns asked of it, [_ref] first, and a table
    that is returned has a [_ref] column.  The caller need not ask for
    [_ref]: when the files hold [_ref] and the caller's columns, the
    call returns a table with [_ref] as its last column, every row
    labelled by and closed with its reference id, the reference ids
    being those of the files.  When [extra_columns] is left out, the
    table that is returned has [_ref] as its only column and every row
    holds, as its one field, the reference id that labels it. *)
Theorem load_ORG_data_always_reads_ref `{Cell cell}
    (argsort : list Z → list nat) (reported : list exn → nat)
    (PARALLEL : bool) (files : list (csv_file cell)) :
  (∀ extra f,
     f ∈ files → "_ref"%string ∉ csv_header f →
     is_ok (load_ORG_data argsort reported PARALLEL files extra) = false) ∧
  (∀ extra,
     Exists (λ f, ¬ Forall (λ c, c ∈ csv_header f)
                     ("_ref"%string :: default [] extra)) files →
     ∃ f, f ∈ files ∧
       load_ORG_data argsort reported PARALLEL files extra
         = Raise (ValueError (ColumnsMismatch
                                ("_ref"%string :: default [] extra)
                                (csv_header f)))) ∧
  (∀ extra df,
     load_ORG_data argsort reported PARALLEL files extra = Ok df →
     "_ref"%string ∈ columns df) ∧
  (argsort_spec argsort →
   files ≠ [] → Forall csv_wf files →
   ∀ extra,
     Forall (λ f, "_ref"%string ∈ csv_header f ∧
                  Forall (λ c, c ∈ csv_header f) (default [] extra)) files →
     ∃ df,
       load_ORG_data argsort reported PARALLEL files extra = Ok df ∧
       last (columns df) = Some "_ref"%string ∧
       Forall (λ row, last row.2 = Some row.1) (rows df) ∧
       (λ row, ref_key row.1) <$> rows df ≡ₚ concat (file_refs <$> files) ∧
       length (rows df) = length (concat (csv_rows <$> files))) ∧
  (argsort_spec argsort →
   files ≠ [] → Forall csv_wf files →
   Forall (λ f, "_ref"%string ∈ csv_header f) files →
   ∃ df,
     load_ORG_data argsort reported PARALLEL files None = Ok df ∧
     columns df = ["_ref"%string] ∧
     Forall (λ row, row.2 = [row.1]) (rows df) ∧
     length (rows df) = length (concat (csv_rows <$> files))).
Proof.
  assert (∀ U cols, length (concat ((λ f : csv_file cell,
                                       laid_out U cols f <$> csv_rows f) <$> files))
                    = length (concat (csv_rows <$> files))) as Hcount.
  { intros U cols. induction files as [|f files' IH]; [done|]. csimpl.
    by rewrite !length_app, IH, length_fmap. }
  split_and!.
  - intros extra f Hf Href.
    destruct (load_ORG_data argsort reported PARALLEL files extra) as [df|e] eqn:Hdf;
      [|done].
    destruct (load_ORG_data_Ok_inv argsort _ _ _ _ _ Hdf) as [_ Hcols].
    eapply Forall_forall in Hcols; [|done].
    apply Forall_cons in Hcols as [? _]. done.
  - intros extra Hex.
    destruct (load_ORG_data_mismatch argsort reported PARALLEL files extra Hex)
      as (f & Hf & _ & Hraise).
    by exists f.
  - intros extra df.
    intros (frames & _ & Hdf)%load_ORG_data_Ok_frames.
    apply result_bind_Ok in Hdf as (df' & _ & [= <-]).
    apply setitem_index_columns.
  - intros Hspec Hne Hwf extra Hcols.
    destruct (load_ORG_data_keyed argsort reported PARALLEL files extra Hspec Hne Hwf)
      as (U & j & out & HndU & HU & Hj & Hdf & Hperm & _).
    { eapply Forall_impl; [done|]. intros f [? ?]. by constructor. }
    eexists. split; [done|]. simpl. split_and!.
    + apply last_snoc.
    + apply Forall_fmap, Forall_forall. intros r _. simpl. apply last_snoc.
    + rewrite <-list_fmap_compose.
      change ((λ row : cell * list cell, ref_key row.1) ∘ keyed j)
        with (λ r : list cell, ref_key (cell_at j r)).
      rewrite Hperm. rewrite (laid_out_refs U); [done..|by left| |done].
      eapply Forall_impl; [done|]. by intros f [? _].
    + by rewrite length_fmap, Hperm, Hcount.
  - intros Hspec Hne Hwf Href.
    destruct (load_ORG_data_keyed argsort reported PARALLEL files None Hspec Hne Hwf)
      as (U & j & out & HndU & HU & Hj & Hdf & Hperm & _).
    { eapply Forall_impl; [done|]. intros f ?. by repeat constructor. }
    apply only_column in HU as ->; [|done].
    injection Hj as <-.
    eexists. split; [done|]. simpl. split_and!; [done| |].
    + apply Forall_fmap, Forall_forall. intros r Hr.
      rewrite Hperm in Hr. apply elem_of_concat in Hr as (rs & Hr & Hrs).
      apply list_elem_of_fmap in Hrs as (f & -> & _).
      apply list_elem_of_fmap in Hr as (r0 & -> & _).
      unfold laid_out, reindex, keyed, cell_at. simpl. done.
    + by rewrite length_fmap, Hperm, Hcount.
Qed.

Lemma load_ORG_data_always_reads_ref_witness :
  is_ok (load_ORG_data argsort_forward first_reported true [a_csv; payload_csv]
           (Some ["payload"%string])) = false ∧
  (∃ f : csv_file field,
     load_ORG_data argsort_forward last_reported true [a_csv; payload_csv]
       (Some ["payload"%string])
     = Raise (ValueError (ColumnsMismatch ["_ref"; "payload"]%string
                            (csv_header f)))) ∧
  "_ref"%string ∈ columns abc_table ∧
  (∃ df,
     load_ORG_data argsort_forward first_reported true [a_csv; b_csv; c_csv]
       (Some ["payload"%string]) = Ok df ∧
     last (columns df) = Some "_ref"%string ∧
     (λ row, ref_key row.1) <$> rows df ≡ₚ [3; 1; 2; 4]) ∧
  ∃ df,
    load_ORG_data argsort_forward first_reported true [a_csv; b_csv; c_csv] None
      = Ok df ∧
    columns df = ["_ref"%string] ∧
    Forall (λ row, row.2 = [row.1]) (rows df) ∧
    length (rows df) = 4%nat.
Proof.
  assert (Forall csv_wf [a_csv; b_csv; c_csv]) as Hwf.
  { repeat (apply Forall_cons; split;
            [split; [by apply (bool_decide_unpack _) | by repeat constructor] |]).
    by constructor. }
  split_and!.
  - destruct (load_ORG_data_always_reads_ref argsort_forward first_reported true
                [a_csv; payload_csv]) as (Hfail & _).
    apply (Hfail (Some ["payload"%string]) payload_csv).
    + right. left.
    + by apply (bool_decide_unpack _).
  - destruct (load_ORG_data_always_reads_ref argsort_forward last_reported true
                [a_csv; payload_csv]) as (_ & Hraise & _).
    destruct (Hraise (Some ["payload"%string])) as (f & _ & Hf).
    + apply Exists_cons_tl, Exists_cons_hd. by apply (bool_decide_unpack _).
    + by exists f.
  - destruct (load_ORG_data_always_reads_ref argsort_forward first_reported true
                [a_csv; b_csv; c_csv]) as (_ & _ & Hcol & _).
    apply (Hcol (Some ["payload"%string]) abc_table). reflexivity.
  - destruct (load_ORG_data_always_reads_ref argsort_forward first_reported true
                [a_csv; b_csv; c_csv]) as (_ & _ & _ & Hextra & _).
    destruct (Hextra (argsort_ties_spec true)) with (extra := Some ["payload"%string])
      as (df & Hdf & Hlast & _ & Hrefs & _).
    + discriminate.
    + done.
    + by apply (bool_decide_unpack _).
    + by exists df.
  - destruct (load_ORG_data_always_reads_ref argsort_forward first_reported true
                [a_csv; b_csv; c_csv]) as (_ & _ & _ & _ & Hnone).
    apply Hnone.
    + apply argsort_ties_spec.
    + discriminate.
    + done.
    + by apply (bool_decide_unpack _).
Defined.

(** ** A missing column is reported *)

(** C7.  [simple_CSV_read] succeeds exactly when the file has all the
    requested columns.  When one is missing it raises the [ValueError]
    that carries the requested columns and the columns of the file.
    When it succeeds, every requested column is in the frame (none is
    dropped) and the columns of the frame are columns of the file in
    the order of the file (none is moved). *)
Theorem simple_CSV_read_columns `{Cell cell} (f : csv_file cell)
    (cols : list string) :
  simple_CSV_read f cols =
    (if decide (Forall (λ c, c ∈ csv_header f) cols)
     then Ok (Frame (filter (λ c, c ∈ cols) (csv_header f))
                (imap (λ i r, (int_cell i, select_cells (csv_header f) cols r))
                   (csv_rows f)))
     else Raise (ValueError (ColumnsMismatch cols (csv_header f)))) ∧
  (∀ df, simple_CSV_read f cols = Ok df →
     (∀ c, c ∈ cols → c ∈ columns df) ∧
     (∀ c, c ∈ columns df → c ∈ cols) ∧
     columns df `sublist_of` csv_header f).
Proof.
  assert (simple_CSV_read f cols =
    (if decide (Forall (λ c, c ∈ csv_header f) cols)
     then Ok (Frame (filter (λ c, c ∈ cols) (csv_header f))
                (imap (λ i r, (int_cell i, select_cells (csv_header f) cols r))
                   (csv_rows f)))
     else Raise (ValueError (ColumnsMismatch cols (csv_header f))))) as Heq.
  { case_decide; [by apply simple_CSV_read_Ok | by apply simple_CSV_read_Raise]. }
  split; [done|]. intros df. rewrite Heq.
  case_decide as Hall; [|done]. intros [= <-]; simpl. split_and!.
  - intros c Hc. apply list_elem_of_filter. split; [done|].
    by eapply Forall_forall in Hall.
  - by intros c [? _]%list_elem_of_filter.
  - apply sublist_filter.
Qed.

(** ** Reading datasets is all or nothing *)

(** C4, as the code has it.  [load_h5_file] opens the store with mode
    ['r'], under which h5py refuses every write, and does all its work
    on that handle; a path that holds no store makes it raise without
    creating one.  When the store exists, the call changes no file and
    leaves no handle open, whatever the outcome.  When every name it
    goes through, the requested names or, with none requested, every
    member of the root, is a dataset, it returns exactly these
    datasets.  When a requested name is absent it raises the
    [ValueError] that names the first absent name and the file, and the
    world is as it was before the call: no dataset has been read. *)
Theorem load_h5_file_all_or_nothing {A} (f_h5 : string) (args : list string)
    (w : world (node A)) :
  (load_h5_file f_h5 args
     = with_File f_h5 ModeR (load_h5_file_block (A := A) f_h5 args) ∧
   ∀ (g : h5group (node A)) (w0 : world (node A)),
     set_root (Handle f_h5 ModeR) g w0 = (Raise (IOError f_h5), w0)) ∧
  (fs w !! f_h5 = None →
   load_h5_file f_h5 args w = (Raise (IOError f_h5), w)) ∧
  (∀ r : h5group (node A),
     fs w !! f_h5 = Some r →
     (fs (load_h5_file f_h5 args w).2 = fs w ∧
      opened (load_h5_file f_h5 args w).2 = opened w) ∧
     (Forall (λ k, is_ok (dataset_of r k) = true) (names_read r args) →
      ∃ data, (load_h5_file f_h5 args w).1 = Ok data ∧
        ∀ k a, data !! k = Some a ↔
               k ∈ names_read r args ∧ dataset_of r k = Ok a) ∧
     (¬ Forall (λ k, k ∈ h5_keys r) args →
      ∃ k, k ∈ args ∧ (k ∉ h5_keys r) ∧
           load_h5_file f_h5 args w
             = (Raise (ValueError (NotFoundIn k f_h5)), w))).
Proof.
  split_and!.
  - reflexivity.
  - done.
  - intros Hnone. unfold load_h5_file. by rewrite with_File_missing.
  - intros r Hr. split; [|split].
    + apply load_h5_file_frame.
    + by apply load_h5_file_Ok.
    + by apply load_h5_file_missing.
Qed.

Lemma load_h5_file_all_or_nothing_witness :
  (∃ data, (load_h5_file "data.h5" [] flat_world).1 = Ok data ∧
           data !! "mu"%string = Some [1; 2] ∧ data !! "sigma"%string = Some [3]) ∧
  (∃ k, load_h5_file "data.h5" ["mu"; "nu"; "sigma"]%string flat_world
          = (Raise (ValueError (NotFoundIn k "data.h5")), flat_world)) ∧
  load_h5_file "data.h5" [] no_store = (Raise (IOError "data.h5"), no_store).
Proof.
  split_and!.
  - destruct (load_h5_file_all_or_nothing "data.h5" [] flat_world)
      as (_ & _ & Hthere).
    destruct (Hthere [("mu"%string, Dataset [1; 2] "gzip"%string);
                      ("sigma"%string, Dataset [3] "gzip"%string)])
      as (_ & Hall & _); [reflexivity|].
    destruct Hall as (data & Hdata & Hspec).
    + by repeat constructor.
    + exists data. split_and!; [done| |].
      * apply Hspec. split; [left | reflexivity].
      * apply Hspec. split; [right; left | reflexivity].
  - destruct (load_h5_file_all_or_nothing "data.h5" ["mu"; "nu"; "sigma"]%string
                flat_world) as (_ & _ & Hthere).
    destruct (Hthere [("mu"%string, Dataset [1; 2] "gzip"%string);
                      ("sigma"%string, Dataset [3] "gzip"%string)])
      as (_ & _ & Hmissing); [reflexivity|].
    destruct Hmissing as (k & _ & _ & Hraise).
    + by apply (bool_decide_unpack _).
    + by exists k.
  - destruct (load_h5_file_all_or_nothing (A := list Z) "data.h5" [] no_store)
      as (_ & Hnone & _).
    apply Hnone. reflexivity.
Defined.

(** C4 as stated fails on a store that is nested.  With no names
    requested the loader goes through every member of the root; here
    the root holds two datasets and a group, and instead of the
    datasets the call raises [TypeError] at the group. *)
Lemma load_h5_file_nested_store :
  dataset_of (default [] (fs nested_world !! "data.h5"%string)) "mu" = Ok [1; 2] ∧
  dataset_of (default [] (fs nested_world !! "data.h5"%string)) "sigma" = Ok [3] ∧
  (load_h5_file "data.h5" [] nested_world).1 = Raise TypeError.
Proof. split_and!; reflexivity. Qed.

(** ** Writing and reading back *)

(** C5, as the code has it.  On a group of a file opened for writing,
    with an array and a compression filter that h5py takes, [save_h5]
    succeeds and the dataset read back under that name is the array
    that was written.  Writing the name again leaves the second array
    readable; the file is then what it would be had only the second
    write happened, so nothing of the first write remains. *)
Theorem save_h5_round_trip `{H5Data A} (h5 : h5object) (col : string)
    (data1 data2 : A) (compression1 compression2 : option string)
    (w : world (node A)) r ms :
  h_mode (o_file h5) ≠ ModeR →
  fs w !! h_path (o_file h5) = Some r →
  h5_get (o_name h5) r = Some (Group ms) →
  h5_accepts data1 compression1 = true →
  h5_accepts data2 compression2 = true →
  let once := save_h5 h5 col data1 compression1 w in
  let twice := save_h5 h5 col data2 compression2 once.2 in
  once.1 = Ok (h5, col) ∧
  (group_read h5 col once.2).1 = Ok data1 ∧
  twice.1 = Ok (h5, col) ∧
  (group_read h5 col twice.2).1 = Ok data2 ∧
  fs twice.2 = fs (save_h5 h5 col data2 compression2 w).2.
Proof.
  intros Hmode Hr Hms Hok1 Hok2 once twice.
  assert (once = (Ok (h5, col),
            World (<[h_path (o_file h5) :=
                       with_members (o_name h5) (saved col data1 compression1 ms) r]> (fs w))
              (opened w) (reads w))) as Honce by by apply save_h5_run.
  assert (fs once.2 !! h_path (o_file h5)
          = Some (with_members (o_name h5) (saved col data1 compression1 ms) r)) as Hr1.
  { rewrite Honce. simpl. by rewrite lookup_insert_eq. }
  assert (h5_get (o_name h5) (with_members (o_name h5) (saved col data1 compression1 ms) r)
          = Some (Group (saved col data1 compression1 ms))) as Hms1
    by by eapply h5_get_with_members.
  assert (twice = (Ok (h5, col),
            World (<[h_path (o_file h5) :=
                       with_members (o_name h5)
                         (saved col data2 compression2 (saved col data1 compression1 ms))
                         (with_members (o_name h5) (saved col data1 compression1 ms) r)]>
                     (fs once.2))
              (opened once.2) (reads once.2))) as Htwice by by apply save_h5_run.
  split_and!.
  - by rewrite Honce.
  - eapply group_read_saved; done.
  - by rewrite Htwice.
  - eapply group_read_saved.
    + rewrite Htwice. simpl. by rewrite lookup_insert_eq.
    + by eapply h5_get_with_members.
  - rewrite Htwice, (save_h5_run h5 col data2 compression2 w r ms) by done.
    rewrite Honce. simpl. rewrite insert_insert_eq, with_members_twice.
    unfold saved. by rewrite h5_del_twice.
Qed.

Lemma save_h5_round_trip_witness :
  (group_read unigram "V"
     (save_h5 unigram "V" [1; 2] None group_world).2).1 = Ok [1; 2] ∧
  (group_read unigram "V"
     (save_h5 unigram "V" [3] None
        (save_h5 unigram "V" [1; 2] None group_world).2).2).1 = Ok [3].
Proof.
  destruct (save_h5_round_trip unigram "V" [1; 2] [3] None None group_world
              [("unigram"%string, Group [])] [])
    as (_ & Hfirst & _ & Hsecond & _).
  - discriminate.
  - reflexivity.
  - reflexivity.
  - reflexivity.
  - reflexivity.
  - by split.
Defined.

(** C5 as stated fails for an array that h5py cannot store.  An entry
    of 2^64 makes the array one of Python objects: [create_dataset]
    raises [TypeError], and by then [save_h5] has deleted the dataset
    that was there, so that nothing reads back under the name. *)
Lemma save_h5_object_array :
  (group_read unigram "V" two_datasets_world).1 = Ok [1; 2] ∧
  (save_h5 unigram "V" [2 ^ 64] None two_datasets_world).1 = Raise TypeError ∧
  (group_read unigram "V"
     (save_h5 unigram "V" [2 ^ 64] None two_datasets_world).2).1
    = Raise (KeyError "V").
Proof. split_and!; reflexivity. Qed.

(** ** Which routines close the store *)

(** C9, as the code has it.  The readers ([load_h5_file],
    [get_score_methods], [load_document_vectors]) open the store inside
    a [with] block and leave the open handles as they found them on
    every path, also when they raise.  [touch_h5] returns the handle it opened, and
    [get_h5save_object] a group of the handle it opened, still open:
    closing it is left to the caller. *)
Theorem store_handles_after_call :
  (∀ A f_h5 args (w : world (node A)),
     opened (load_h5_file f_h5 args w).2 = opened w) ∧
  (∀ T f_h5 (w : world T), opened (get_score_methods f_h5 w).2 = opened w) ∧
  (∀ scalar argsort f_h5 score_method use_reduced
     (w : world (h5group (shard scalar))),
     opened (load_document_vectors argsort f_h5 score_method use_reduced w).2
       = opened w) ∧
  (∀ A f_db (w : world (node A)),
     ∃ h5, (touch_h5 f_db w).1 = Ok h5 ∧ h_path h5 = f_db ∧
           opened (touch_h5 f_db w).2 = h5 :: opened w) ∧
  (∀ A f_db method (w : world (node A)) g,
     (get_h5save_object f_db method w).1 = Ok g →
     h_path (o_file g) = f_db ∧ o_name g = method ∧
     opened (get_h5save_object f_db method w).2 = o_file g :: opened w).
Proof.
  split_and!.
  - intros. apply load_h5_file_frame.
  - intros. apply get_score_methods_frame.
  - intros. apply load_document_vectors_frame.
  - intros A f_db w. destruct (touch_h5_opened f_db w) as (m & ? & ?).
    by exists (Handle f_db m).
  - intros A f_db method w g Hg.
    destruct (get_h5save_object_opened f_db method w) as (m & Hop & Hobj).
    rewrite (Hobj g Hg). by rewrite Hop.
Qed.

Lemma store_handles_after_call_witness :
  opened (load_h5_file "data.h5" ["nu"%string] flat_world).2 = [] ∧
  opened (get_h5save_object "data.h5" "unigram" flat_world).2
    = [Handle "data.h5" ModeRW].
Proof.
  destruct store_handles_after_call as (Hread & _ & _ & _ & Hsave).
  split.
  - apply (Hread (list Z) "data.h5"%string ["nu"%string] flat_world).
  - apply (Hsave (list Z) "data.h5"%string "unigram"%string flat_world
             (H5Object (Handle "data.h5" ModeRW) "unigram")).
    reflexivity.
Defined.

(** C9 as stated fails for the write path: after [touch_h5] and after
    [get_h5save_object] the store is still open. *)
Lemma write_path_leaves_store_open :
  opened flat_world = [] ∧
  opened (touch_h5 "data.h5" flat_world).2 = [Handle "data.h5" ModeRW] ∧
  opened (get_h5save_object "data.h5" "unigram" flat_world).2
    = [Handle "data.h5" ModeRW] ∧
  opened (get_h5save_object "data.h5" "mu" flat_world).2
    = [Handle "data.h5" ModeRW].
Proof. split_and!; reflexivity. Qed.

(** * Further properties of the loaders *)

(** ** Loops and lists of results *)

Lemma for_each_app {T X B} (xs ys : list X) (body : B → X → M T B) acc
    (w : world T) :
  for_each (xs ++ ys) body acc w =
    match for_each xs body acc w with
    | (Ok b, w') => for_each ys body b w'
    | (Raise e, w') => (Raise e, w')
    end.
Proof.
  revert acc w. induction xs as [|x xs IH]; intros acc w; simpl; [done|].
  rewrite !M_bind_run. destruct (body acc x w) as [[b|e] w']; [apply IH | done].
Qed.

Lemma mapM_Raise_same {X Y} (f : X → result Y) (xs : list X) e :
  Forall (λ x, is_ok (f x) = true ∨ f x = Raise e) xs →
  Exists (λ x, f x = Raise e) xs →
  mapM f xs = Raise e.
Proof.
  induction 1 as [|x xs Hx _ IH]; intros Hex; [by apply Exists_nil in Hex|].
  simpl. destruct Hx as [Hx| ->]; [|done].
  destruct (f x) as [y|e'] eqn:Hfx; [|done]. simpl.
  apply Exists_cons in Hex as [Hex|Hex]; [congruence|]. by rewrite IH.
Qed.

Lemma mapM_Forall2 {X X' Y} (f : X → result Y) (f' : X' → result Y) xs ys :
  Forall2 (λ x y, f x = f' y) xs ys → mapM f xs = mapM f' ys.
Proof.
  induction 1 as [|x y xs ys Hxy _ IH]; [done|]. simpl. by rewrite Hxy, IH.
Qed.

(** ** More on groups *)

Section group_lemmas.
Context {A : Type}.
Implicit Types (r : h5group (node A)) (ms : h5group (A * string))
  (w : world (node A)) (o : h5object).

Lemma h5_contains_get {T} (k : string) (g : h5group T) :
  h5_contains k g = true ↔ is_Some (h5_get k g).
Proof.
  unfold h5_contains, h5_keys. rewrite bool_decide_eq_true.
  induction g as [|[k' v] g IH]; csimpl.
  - rewrite elem_of_nil. split; [done | by intros [? ?]].
  - rewrite elem_of_cons. case_decide as Hk.
    + split; [eauto | by left].
    + rewrite <-IH. split; [by intros [?|?] | by right].
Qed.

Lemma h5_get_keys {T} (k : string) (g : h5group T) :
  k ∈ h5_keys g ↔ is_Some (h5_get k g).
Proof. rewrite <-h5_contains_get. unfold h5_contains. by rewrite bool_decide_eq_true. Qed.

Lemma h5_get_app {T} (k : string) (g g' : h5group T) :
  h5_get k (g ++ g') = match h5_get k g with Some v => Some v | None => h5_get k g' end.
Proof.
  induction g as [|[k' v] g IH]; simpl; [done|]. by case_decide.
Qed.

Lemma h5_get_del_ne {T} (k col : string) (g : h5group T) :
  k ≠ col → h5_get k (h5_del col g) = h5_get k g.
Proof.
  intros Hne. unfold h5_del. induction g as [|[k' v] g IH]; [done|].
  rewrite filter_cons. simpl. destruct (decide (k' ≠ col)) as [Hk|Hk]; simpl.
  - by rewrite IH.
  - rewrite IH. rewrite decide_False; [done|]. intros ->. apply Hk. done.
Qed.

Lemma h5_get_saved_ne k col (data : A) compression ms :
  k ≠ col → h5_get k (saved col data compression ms) = h5_get k ms.
Proof.
  intros Hne. unfold saved. rewrite h5_get_app, h5_get_del_ne by done.
  destruct (h5_get k ms); [done|]. simpl. by rewrite decide_False.
Qed.

Lemma with_members_keys name ms r : h5_keys (with_members name ms r) = h5_keys r.
Proof.
  unfold h5_keys, with_members. rewrite <-list_fmap_compose.
  apply list_fmap_ext. intros i [k v] _. simpl. by case_decide.
Qed.

Lemma h5_get_with_members_ne name name' ms r :
  name' ≠ name → h5_get name' (with_members name ms r) = h5_get name' r.
Proof.
  intros Hne. unfold with_members. induction r as [|[k v] r IH]; [done|].
  rewrite fmap_cons. cbn [fst]. destruct (decide (k = name)) as [->|Hk].
  - cbn [h5_get]. by rewrite !decide_False by done.
  - cbn [h5_get]. by rewrite IH.
Qed.

Lemma group_read_result o col w r ms :
  fs w !! h_path (o_file o) = Some r →
  h5_get (o_name o) r = Some (Group ms) →
  (group_read o col w).1 = match h5_get col ms with
                           | Some (a, _) => Ok a
                           | None => Raise (KeyError col)
                           end.
Proof.
  intros Hr Hms. unfold group_read, group_members. rewrite !M_bind_run.
  unfold root; simpl. rewrite Hr; simpl. rewrite Hms.
  unfold mret, M_ret. by destruct (h5_get col ms) as [[a c]|].
Qed.

(** What [get_h5save_object] does, by what it finds on disk. *)
Lemma get_h5save_object_run f_db method w :
  get_h5save_object f_db method w =
    match fs w !! f_db with
    | None =>
        (Ok (H5Object (Handle f_db ModeW) method),
         World (<[f_db := [(method, Group [])]]> (fs w))
           (Handle f_db ModeW :: opened w) (reads w))
    | Some r =>
        match h5_get method r with
        | Some (Group _) =>
            (Ok (H5Object (Handle f_db ModeRW) method),
             World (fs w) (Handle f_db ModeRW :: opened w) (reads w))
        | Some (Dataset _ _) =>
            (Raise TypeError,
             World (fs w) (Handle f_db ModeRW :: opened w) (reads w))
        | None =>
            (Ok (H5Object (Handle f_db ModeRW) method),
             World (<[f_db := r ++ [(method, Group [])]]> (fs w))
               (Handle f_db ModeRW :: opened w) (reads w))
        end
    end.
Proof.
  unfold get_h5save_object, touch_h5. rewrite !M_bind_run. unfold os_path_exists.
  destruct (fs w !! f_db) as [r|] eqn:Hr.
  - rewrite bool_decide_eq_true_2 by eauto. simpl.
    unfold h5py_File. rewrite Hr. rewrite M_bind_run.
    unfold require_group. rewrite M_bind_run. unfold root; simpl. rewrite Hr; simpl.
    by destruct (h5_get method r) as [[a c|ms]|].
  - rewrite bool_decide_eq_false_2 by (by intros [? ?]). simpl.
    rewrite M_bind_run. unfold require_group. rewrite M_bind_run.
    unfold root; simpl. rewrite lookup_insert_eq; simpl.
    unfold mret, M_ret. by rewrite insert_insert_eq.
Qed.

(** Reading a run of datasets logs each of them. *)
Lemma read_datasets_run h5 r names (data0 : gmap string A) w :
  fs w !! h_path h5 = Some r →
  Forall (λ k, is_ok (dataset_of r k) = true) names →
  ∃ data,
    for_each names (λ data key,
      a ← read_dataset h5 key; mret (<[key := a]> data)) data0 w
    = (Ok data,
       World (fs w) (opened w)
         (((λ k, (h_path h5, [k])) <$> reverse names) ++ reads w)).
Proof.
  intros Hr Hall. revert data0 w Hr.
  induction Hall as [|k names Hk _ IH]; intros data0 w Hr; simpl.
  - exists data0. by destruct w.
  - rewrite !M_bind_run. unfold read_dataset at 1. rewrite M_bind_run.
    unfold root; simpl. rewrite Hr; simpl.
    unfold dataset_of in Hk. destruct (h5_get k r) as [[a c|ms]|]; try done.
    simpl.
    destruct (IH (<[k := a]> data0)
                (World (fs w) (opened w) ((h_path h5, [k]) :: reads w)) Hr)
      as (data & ->).
    exists data. simpl. rewrite reverse_cons, fmap_app, <-app_assoc. done.
Qed.
End group_lemmas.

Section store_lemmas.
Context `{H5Data A}.
Implicit Types (r : h5group (node A)) (ms : h5group (A * string))
  (w : world (node A)) (o : h5object).

Lemma save_h5_then_read o col (data : A) compression w r ms :
  h_mode (o_file o) ≠ ModeR →
  fs w !! h_path (o_file o) = Some r →
  h5_get (o_name o) r = Some (Group ms) →
  h5_accepts data compression = true →
  (save_h5 o col data compression w).1 = Ok (o, col) ∧
  (group_read o col (save_h5 o col data compression w).2).1 = Ok data.
Proof.
  intros Hmode Hr Hms Hok.
  rewrite (save_h5_run o col data compression w r ms) by done.
  split; [done|]. eapply group_read_saved.
  - simpl. by rewrite lookup_insert_eq.
  - by eapply h5_get_with_members.
Qed.

(** Whether [save_h5] returns or raises, the group is left with its
    other datasets as they were. *)
Lemma save_h5_world o col (data : A) compression w r ms :
  h_mode (o_file o) ≠ ModeR →
  fs w !! h_path (o_file o) = Some r →
  h5_get (o_name o) r = Some (Group ms) →
  (save_h5 o col data compression w).2 = w ∨
  ∃ ms', (∀ k, k ≠ col → h5_get k ms' = h5_get k ms) ∧
    (save_h5 o col data compression w).2
      = World (<[h_path (o_file o) := with_members (o_name o) ms' r]> (fs w))
          (opened w) (reads w).
Proof.
  intros Hmode Hr Hms. destruct (h5_accepts data compression) eqn:Hok.
  - right. exists (saved col data compression ms). split.
    + intros k Hne. by apply h5_get_saved_ne.
    + by rewrite (save_h5_run o col data compression w r ms).
  - rewrite (save_h5_refused o col data compression w r ms) by done.
    unfold after_del. simpl. destruct (h5_contains col ms); [right | by left].
    exists (h5_del col ms). split; [|done].
    intros k Hne. by apply h5_get_del_ne.
Qed.

(** What holds once [get_h5save_object] has returned a group. *)
Lemma get_h5save_object_post f_db method w g w1 :
  get_h5save_object f_db method w = (Ok g, w1) →
  ∃ m r1 ms,
    g = H5Object (Handle f_db m) method ∧ m ≠ ModeR ∧
    fs w1 !! f_db = Some r1 ∧ h5_get method r1 = Some (Group ms) ∧
    (∀ r k v, fs w !! f_db = Some r → h5_get k r = Some v →
              h5_get k r1 = Some v) ∧
    (∀ path, path ≠ f_db → fs w1 !! path = fs w !! path) ∧
    opened w1 = Handle f_db m :: opened w ∧ reads w1 = reads w.
Proof.
  rewrite get_h5save_object_run.
  destruct (fs w !! f_db) as [r|] eqn:Hr;
    [destruct (h5_get method r) as [[a c|ms]|] eqn:Hm|];
    intros [= <- <-]; simpl.
  - exists ModeRW, r, ms. split_and!; try done. by intros ? ? ? [= <-].
  - exists ModeRW, (r ++ [(method, Group [])]), [].
    split_and!; try done.
    + by rewrite lookup_insert_eq.
    + rewrite h5_get_app, Hm. simpl. by rewrite decide_True.
    + intros ? k v [= <-] Hk. by rewrite h5_get_app, Hk.
    + intros path Hne. by rewrite lookup_insert_ne.
  - exists ModeW, [(method, Group [])], [].
    split_and!; try done.
    + by rewrite lookup_insert_eq.
    + simpl. by rewrite decide_True.
    + intros path Hne. by rewrite lookup_insert_ne.
Qed.
End store_lemmas.

(** ** The names asked of [load_h5_file] *)

(** X1.  [load_h5_file] returns a dictionary, so only the set of names
    asked for matters when the call succeeds: two lists of names with
    the same members, in any order and with any repetitions, give the
    same dictionary, and no names at all give what the list of all the
    names of the store gives. *)
Theorem load_h5_file_names_as_set {A} (f_h5 : string)
    (args1 args2 : list string) (w : world (node A)) (r : h5group (node A)) :
  fs w !! f_h5 = Some r →
  (∀ k, k ∈ names_read r args1 ↔ k ∈ names_read r args2) →
  Forall (λ k, is_ok (dataset_of r k) = true) (names_read r args1) →
  ∃ data, (load_h5_file f_h5 args1 w).1 = Ok data ∧
          (load_h5_file f_h5 args2 w).1 = Ok data.
Proof.
  intros Hr Hsame Hall.
  destruct (load_h5_file_Ok f_h5 args1 w r Hr Hall) as (d1 & H1 & S1).
  destruct (load_h5_file_Ok f_h5 args2 w r Hr) as (d2 & H2 & S2).
  { apply Forall_forall. intros k Hk. apply Hsame in Hk.
    by eapply Forall_forall in Hall. }
  exists d1. split; [done|]. rewrite H2. f_equal. apply map_eq. intros k.
  apply option_eq. intros a. by rewrite S1, S2, Hsame.
Qed.

Lemma load_h5_file_names_as_set_witness :
  (load_h5_file "data.h5" [] flat_world).1
    = (load_h5_file "data.h5" ["sigma"; "mu"; "sigma"]%string flat_world).1.
Proof.
  destruct (load_h5_file_names_as_set "data.h5" [] ["sigma"; "mu"; "sigma"]%string
              flat_world
              [("mu"%string, Dataset [1; 2] "gzip"%string);
               ("sigma"%string, Dataset [3] "gzip"%string)])
    as (data & -> & ->).
  - reflexivity.
  - intros k. simpl. rewrite !elem_of_cons, !elem_of_nil. tauto.
  - by repeat constructor.
  - reflexivity.
Defined.

(** X2.  The validation pass of [load_h5_file] checks that a name is
    there, not that it names a dataset.  When every name is present and
    one of them is a group, the call raises [TypeError] at that name;
    by then the datasets listed before it have been read.  No file
    changes and the store is closed again. *)
Theorem load_h5_file_group_member {A} (f_h5 : string) (args : list string)
    (w : world (node A)) (r : h5group (node A)) pre k ms post :
  fs w !! f_h5 = Some r →
  names_read r args = pre ++ k :: post →
  Forall (λ k, is_ok (dataset_of r k) = true) pre →
  h5_get k r = Some (Group ms) →
  Forall (λ k, k ∈ h5_keys r) post →
  load_h5_file f_h5 args w =
    (Raise TypeError,
     World (fs w) (opened w)
       (((λ k, (f_h5, [k])) <$> reverse pre) ++ reads w)).
Proof.
  intros Hr Hnames Hpre Hk Hpost. unfold load_h5_file.
  rewrite (with_File_run _ _ _ _ r) by done.
  set (h5 := Handle f_h5 ModeR).
  set (w1 := World (fs w) (h5 :: opened w) (reads w)).
  assert (fs w1 !! h_path h5 = Some r) as Hr1 by done.
  rewrite M_bind_run.
  assert ((match args with
           | [] => g ← root h5; mret (h5_keys g)
           | _ => mret args
           end) w1 = (Ok (names_read r args), w1)) as ->.
  { destruct args; [|done]. rewrite M_bind_run. unfold root. simpl. by rewrite Hr. }
  rewrite M_bind_run.
  change (for_each (names_read r args) _ () w1)
    with (for_each (names_read r args) (check h5 f_h5) () w1).
  rewrite (check_all_present _ _ r).
  2: done.
  2:{ rewrite Hnames. apply Forall_app. split.
      - eapply Forall_impl; [done|]. intros k'. apply dataset_of_present.
      - apply Forall_cons. split; [|done]. apply h5_get_keys. by rewrite Hk. }
  rewrite Hnames, for_each_app.
  destruct (read_datasets_run h5 r pre ∅ w1 Hr1 Hpre) as (data & ->).
  cbn [for_each]. rewrite !M_bind_run. unfold read_dataset at 1.
  rewrite M_bind_run. unfold root; simpl. rewrite Hr; simpl. rewrite Hk. simpl.
  by rewrite decide_True.
Qed.

Lemma load_h5_file_group_member_witness :
  load_h5_file "data.h5" [] nested_world =
    (Raise TypeError,
     World (fs nested_world) [] [("data.h5"%string, ["mu"%string])]).
Proof.
  apply (load_h5_file_group_member "data.h5" [] nested_world
           [("mu"%string, Dataset [1; 2] "gzip"%string);
            ("unigram"%string, Group []);
            ("sigma"%string, Dataset [3] "gzip"%string)]
           ["mu"%string] "unigram" [] ["sigma"%string]).
  - reflexivity.
  - reflexivity.
  - by repeat constructor.
  - reflexivity.
  - repeat constructor.
Defined.

(** ** What a write leaves alone *)

(** X3.  [save_h5] changes the one dataset it is asked to write.  Every
    other dataset of the group reads as before (or is as absent as
    before), the root of the file lists the same names, every other
    member of the root and every other file is untouched, and nothing
    is opened, closed or read. *)
Theorem save_h5_changes_one_dataset `{H5Data A} (h5 : h5object) (col : string)
    (data : A) (compression : option string) (w : world (node A)) r ms :
  h_mode (o_file h5) ≠ ModeR →
  fs w !! h_path (o_file h5) = Some r →
  h5_get (o_name h5) r = Some (Group ms) →
  let w' := (save_h5 h5 col data compression w).2 in
  (∀ col', col' ≠ col →
     (group_read h5 col' w').1 = (group_read h5 col' w).1) ∧
  (∃ r', fs w' !! h_path (o_file h5) = Some r' ∧ h5_keys r' = h5_keys r ∧
         ∀ name, name ≠ o_name h5 → h5_get name r' = h5_get name r) ∧
  (∀ path, path ≠ h_path (o_file h5) → fs w' !! path = fs w !! path) ∧
  opened w' = opened w ∧ reads w' = reads w.
Proof.
  intros Hmode Hr Hms w'. subst w'.
  destruct (save_h5_world h5 col data compression w r ms Hmode Hr Hms)
    as [-> | (ms' & Hother & ->)].
  { split_and!; try done. by exists r. }
  simpl. split_and!; try done.
  - intros col' Hne.
    rewrite (group_read_result h5 col' _
               (with_members (o_name h5) ms' r) ms').
    + rewrite (group_read_result h5 col' w r ms) by done.
      by rewrite Hother.
    + simpl. by rewrite lookup_insert_eq.
    + by eapply h5_get_with_members.
  - eexists. split; [by rewrite lookup_insert_eq|]. split.
    + apply with_members_keys.
    + intros name Hne. by apply h5_get_with_members_ne.
  - intros path Hne. by rewrite lookup_insert_ne.
Qed.

Lemma save_h5_changes_one_dataset_witness :
  (group_read unigram "_ref"
     (save_h5 unigram "V" [9] None two_datasets_world).2).1 = Ok [7].
Proof.
  destruct (save_h5_changes_one_dataset unigram "V" [9] None two_datasets_world
              [("unigram"%string,
                Group [("V"%string, ([1; 2], "gzip"%string));
                       ("_ref"%string, ([7], "gzip"%string))])]
              [("V"%string, ([1; 2], "gzip"%string));
               ("_ref"%string, ([7], "gzip"%string))])
    as (Hother & _).
  - discriminate.
  - reflexivity.
  - reflexivity.
  - rewrite (Hother "_ref"%string); [reflexivity | discriminate].
Defined.

(** ** The group that [get_h5save_object] hands out *)

(** X4.  A group that [get_h5save_object] returns can be written to:
    the group is on disk, everything the file held before is still
    there (an existing file is opened, never truncated), the other
    files are untouched, and [save_h5] on the returned group, with an
    array and a filter that h5py takes, succeeds with the array reading
    back. *)
Theorem get_h5save_object_usable `{H5Data A} (f_db method : string)
    (w : world (node A)) (g : h5object) (w1 : world (node A)) :
  get_h5save_object f_db method w = (Ok g, w1) →
  (∃ r1 ms, fs w1 !! f_db = Some r1 ∧ h5_get method r1 = Some (Group ms) ∧
     ∀ r k v, fs w !! f_db = Some r → h5_get k r = Some v →
              h5_get k r1 = Some v) ∧
  (∀ path, path ≠ f_db → fs w1 !! path = fs w !! path) ∧
  (∀ col data compression,
     h5_accepts data compression = true →
     (save_h5 g col data compression w1).1 = Ok (g, col) ∧
     (group_read g col (save_h5 g col data compression w1).2).1 = Ok data).
Proof.
  intros Hrun.
  destruct (get_h5save_object_post f_db method w g w1 Hrun)
    as (m & r1 & ms & -> & Hm & Hr1 & Hms & Hkept & Hother & _).
  split_and!.
  - by exists r1, ms.
  - done.
  - intros col data compression Hok. by eapply save_h5_then_read.
Qed.

Lemma get_h5save_object_usable_witness :
  (get_h5save_object "score.h5" "unigram" no_store).1
    = Ok (H5Object (Handle "score.h5" ModeW) "unigram") ∧
  (group_read (H5Object (Handle "score.h5" ModeW) "unigram") "V"
     (save_h5 (H5Object (Handle "score.h5" ModeW) "unigram") "V" [1; 2] None
        (get_h5save_object "score.h5" "unigram" no_store).2).2).1
    = Ok [1; 2].
Proof.
  split; [reflexivity|].
  destruct (get_h5save_object_usable "score.h5" "unigram" no_store
              (H5Object (Handle "score.h5" ModeW) "unigram")
              (get_h5save_object "score.h5" "unigram" no_store).2)
    as (_ & _ & Hsave).
  - reflexivity.
  - apply Hsave. reflexivity.
Defined.

(** X5.  Asking for the same group again changes no file: the second
    call finds the file and the group and returns the group.  Each call
    opens the file once more, so that two handles are then open. *)
Theorem get_h5save_object_again {A} (f_db method : string)
    (w : world (node A)) (g : h5object) (w1 : world (node A)) :
  get_h5save_object f_db method w = (Ok g, w1) →
  get_h5save_object f_db method w1 =
    (Ok (H5Object (Handle f_db ModeRW) method),
     World (fs w1) (Handle f_db ModeRW :: o_file g :: opened w) (reads w)).
Proof.
  intros Hrun.
  destruct (get_h5save_object_post f_db method w g w1 Hrun)
    as (m & r1 & ms & -> & Hm & Hr1 & Hms & _ & _ & Hop & Hrd).
  rewrite get_h5save_object_run, Hr1, Hms. simpl. by rewrite Hop, Hrd.
Qed.

Lemma get_h5save_object_again_witness :
  fs (get_h5save_object "score.h5" "unigram"
        (get_h5save_object "score.h5" "unigram" no_store).2).2
    = fs (get_h5save_object "score.h5" "unigram" no_store).2 ∧
  opened (get_h5save_object "score.h5" "unigram"
            (get_h5save_object "score.h5" "unigram" no_store).2).2
    = [Handle "score.h5" ModeRW; Handle "score.h5" ModeW].
Proof.
  rewrite (get_h5save_object_again "score.h5" "unigram" no_store
             (H5Object (Handle "score.h5" ModeW) "unigram")
             (get_h5save_object "score.h5" "unigram" no_store).2 eq_refl).
  split; reflexivity.
Defined.

(** X6.  When the name asked of [get_h5save_object] is that of a
    dataset at the root of the file, [require_group] raises
    [TypeError].  The file is unchanged, and the handle that [touch_h5]
    opened stays open although the caller gets nothing to close it
    with. *)
Theorem get_h5save_object_dataset_name {A} (f_db method : string)
    (w : world (node A)) (r : h5group (node A)) (a : A) (c : string) :
  fs w !! f_db = Some r →
  h5_get method r = Some (Dataset a c) →
  get_h5save_object f_db method w =
    (Raise TypeError,
     World (fs w) (Handle f_db ModeRW :: opened w) (reads w)).
Proof. intros Hr Hm. by rewrite get_h5save_object_run, Hr, Hm. Qed.

Lemma get_h5save_object_dataset_name_witness :
  get_h5save_object "data.h5" "mu" flat_world =
    (Raise TypeError,
     World (fs flat_world) [Handle "data.h5" ModeRW] []).
Proof.
  apply (get_h5save_object_dataset_name "data.h5" "mu" flat_world
           [("mu"%string, Dataset [1; 2] "gzip"%string);
            ("sigma"%string, Dataset [3] "gzip"%string)] [1; 2] "gzip");
    reflexivity.
Defined.

(** ** Stores that [load_document_vectors] refuses *)

Section refused_lemmas.
Context {scalar : Type}.
Variable argsort : list Z → list nat.
Implicit Types (s : shard scalar) (g : h5group (shard scalar))
  (r : h5group (h5group (shard scalar)))
  (w : world (h5group (shard scalar))).

Lemma load_document_vectors_result f_h5 sm ur w r :
  fs w !! f_h5 = Some r →
  (load_document_vectors argsort f_h5 sm ur w).1 = assemble argsort r sm ur.
Proof.
  intros Hr.
  by destruct (load_document_vectors_yields argsort (fs w) f_h5 r sm ur Hr w eq_refl)
    as (? & _).
Qed.

Lemma read_refs_Ok g arrs :
  Forall2 (λ ks a, ds_ref ks.2 = Some a) g arrs →
  mapM (λ ks, lift_option (KeyError "_ref") (ds_ref ks.2)) g = Ok arrs.
Proof.
  intros Harrs. apply mapM_Ok. eapply Forall2_impl; [done|]. by intros ?? ->.
Qed.

Lemma read_vectors_Ok key g mats :
  Forall2 (λ ks m, vectors_of key ks.2 = Some m) g mats →
  mapM (λ ks, lift_option (KeyError key) (vectors_of key ks.2)) g = Ok mats.
Proof.
  intros Hmats. apply mapM_Ok. eapply Forall2_impl; [done|]. by intros ?? ->.
Qed.

Lemma all_refs_read g :
  Forall (λ s, is_Some (ds_ref s)) g.*2 →
  ∃ arrs, Forall2 (λ ks a, ds_ref ks.2 = Some a) g arrs.
Proof.
  induction g as [|[k s] g IH]; csimpl; intros Hall.
  - exists []. constructor.
  - apply Forall_cons in Hall as [[a Ha] Hall].
    destruct (IH Hall) as (arrs & Harrs). exists (a :: arrs). by constructor.
Qed.
End refused_lemmas.

(** X7.  A score method that the store has no group for is refused by
    [load_document_vectors] with [AssertionError] before any dataset
    is read: the world is as it was. *)
Theorem load_document_vectors_unknown_method {scalar}
    (argsort : list Z → list nat) (f_h5 score_method : string)
    (use_reduced : bool) (w : world (h5group (shard scalar)))
    (r : h5group (h5group (shard scalar))) :
  fs w !! f_h5 = Some r →
  score_method ∉ h5_keys r →
  load_document_vectors argsort f_h5 score_method use_reduced w
    = (Raise AssertionError, w).
Proof.
  intros Hr Hno. unfold load_document_vectors.
  rewrite (with_File_run _ _ _ _ r) by done.
  rewrite M_bind_run. unfold root; simpl. rewrite Hr; simpl.
  unfold h5_contains. rewrite bool_decide_eq_false_2 by done. simpl.
  rewrite decide_True by done. by destruct w.
Qed.

Lemma load_document_vectors_unknown_method_witness :
  load_document_vectors argsort_forward "score.h5" "bigram" false
    (score_world [("0"%string, shard_51)])
    = (Raise AssertionError, score_world [("0"%string, shard_51)]).
Proof.
  apply (load_document_vectors_unknown_method argsort_forward "score.h5"
           "bigram" false (score_world [("0"%string, shard_51)])
           [("unigram"%string, [("0"%string, shard_51)])]).
  - reflexivity.
  - by apply (bool_decide_unpack _).
Defined.

(** X8.  A score method whose group holds no shard is refused: there is
    nothing for [np.hstack] to join, which is a [ValueError].  Nothing
    has been read by then. *)
Theorem load_document_vectors_no_shards {scalar}
    (argsort : list Z → list nat) (f_h5 score_method : string)
    (use_reduced : bool) (w : world (h5group (shard scalar)))
    (r : h5group (h5group (shard scalar))) :
  fs w !! f_h5 = Some r →
  h5_get score_method r = Some [] →
  load_document_vectors argsort f_h5 score_method use_reduced w
    = (Raise (ValueError NeedAtLeastOneArray), w).
Proof.
  intros Hr Hg. unfold load_document_vectors.
  rewrite (with_File_run _ _ _ _ r) by done.
  rewrite M_bind_run. unfold root; simpl. rewrite Hr; simpl.
  rewrite (h5_get_contains _ _ _ Hg). simpl.
  rewrite M_bind_run. unfold lift at 1. rewrite Hg. simpl.
  rewrite decide_True by done. by destruct w.
Qed.

Lemma load_document_vectors_no_shards_witness :
  load_document_vectors argsort_forward "score.h5" "unigram" false
    (score_world [])
    = (Raise (ValueError NeedAtLeastOneArray), score_world []).
Proof.
  apply (load_document_vectors_no_shards argsort_forward "score.h5" "unigram"
           false (score_world []) [("unigram"%string, [])]); reflexivity.
Defined.

(** X9.  A shard that lacks a dataset makes the call raise [KeyError]
    with the name of the dataset: ["_ref"] when some shard has no
    reference ids, and the name of the selected vector dataset (["VX"]
    under [use_reduced], else ["V"]) when all the reference ids are
    there and some shard has no such vectors. *)
Theorem load_document_vectors_missing_dataset {scalar}
    (argsort : list Z → list nat) (f_h5 score_method : string)
    (use_reduced : bool) (w : world (h5group (shard scalar)))
    (r : h5group (h5group (shard scalar))) (g : h5group (shard scalar)) :
  fs w !! f_h5 = Some r →
  h5_get score_method r = Some g →
  (Exists (λ s, ds_ref s = None) g.*2 →
   (load_document_vectors argsort f_h5 score_method use_reduced w).1
     = Raise (KeyError "_ref")) ∧
  (Forall (λ s, is_Some (ds_ref s)) g.*2 →
   Exists (λ s, vectors_of (vkey use_reduced) s = None) g.*2 →
   (load_document_vectors argsort f_h5 score_method use_reduced w).1
     = Raise (KeyError (vkey use_reduced))).
Proof.
  intros Hr Hg. rewrite (load_document_vectors_result argsort f_h5 _ _ w r Hr).
  unfold assemble. rewrite (h5_get_contains _ _ _ Hg), Hg. simpl. split.
  - intros Hex. rewrite (mapM_Raise_same
                           (λ ks, lift_option (KeyError "_ref") (ds_ref ks.2))
                           g (KeyError "_ref")); [done| |].
    + apply Forall_forall. intros [k s] _. simpl. destruct (ds_ref s); [by left | by right].
    + apply Exists_fmap in Hex. eapply Exists_impl; [done|].
      intros [k s]. simpl. by intros ->.
  - intros Hall Hex. destruct (all_refs_read g Hall) as (arrs & Harrs).
    rewrite (read_refs_Ok g arrs Harrs). simpl.
    assert (np_hstack arrs = Ok (concat arrs)) as ->.
    { destruct Harrs; [|done]. by apply Exists_nil in Hex. }
    simpl. fold (vkey use_reduced).
    rewrite (mapM_Raise_same
               (λ ks, lift_option (KeyError (vkey use_reduced))
                        (vectors_of (vkey use_reduced) ks.2))
               g (KeyError (vkey use_reduced))); [done| |].
    + apply Forall_forall. intros [k s] _. simpl.
      destruct (vectors_of _ s); [by left | by right].
    + apply Exists_fmap in Hex. eapply Exists_impl; [done|].
      intros [k s]. simpl. by intros ->.
Qed.

Lemma load_document_vectors_missing_dataset_witness :
  (load_document_vectors argsort_forward "score.h5" "unigram" false
     (score_world [("0"%string, shard_51); ("1"%string, shard_no_ref)])).1
    = Raise (KeyError "_ref") ∧
  (load_document_vectors argsort_forward "score.h5" "unigram" true
     (score_world [("0"%string, shard_51_reduced); ("1"%string, shard_3)])).1
    = Raise (KeyError "VX").
Proof.
  split.
  - apply (load_document_vectors_missing_dataset argsort_forward "score.h5"
             "unigram" false
             (score_world [("0"%string, shard_51); ("1"%string, shard_no_ref)])
             [("unigram"%string,
               [("0"%string, shard_51); ("1"%string, shard_no_ref)])]
             [("0"%string, shard_51); ("1"%string, shard_no_ref)]).
    + reflexivity.
    + reflexivity.
    + apply Exists_cons_tl, Exists_cons_hd. reflexivity.
  - apply (load_document_vectors_missing_dataset argsort_forward "score.h5"
             "unigram" true
             (score_world [("0"%string, shard_51_reduced); ("1"%string, shard_3)])
             [("unigram"%string,
               [("0"%string, shard_51_reduced); ("1"%string, shard_3)])]
             [("0"%string, shard_51_reduced); ("1"%string, shard_3)]).
    + reflexivity.
    + reflexivity.
    + repeat constructor; by eexists.
    + apply Exists_cons_tl, Exists_cons_hd. reflexivity.
Defined.

(** X10.  Shards whose vectors differ in width are refused: when every
    shard holds both datasets and the vectors of some shard are not as
    wide as those of the first, [np.vstack] raises [ValueError]. *)
Theorem load_document_vectors_width_mismatch {scalar}
    (argsort : list Z → list nat) (f_h5 score_method : string)
    (use_reduced : bool) (w : world (h5group (shard scalar)))
    (r : h5group (h5group (shard scalar))) (g : h5group (shard scalar))
    (arrs : list (list Z)) (m0 : matrix scalar) (mats : list (matrix scalar)) :
  fs w !! f_h5 = Some r →
  h5_get score_method r = Some g →
  Forall2 (λ ks a, ds_ref ks.2 = Some a) g arrs →
  Forall2 (λ ks m, vectors_of (vkey use_reduced) ks.2 = Some m) g (m0 :: mats) →
  Exists (λ m, ncols m ≠ ncols m0) mats →
  (load_document_vectors argsort f_h5 score_method use_reduced w).1
    = Raise (ValueError DimensionMismatch).
Proof.
  intros Hr Hg Harrs Hmats Hex.
  rewrite (load_document_vectors_result argsort f_h5 _ _ w r Hr).
  unfold assemble. rewrite (h5_get_contains _ _ _ Hg), Hg. simpl.
  rewrite (read_refs_Ok g arrs Harrs). simpl.
  assert (np_hstack arrs = Ok (concat arrs)) as ->.
  { destruct Harrs; [|done]. inversion Hmats. }
  simpl. fold (vkey use_reduced).
  rewrite (read_vectors_Ok _ g (m0 :: mats) Hmats). simpl.
  destruct (forallb _ mats) eqn:Hall; [|done].
  apply same_ncols_Forall in Hall.
  apply Exists_exists in Hex as (m & Hm & Hne).
  by eapply Forall_forall in Hall.
Qed.

Lemma load_document_vectors_width_mismatch_witness :
  (load_document_vectors argsort_forward "score.h5" "unigram" false
     (score_world [("0"%string, shard_51); ("1"%string, shard_7a)])).1
    = Raise (ValueError DimensionMismatch).
Proof.
  apply (load_document_vectors_width_mismatch argsort_forward "score.h5"
           "unigram" false
           (score_world [("0"%string, shard_51); ("1"%string, shard_7a)])
           [("unigram"%string, [("0"%string, shard_51); ("1"%string, shard_7a)])]
           [("0"%string, shard_51); ("1"%string, shard_7a)]
           [[5; 1]; [7]] (Matrix 2 [[50; 51]; [10; 11]]) [Matrix 1 [[70]]]).
  - reflexivity.
  - reflexivity.
  - repeat constructor.
  - repeat constructor.
  - apply Exists_cons_hd. simpl. lia.
Defined.

(** ** What [load_document_vectors] looks at *)

(** X11.  The result depends on the reference ids and on the selected
    vector dataset of the shards, taken in the order of the group, and
    on nothing else: two stores whose groups agree on these shard by
    shard give the same result, whatever the shards are called, whatever
    the dataset that is not selected holds, and whatever else the store
    and the world hold. *)
Theorem load_document_vectors_reads_selected {scalar}
    (argsort : list Z → list nat) (f_h5 score_method : string)
    (use_reduced : bool) (w w' : world (h5group (shard scalar)))
    (r r' : h5group (h5group (shard scalar))) (g g' : h5group (shard scalar)) :
  fs w !! f_h5 = Some r → fs w' !! f_h5 = Some r' →
  h5_get score_method r = Some g → h5_get score_method r' = Some g' →
  Forall2 (λ s s', ds_ref s = ds_ref s' ∧
                   vectors_of (vkey use_reduced) s
                     = vectors_of (vkey use_reduced) s') g.*2 g'.*2 →
  (load_document_vectors argsort f_h5 score_method use_reduced w).1
    = (load_document_vectors argsort f_h5 score_method use_reduced w').1.
Proof.
  intros Hr Hr' Hg Hg' Hsame.
  rewrite (load_document_vectors_result argsort f_h5 _ _ w r Hr).
  rewrite (load_document_vectors_result argsort f_h5 _ _ w' r' Hr').
  unfold assemble.
  rewrite (h5_get_contains _ _ _ Hg), (h5_get_contains _ _ _ Hg'), Hg, Hg'.
  simpl. fold (vkey use_reduced). apply Forall2_fmap in Hsame.
  rewrite (mapM_Forall2 (λ ks, lift_option (KeyError "_ref") (ds_ref ks.2))
             (λ ks, lift_option (KeyError "_ref") (ds_ref ks.2)) g g').
  2:{ eapply Forall2_impl; [done|]. by intros ?? [-> _]. }
  destruct (mapM _ g') as [arrs|]; [|done]. simpl.
  destruct (np_hstack arrs) as [refs|]; [|done]. simpl.
  rewrite (mapM_Forall2
             (λ ks, lift_option (KeyError (vkey use_reduced))
                      (vectors_of (vkey use_reduced) ks.2))
             (λ ks, lift_option (KeyError (vkey use_reduced))
                      (vectors_of (vkey use_reduced) ks.2)) g g').
  2:{ eapply Forall2_impl; [done|]. by intros ?? [_ ->]. }
  done.
Qed.

Lemma load_document_vectors_reads_selected_witness :
  (load_document_vectors argsort_forward "score.h5" "unigram" false
     (score_world [("0"%string, shard_51); ("1"%string, shard_3)])).1
  = (load_document_vectors argsort_forward "score.h5" "unigram" false
       (score_world [("a"%string, shard_51_reduced); ("b"%string, shard_3)])).1.
Proof.
  apply (load_document_vectors_reads_selected argsort_forward "score.h5"
           "unigram" false _ _
           [("unigram"%string, [("0"%string, shard_51); ("1"%string, shard_3)])]
           [("unigram"%string,
             [("a"%string, shard_51_reduced); ("b"%string, shard_3)])]
           [("0"%string, shard_51); ("1"%string, shard_3)]
           [("a"%string, shard_51_reduced); ("b"%string, shard_3)]).
  - reflexivity.
  - reflexivity.
  - reflexivity.
  - reflexivity.
  - repeat constructor.
Defined.

(** ** The columns asked of [load_ORG_data] *)

Section request_lemmas.
Context `{Cell cell}.
Variable argsort : list Z → list nat.
Implicit Types (hdr cols sel : list string) (r : list cell)
  (f : csv_file cell) (df : DataFrame cell).

Lemma select_cells_iff hdr cols1 cols2 r :
  (∀ c, c ∈ cols1 ↔ c ∈ cols2) →
  select_cells hdr cols1 r = select_cells hdr cols2 r.
Proof.
  intros Hsame. unfold select_cells. f_equal.
  apply list_filter_iff. intros p. apply Hsame.
Qed.

Lemma read_files_iff cols1 cols2 (files : list (csv_file cell)) frames :
  (∀ c, c ∈ cols1 ↔ c ∈ cols2) →
  mapM (λ x, simple_CSV_read x cols1) files = Ok frames →
  mapM (λ x, simple_CSV_read x cols2) files = Ok frames.
Proof.
  intros Hsame Hread.
  assert (Forall (λ f, Forall (λ c, c ∈ csv_header f) cols1) files) as Hcols.
  { apply Forall_forall. intros f Hf.
    destruct (decide (Forall (λ c, c ∈ csv_header f) cols1)) as [|Hno]; [done|].
    apply mapM_Ok in Hread.
    apply list_elem_of_lookup in Hf as [i Hi].
    destruct (Forall2_lookup_l _ _ _ _ _ Hread Hi) as (df & _ & Hdf).
    by rewrite simple_CSV_read_Raise in Hdf. }
  rewrite read_files_any in Hread by done. rewrite <-Hread.
  rewrite read_files_any.
  2:{ eapply Forall_impl; [done|]. intros f Hf. apply Forall_forall.
      intros c Hc. apply Hsame in Hc. by eapply Forall_forall in Hf. }
  f_equal. apply list_fmap_ext. intros i f _. f_equal.
  - apply list_filter_iff. intros c. by rewrite Hsame.
  - apply imap_ext. intros j r _. f_equal. symmetry. by apply select_cells_iff.
Qed.

Lemma filter_ne_absent (x : string) (l : list string) :
  x ∉ l → filter (λ c, c ≠ x) l = l.
Proof.
  induction l as [|c l IH]; [done|]. rewrite not_elem_of_cons. intros [Hne Hl].
  rewrite filter_cons, decide_True by done. by rewrite IH.
Qed.

Lemma delete_column_pos (x : string) (l : list string) j :
  NoDup l → column_pos x l = Some j → delete j l = filter (λ c, c ≠ x) l.
Proof.
  intros Hnd. revert j. induction Hnd as [|c l Hc Hnd IH]; intros j; [done|].
  cbn [column_pos]. rewrite filter_cons. destruct (decide (c = x)) as [->|Hne].
  - intros [= <-]. rewrite decide_False by (intros Hx; by apply Hx).
    simpl. by rewrite filter_ne_absent.
  - destruct (column_pos x l) as [j'|]; [|done]. intros [= <-].
    rewrite decide_True by done. simpl. by rewrite (IH j').
Qed.

Lemma payload_columns hdr extra j :
  NoDup hdr →
  column_pos "_ref" (filter (λ c, c ∈ requested extra) hdr) = Some j →
  delete j (filter (λ c, c ∈ requested extra) hdr)
    = filter (λ c, c ∈ default [] extra ∧ c ≠ "_ref"%string) hdr.
Proof.
  intros Hnd Hj. rewrite (delete_column_pos "_ref" _ j).
  - rewrite list_filter_filter. apply list_filter_iff. intros c.
    unfold requested. rewrite elem_of_cons. split.
    + intros [Hne [?|?]]; [done | by split].
    + intros [? ?]. split; [done | by right].
  - by apply NoDup_filter.
  - done.
Qed.

Lemma no_rows_laid_out U cols (files : list (csv_file cell)) :
  Forall (λ f, csv_rows f = []) files →
  concat ((λ f, laid_out U cols f <$> csv_rows f) <$> files) = [].
Proof.
  induction 1 as [|f files Hf _ IH]; [done|]. csimpl. by rewrite Hf, IH.
Qed.
End request_lemmas.

(** X12.  Only the set of the columns asked for matters to the table
    that [load_ORG_data] returns: extra columns listed in another
    order, listed twice, or with [_ref] among them give the same
    table, whether the files are read in turn or in parallel and
    whichever backend reads them. *)
Theorem load_ORG_data_request_as_set `{Cell cell} (argsort : list Z → list nat)
    (reported1 reported2 : list exn → nat)
    (P1 P2 : bool) (files : list (csv_file cell))
    (extra1 extra2 : option (list string)) (df : DataFrame cell) :
  (∀ c, c ∈ requested extra1 ↔ c ∈ requested extra2) →
  load_ORG_data argsort reported1 P1 files extra1 = Ok df →
  load_ORG_data argsort reported2 P2 files extra2 = Ok df.
Proof.
  intros Hsame (frames & Hread & Hdf)%load_ORG_data_Ok_frames.
  by rewrite (load_ORG_data_frames _ _ _ _ _ _
                (read_files_iff _ _ files frames Hsame Hread)).
Qed.

Lemma load_ORG_data_request_as_set_witness :
  load_ORG_data argsort_forward last_reported true [a_csv; b_csv; c_csv]
    (Some ["payload"; "_ref"; "payload"]%string) = Ok abc_table.
Proof.
  apply (load_ORG_data_request_as_set argsort_forward first_reported
           last_reported false true
           [a_csv; b_csv; c_csv] (Some ["payload"%string])
           (Some ["payload"; "_ref"; "payload"]%string) abc_table).
  - intros c. unfold requested. simpl.
    rewrite !elem_of_cons, !elem_of_nil. tauto.
  - reflexivity.
Defined.

(** X13.  The columns of the table come in the order of the files'
    header, not in the order in which they were asked for: for files
    with one header, the table has the extra columns as the header
    lists them, then [_ref]; every row has a field under each of these
    columns, and there are as many rows as the files hold. *)
Theorem load_ORG_data_columns `{Cell cell} (argsort : list Z → list nat)
    (reported : list exn → nat)
    (PARALLEL : bool) (hdr : list string) (files : list (csv_file cell))
    (extra_columns : option (list string)) :
  argsort_spec argsort →
  files ≠ [] →
  Forall (λ f, csv_header f = hdr ∧ csv_wf f) files →
  Forall (λ c, c ∈ hdr) (requested extra_columns) →
  ∃ df, load_ORG_data argsort reported PARALLEL files extra_columns = Ok df ∧
    columns df
      = filter (λ c, c ∈ default [] extra_columns ∧ c ≠ "_ref"%string) hdr
        ++ ["_ref"%string] ∧
    Forall (λ row, length row.2 = length (columns df)) (rows df) ∧
    length (rows df) = length (concat (csv_rows <$> files)).
Proof.
  intros Hsort Hne Hfiles Hcols.
  destruct (load_ORG_data_sorted argsort reported PARALLEL hdr files extra_columns
              Hsort Hne Hfiles Hcols) as (j & out & Hj & -> & Hperm & _).
  assert (NoDup hdr) as Hnd.
  { destruct Hfiles as [|f ? [<- [? _]] _]; done. }
  eexists. split; [done|]. cbn [columns rows].
  set (sel := filter (λ c, c ∈ requested extra_columns) hdr) in *.
  assert (j < length sel)%nat as Hlt.
  { apply column_pos_Some in Hj. by eapply lookup_lt_Some. }
  assert (Forall (λ r, length r = length sel)
            (selected hdr (requested extra_columns) files)) as Hfull.
  { unfold selected. apply Forall_fmap, Forall_forall. intros r Hr. simpl.
    apply select_cells_length.
    apply elem_of_concat in Hr as (rs & Hr & Hrs).
    apply list_elem_of_fmap in Hrs as (f & -> & Hf).
    eapply Forall_forall in Hfiles as [<- [_ Hrows]]; [|done].
    by eapply Forall_forall in Hrows. }
  split_and!.
  - by rewrite <-(payload_columns hdr extra_columns j Hnd Hj).
  - apply Forall_fmap, Forall_forall. intros r Hr. simpl.
    rewrite <-Hperm in Hfull. eapply Forall_forall in Hfull; [|done].
    rewrite !length_app, !length_delete by (apply lookup_lt_is_Some; lia).
    simpl. lia.
  - rewrite length_fmap, Hperm. unfold selected. by rewrite length_fmap.
Qed.

Lemma load_ORG_data_columns_witness :
  ∃ df, load_ORG_data argsort_forward first_reported false [xy_csv]
          (Some ["y"; "x"]%string) = Ok df ∧
        columns df = ["x"; "y"; "_ref"]%string.
Proof.
  destruct (load_ORG_data_columns argsort_forward first_reported false
              ["_ref"; "x"; "y"]%string [xy_csv] (Some ["y"; "x"]%string))
    as (df & Hdf & Hcolumns & _).
  - apply argsort_ties_spec.
  - discriminate.
  - repeat (apply Forall_cons; split;
            [split; [reflexivity | split; [by apply (bool_decide_unpack _)
                                          | by repeat constructor]] |]).
    by constructor.
  - by apply (bool_decide_unpack _).
  - exists df. split; [done|]. rewrite Hcolumns. reflexivity.
Defined.

(** X14.  Files that hold a header and no rows load into a table
    without rows: unlike a store without documents, which
    [load_document_vectors] refuses, an import directory whose files
    are all empty is not an error. *)
Theorem load_ORG_data_no_rows `{Cell cell} (argsort : list Z → list nat)
    (reported : list exn → nat)
    (PARALLEL : bool) (files : list (csv_file cell))
    (extra_columns : option (list string)) :
  argsort_spec argsort →
  files ≠ [] →
  Forall csv_wf files →
  Forall (λ f, Forall (λ c, c ∈ csv_header f) (requested extra_columns)) files →
  Forall (λ f, csv_rows f = []) files →
  ∃ df, load_ORG_data argsort reported PARALLEL files extra_columns = Ok df ∧
        rows df = [].
Proof.
  intros Hsort Hne Hwf Hcols Hrows.
  destruct (load_ORG_data_keyed argsort reported PARALLEL files extra_columns
              Hsort Hne Hwf Hcols)
    as (U & j & out & _ & _ & _ & -> & Hperm & _).
  rewrite no_rows_laid_out in Hperm by done.
  apply Permutation_nil_r in Hperm as ->. by eexists.
Qed.

Lemma load_ORG_data_no_rows_witness :
  ∃ df, load_ORG_data argsort_forward first_reported false
          [header_only_csv; header_only_csv] (Some ["payload"%string]) = Ok df ∧
        rows df = [].
Proof.
  apply (load_ORG_data_no_rows argsort_forward first_reported false
           [header_only_csv; header_only_csv] (Some ["payload"%string])).
  - apply argsort_ties_spec.
  - discriminate.
  - repeat (apply Forall_cons; split;
            [split; [by apply (bool_decide_unpack _) | by repeat constructor] |]).
    by constructor.
  - by apply (bool_decide_unpack _).
  - by repeat constructor.
Defined.

(** X15.  When a file lacks one of the columns asked of it, the
    [ValueError] that [simple_CSV_read] raises for such a file comes
    out of [load_ORG_data] as it is: it lists the columns asked for,
    [_ref] first, and the header of a file that lacks one of them. *)
Theorem load_ORG_data_missing_column `{Cell cell} (argsort : list Z → list nat)
    (reported : list exn → nat)
    (PARALLEL : bool) (files : list (csv_file cell))
    (extra_columns : option (list string)) :
  Exists (λ f, ¬ Forall (λ c, c ∈ csv_header f) (requested extra_columns))
    files →
  ∃ f, f ∈ files ∧
    ¬ Forall (λ c, c ∈ csv_header f) (requested extra_columns) ∧
    load_ORG_data argsort reported PARALLEL files extra_columns
      = Raise (ValueError (ColumnsMismatch (requested extra_columns)
                             (csv_header f))).
Proof.
  intros Hex.
  destruct (load_ORG_data_mismatch argsort reported PARALLEL files
              extra_columns Hex) as (f & ? & ? & ?).
  by exists f.
Qed.

Lemma load_ORG_data_missing_column_witness :
  ∃ f : csv_file field,
    load_ORG_data argsort_forward first_reported false [a_csv; payload_csv; b_csv] None
      = Raise (ValueError (ColumnsMismatch ["_ref"%string] (csv_header f))).
Proof.
  destruct (load_ORG_data_missing_column argsort_forward first_reported false
              [a_csv; payload_csv; b_csv] None) as (f & _ & _ & Hraise).
  - apply Exists_cons_tl, Exists_cons_hd. by apply (bool_decide_unpack _).
  - by exists f.
Defined.

(** ** Creating and listing *)

(** X18.  [touch_h5] never truncates: a file that exists keeps what
    it holds (it is opened with ['r+']), a file that does not exist is
    created empty, and no other file changes.  Touching the file again
    changes nothing on disk. *)
Theorem touch_h5_keeps_content {A} (f_db : string) (w : world (node A)) :
  fs (touch_h5 f_db w).2 !! f_db = Some (default [] (fs w !! f_db)) ∧
  (∀ path, path ≠ f_db → fs (touch_h5 f_db w).2 !! path = fs w !! path) ∧
  fs (touch_h5 f_db (touch_h5 f_db w).2).2 = fs (touch_h5 f_db w).2.
Proof.
  assert (∀ w0 : world (node A), ∀ r, fs w0 !! f_db = Some r →
            touch_h5 f_db w0
              = (Ok (Handle f_db ModeRW),
                 World (fs w0) (Handle f_db ModeRW :: opened w0) (reads w0)))
    as Hthere.
  { intros w0 r Hr. unfold touch_h5. rewrite M_bind_run. unfold os_path_exists.
    rewrite bool_decide_eq_true_2 by eauto. simpl. unfold h5py_File.
    by rewrite Hr. }
  destruct (fs w !! f_db) as [r|] eqn:Hr.
  - rewrite (Hthere w r Hr). simpl. split_and!; [done..|].
    by rewrite (Hthere (World (fs w) _ _) r Hr).
  - assert (touch_h5 f_db w
              = (Ok (Handle f_db ModeW),
                 World (<[f_db := []]> (fs w)) (Handle f_db ModeW :: opened w)
                   (reads w))) as ->.
    { unfold touch_h5. rewrite ?M_bind_run. unfold os_path_exists. cbn.
      rewrite bool_decide_eq_false_2; [done|]. rewrite Hr. by intros [? ?]. }
    simpl. split_and!.
    + by rewrite lookup_insert_eq.
    + intros path Hne. by rewrite lookup_insert_ne.
    + rewrite (Hthere _ []); [done|]. simpl. by rewrite lookup_insert_eq.
Qed.

Lemma touch_h5_keeps_content_witness :
  fs (touch_h5 "data.h5" flat_world).2 !! "data.h5"%string
    = Some [("mu"%string, Dataset [1; 2] "gzip"%string);
            ("sigma"%string, Dataset [3] "gzip"%string)] ∧
  fs (touch_h5 "data.h5" no_store).2 !! "data.h5"%string = Some [].
Proof.
  destruct (touch_h5_keeps_content "data.h5" flat_world) as [-> _].
  destruct (touch_h5_keeps_content "data.h5" no_store) as [-> _].
  split; reflexivity.
Defined.

(** X19.  What [get_score_methods] returns is a view of the file that
    its [with] block has closed by the time the caller gets it:
    whatever the store holds, no name is found in it.  While the file
    is open the same view finds the names of the store. *)
Theorem get_score_methods_view_closed {T} (f_h5 : string) (w : world T)
    (r : h5group T) :
  fs w !! f_h5 = Some r →
  Handle f_h5 ModeR ∉ opened w →
  ∃ v, get_score_methods f_h5 w = (Ok v, w) ∧
    (∀ name, view_contains v name w = (Ok false, w)) ∧
    (∀ name,
       (view_contains v name
          (World (fs w) (view_of v :: opened w) (reads w))).1
         = Ok (h5_contains name r)).
Proof.
  intros Hr Hclosed. exists (KeysView (Handle f_h5 ModeR)). split_and!.
  - unfold get_score_methods. rewrite (with_File_run _ _ _ _ r) by done.
    simpl. rewrite decide_True by done. by destruct w.
  - intros name. unfold view_contains. simpl.
    by rewrite bool_decide_eq_false_2.
  - intros name. unfold view_contains. simpl.
    rewrite bool_decide_eq_true_2 by left.
    rewrite M_bind_run. unfold root; simpl. by rewrite Hr.
Qed.

Lemma get_score_methods_view_closed_witness :
  h5_keys [("mu"%string, Dataset [1; 2] "gzip"%string);
           ("sigma"%string, Dataset [3] "gzip"%string)]
    = ["mu"; "sigma"]%string ∧
  ∃ v, get_score_methods "data.h5" flat_world = (Ok v, flat_world) ∧
       view_contains v "mu" flat_world = (Ok false, flat_world).
Proof.
  split; [reflexivity|].
  destruct (get_score_methods_view_closed "data.h5" flat_world
              [("mu"%string, Dataset [1; 2] "gzip"%string);
               ("sigma"%string, Dataset [3] "gzip"%string)])
    as (v & Hv & Hclosed & _).
  - reflexivity.
  - apply not_elem_of_nil.
  - exists v. split; [done|]. apply Hclosed.
Defined.
